(** * gdxpds.gdx: GdxFile and GdxSymbol

    A shallow embedding of [gdxpds/gdx.py].  Python objects are records,
    methods are state-passing functions in a state-and-exception monad whose
    state survives a raised exception (as a Python object does), and the
    external collaborators ([gdxcc], [pandas], [gdx2py]) are small models
    kept in modules named after the imports. *)

From Stdlib Require Import List String ZArith Lia Bool Floats.PrimFloat.
Import ListNotations.
Local Open Scope string_scope.
Local Open Scope list_scope.

(** ** Python runtime: exceptions, results, the method monad *)

Module Py.

  (** The exception classes that the module can raise.  [Error] is
      [gdxpds.Error]; [GdxError] is its subclass defined in this file. *)
Inductive Exn : Type :=
| Error (msg : string)
| GdxError (msg : string)
| NameError (name : string)
| ValueError
| AttributeError
| IndexError
| KeyError
| TypeError
| AssertionError.

Inductive Res (A : Type) : Type :=
| Ok (a : A)
| Raise (e : Exn).
Arguments Ok {A} a.
Arguments Raise {A} e.

Definition is_ok {A} (r : Res A) : bool :=
  match r with Ok _ => true | Raise _ => false end.

  (** A method over a mutable state [S]: the state is returned on every
      exit path, so mutations made before a [raise] stay visible. *)
Definition M (S A : Type) : Type := S -> Res A * S.

Definition ret {S A} (a : A) : M S A := fun st => (Ok a, st).

Definition raise {S A} (e : Exn) : M S A := fun st => (Raise e, st).

Definition bind {S A B} (m : M S A) (k : A -> M S B) : M S B :=
  fun st =>
    match m st with
    | (Ok a, st') => k a st'
    | (Raise e, st') => (Raise e, st')
    end.

Definition get {S} : M S S := fun st => (Ok st, st).

Definition modify {S} (f : S -> S) : M S unit := fun st => (Ok tt, f st).

Definition liftR {S A} (r : Res A) : M S A := fun st => (r, st).

  (** [if c: body] with no [else]. *)
Definition when {S} (c : bool) (body : M S unit) : M S unit :=
  if c then body else ret tt.

  (** [for x in xs: body x] over an already evaluated sequence. *)
Fixpoint for_each {S A} (xs : list A) (body : A -> M S unit) : M S unit :=
  match xs with
  | [] => ret tt
  | x :: xs' => bind (body x) (fun _ => for_each xs' body)
  end.

  (** Levels of the [logging] module used by the code. *)
Inductive Level : Type := DEBUG | INFO | WARNING.

  (** [range(n)] for a Python int [n]. *)
Definition range (n : Z) : list Z := map Z.of_nat (seq 0 (Z.to_nat n)).

  (** [l[i]] for a Python list, negative indices counting from the end. *)
Definition list_index {A} (l : list A) (i : Z) : Res A :=
  let n := Z.of_nat (List.length l) in
  let j := if (i <? 0)%Z then (i + n)%Z else i in
  if ((j <? 0) || (n <=? j))%Z then Raise IndexError
  else match nth_error l (Z.to_nat j) with
       | Some x => Ok x
       | None => Raise IndexError
       end.

  (** [l.insert(i, x)]: the position is clamped to [0 .. len(l)]. *)
Definition list_insert {A} (i : Z) (x : A) (l : list A) : list A :=
  let n := Z.of_nat (List.length l) in
  let j := if (i <? 0)%Z then Z.max 0 (i + n) else Z.min i n in
  firstn (Z.to_nat j) l ++ x :: skipn (Z.to_nat j) l.

  (** [l[:n]], the slice with a possibly negative stop. *)
Definition list_upto {A} (l : list A) (n : Z) : list A :=
  let len := Z.of_nat (List.length l) in
  let j := if (n <? 0)%Z then Z.max 0 (n + len) else Z.min n len in
  firstn (Z.to_nat j) l.

  (** The truth value of a list: false when empty. *)
Definition list_truthy {A} (l : list A) : bool :=
  match l with [] => false | _ :: _ => true end.

  (** A Python string is kept as the bytes of its UTF-8 encoding.  Python
      counts and unpacks characters, not bytes: the bytes [10xxxxxx] that
      continue a character are not counted. *)
Definition is_continuation (c : Ascii.ascii) : bool :=
  match c with
  | Ascii.Ascii _ _ _ _ _ _ b6 b7 => b7 && negb b6
  end.

  (** [len(s)] of a string. *)
Fixpoint str_len (s : string) : nat :=
  match s with
  | EmptyString => 0
  | String c s' => (if is_continuation c then 0 else 1) + str_len s'
  end.

End Py.
Import Py.

Declare Scope py_scope.
Delimit Scope py_scope with py.
Notation "x <- m ;; k" := (bind m (fun x => k))
  (at level 61, m at next level, right associativity) : py_scope.
Notation "' pat <- m ;; k" := (bind m (fun x => match x with pat => k end))
  (at level 61, pat pattern, m at next level, right associativity) : py_scope.
Notation "m ;;; k" := (bind m (fun _ => k))
  (at level 61, right associativity) : py_scope.
Local Open Scope py_scope.

(** ** collections.OrderedDict with string keys *)

Module OrderedDict.

Definition t (V : Type) : Type := list (string * V).

Definition keys {V} (d : t V) : list string := map fst d.

Definition values {V} (d : t V) : list V := map snd d.

  (** [d[k]]: [KeyError] when absent. *)
Fixpoint get {V} (k : string) (d : t V) : option V :=
  match d with
  | [] => None
  | (k', v) :: d' => if String.eqb k k' then Some v else get k d'
  end.

  (** [d[k] = v]: an existing key keeps its position, a new key goes last. *)
Fixpoint set {V} (k : string) (v : V) (d : t V) : t V :=
  match d with
  | [] => [(k, v)]
  | (k', v') :: d' =>
      if String.eqb k k' then (k', v) :: d' else (k', v') :: set k v d'
  end.

  (** [del d[k]]. *)
Fixpoint del {V} (k : string) (d : t V) : t V :=
  match d with
  | [] => []
  | (k', v') :: d' => if String.eqb k k' then d' else (k', v') :: del k d'
  end.

  (** [OrderedDict(pairs)]: pairs are stored left to right, so a repeated
      key keeps the position of its first pair and the value of its last. *)
Definition of_pairs {V} (pairs : list (string * V)) : t V :=
  fold_left (fun d kv => set (fst kv) (snd kv) d) pairs [].

End OrderedDict.

(** ** The enumerations of the module and the values of [gdxcc] behind them *)

Module gdxcc_const.

Definition GMS_DT_SET : Z := 0.
Definition GMS_DT_PAR : Z := 1.
Definition GMS_DT_VAR : Z := 2.
Definition GMS_DT_EQU : Z := 3.
Definition GMS_DT_ALIAS : Z := 4.

Definition GMS_VARTYPE_UNKNOWN : Z := 0.
Definition GMS_VARTYPE_BINARY : Z := 1.
Definition GMS_VARTYPE_INTEGER : Z := 2.
Definition GMS_VARTYPE_POSITIVE : Z := 3.
Definition GMS_VARTYPE_NEGATIVE : Z := 4.
Definition GMS_VARTYPE_FREE : Z := 5.
Definition GMS_VARTYPE_SOS1 : Z := 6.
Definition GMS_VARTYPE_SOS2 : Z := 7.
Definition GMS_VARTYPE_SEMICONT : Z := 8.
Definition GMS_VARTYPE_SEMIINT : Z := 9.

Definition GMS_VAL_LEVEL : Z := 0.
Definition GMS_VAL_MARGINAL : Z := 1.
Definition GMS_VAL_LOWER : Z := 2.
Definition GMS_VAL_UPPER : Z := 3.
Definition GMS_VAL_SCALE : Z := 4.

End gdxcc_const.
Import gdxcc_const.

  (** [class GamsDataType(Enum)]; [Set] is written [DT_Set] and so on. *)
Inductive GamsDataType : Type :=
| DT_Set | DT_Parameter | DT_Variable | DT_Equation | DT_Alias.

  (** [class GamsVariableType(Enum)]. *)
Inductive GamsVariableType : Type :=
| VT_Unknown | VT_Binary | VT_Integer | VT_Positive | VT_Negative
| VT_Free | VT_SOS1 | VT_SOS2 | VT_Semicont | VT_Semiint.

  (** [class GamsValueType(Enum)]. *)
Inductive GamsValueType : Type :=
| Level_ | Marginal_ | Lower_ | Upper_ | Scale_.

Definition GamsDataType_eqb (a b : GamsDataType) : bool :=
  match a, b with
  | DT_Set, DT_Set | DT_Parameter, DT_Parameter | DT_Variable, DT_Variable
  | DT_Equation, DT_Equation | DT_Alias, DT_Alias => true
  | _, _ => false
  end.

Definition GamsDataType_members : list GamsDataType :=
  [DT_Set; DT_Parameter; DT_Variable; DT_Equation; DT_Alias].

Definition GamsDataType_value (k : GamsDataType) : Z :=
  match k with
  | DT_Set => GMS_DT_SET
  | DT_Parameter => GMS_DT_PAR
  | DT_Variable => GMS_DT_VAR
  | DT_Equation => GMS_DT_EQU
  | DT_Alias => GMS_DT_ALIAS
  end.

Definition GamsVariableType_members : list GamsVariableType :=
  [VT_Unknown; VT_Binary; VT_Integer; VT_Positive; VT_Negative;
   VT_Free; VT_SOS1; VT_SOS2; VT_Semicont; VT_Semiint].

Definition GamsVariableType_value (t : GamsVariableType) : Z :=
  match t with
  | VT_Unknown => GMS_VARTYPE_UNKNOWN
  | VT_Binary => GMS_VARTYPE_BINARY
  | VT_Integer => GMS_VARTYPE_INTEGER
  | VT_Positive => GMS_VARTYPE_POSITIVE
  | VT_Negative => GMS_VARTYPE_NEGATIVE
  | VT_Free => GMS_VARTYPE_FREE
  | VT_SOS1 => GMS_VARTYPE_SOS1
  | VT_SOS2 => GMS_VARTYPE_SOS2
  | VT_Semicont => GMS_VARTYPE_SEMICONT
  | VT_Semiint => GMS_VARTYPE_SEMIINT
  end.

  (** Members in definition order, which is the order [for value_type in
      GamsValueType] visits them. *)
Definition GamsValueType_members : list GamsValueType :=
  [Level_; Marginal_; Lower_; Upper_; Scale_].

Definition GamsValueType_name (c : GamsValueType) : string :=
  match c with
  | Level_ => "Level"
  | Marginal_ => "Marginal"
  | Lower_ => "Lower"
  | Upper_ => "Upper"
  | Scale_ => "Scale"
  end.

Definition GamsValueType_value (c : GamsValueType) : Z :=
  match c with
  | Level_ => GMS_VAL_LEVEL
  | Marginal_ => GMS_VAL_MARGINAL
  | Lower_ => GMS_VAL_LOWER
  | Upper_ => GMS_VAL_UPPER
  | Scale_ => GMS_VAL_SCALE
  end.

  (** A column label of a table: a string, or something that is not one. *)
Inductive Label : Type :=
| LStr (s : string)
| LInt (z : Z).

Definition is_string_label (l : Label) : bool :=
  match l with LStr _ => true | LInt _ => false end.

  (** The argument values on which the setters branch by dynamic type. *)
#[warnings="-register-all"]
Inductive PyVal : Type :=
| PNone
| PBool (b : bool)
| PInt (z : Z)
| PStr (s : string)
| PList (l : list PyVal)
| PIndex (l : list Label)
| PDataType (k : GamsDataType)
| PVarType (t : GamsVariableType).

  (** [isinstance(v, int)], true of [bool] too, with the integer meant. *)
Definition as_int (v : PyVal) : option Z :=
  match v with
  | PInt z => Some z
  | PBool b => Some (if b then 1 else 0)%Z
  | _ => None
  end.

  (** [GamsDataType(value)]: a member, or the member with that value. *)
Definition GamsDataType_call (v : PyVal) : Res GamsDataType :=
  match v with
  | PDataType k => Ok k
  | _ =>
      match as_int v with
      | Some z =>
          match find (fun k => (GamsDataType_value k =? z)%Z)
                     GamsDataType_members with
          | Some k => Ok k
          | None => Raise ValueError
          end
      | None => Raise ValueError
      end
  end.

  (** [GamsVariableType(value)]. *)
Definition GamsVariableType_call (v : PyVal) : Res GamsVariableType :=
  match v with
  | PVarType t => Ok t
  | _ =>
      match as_int v with
      | Some z =>
          match find (fun t => (GamsVariableType_value t =? z)%Z)
                     GamsVariableType_members with
          | Some t => Ok t
          | None => Raise ValueError
          end
      | None => Raise ValueError
      end
  end.

  (** [GAMS_VALUE_COLS_MAP]: a [defaultdict] whose default is the single
      column [('Value', Level)], with the five channels for [Variable] and
      the same list for [Equation]. *)
Definition GAMS_VALUE_COLS_MAP (k : GamsDataType) : list (string * Z) :=
  match k with
  | DT_Variable | DT_Equation =>
      map (fun c => (GamsValueType_name c, GamsValueType_value c))
          GamsValueType_members
  | _ => [("Value", GamsValueType_value Level_)]
  end.

(** ** pandas: the part of [DataFrame] that the module relies on *)

Module pds.

  (** A table cell: a domain element, a numeric channel value (a Python
      float, only ever copied), or the marker stored for set rows. *)
Inductive Cell : Type :=
| CStr (s : string)
| CFloat (x : float)
| CBool (b : bool).

Record DataFrame : Type := mkDataFrame {
  columns : list Label;
  rows : list (list Cell)
}.

  (** [len(df.index)]. *)
Definition len_index (df : DataFrame) : Z := Z.of_nat (List.length (rows df)).

Definition width (data : list (list Cell)) : nat :=
  fold_right (fun r w => Nat.max (List.length r) w) 0 data.

Definition pad (w : nat) (r : list Cell) : list Cell :=
  r ++ repeat (CFloat nan) (w - List.length r).

  (** [pds.DataFrame(data, columns=cols)] for a list of rows: no rows give
      an empty table with these columns; otherwise short rows are filled
      with NaN up to the longest, and a number of columns different from
      that length is refused. *)
Definition DataFrame_call (data : list (list Cell)) (cols : list Label)
  : Res DataFrame :=
  match data with
  | [] => Ok (mkDataFrame cols [])
  | _ =>
      if Nat.eqb (width data) (List.length cols)
      then Ok (mkDataFrame cols (map (pad (width data)) data))
      else Raise ValueError
  end.

  (** [df.columns = cols]: refused unless the length matches. *)
Definition set_columns (df : DataFrame) (cols : list Label) : Res DataFrame :=
  if Nat.eqb (List.length cols) (List.length (columns df))
  then Ok (mkDataFrame cols (rows df))
  else Raise ValueError.

End pds.

(** ** gdxcc: the GDX handle as a capability

    The calls are those the module makes; each returns its answer and the
    next state of the handle.  [gdxOpenRead] answers with the success flag
    that the code tests as [rc[0]].  [gdxOpenWrite] answers with the list
    of the return code and the error number, which the code tests as a
    whole, as [ret]. *)

Module gdxcc.

  (** The array of channel values of one record, indexed by the
      [GMS_VAL_*] constants. *)
Record Values : Type := mkValues {
  level : float;
  marginal : float;
  lower : float;
  upper : float;
  scale : float
}.

  (** [values[i]]. *)
Definition values_index (v : Values) (i : Z) : Res float :=
  Py.list_index [level v; marginal v; lower v; upper v; scale v] i.

  (** What an opened file answers; every answer starts with the return
      code of the call. *)
Record Content : Type := mkContent {
  file_version : Z * string * string;
  system_info : Z * Z * Z;
  symbol_info : Z -> Z * string * Z * Z;
  symbol_info_x : Z -> Z * Z * Z * string;
  symbol_get_domain_x : Z -> Z * list string;
  data_read_str_start : Z -> Z * Z;
  data_read_str : Z -> nat -> Z * list string * Values * Z
}.

Inductive Call : Type :=
| OpenRead (filename : string)
| FileVersion
| SystemInfo
| SymbolInfo (index : Z)
| SymbolInfoX (index : Z)
| SymbolGetDomainX (index : Z)
| DataReadStrStart (index : Z)
| DataReadStr
| OpenWrite (filename producer : string)
| Close
| DataWrite (name : string) (data : list (list pds.Cell)).

  (** The state behind the handle [H]: the file opened for reading, the
      read position inside the symbol being streamed, and every call made
      so far, oldest first. *)
Record Handle : Type := mkHandle {
  opened : option string;
  cursor : option (Z * nat);
  calls : list Call
}.

Definition new_gdxHandle_tp : Handle := mkHandle None None [].

  (** What lies outside the process: the files that can be opened for
      reading, and what opening a path for writing answers: the return
      code (not 0 when the path was opened) and the error number. *)
Record Backend : Type := mkBackend {
  disk : string -> option Content;
  open_write : string -> Z * Z
}.

Section Calls.

Context (be : Backend).

Definition record (c : Call) (h : Handle) : Handle :=
  mkHandle (opened h) (cursor h) (calls h ++ [c]).

Definition content (h : Handle) : option Content :=
  match opened h with
  | Some p => disk be p
  | None => None
  end.

Definition gdxOpenRead (filename : string) (h : Handle) : bool * Handle :=
  let h := record (OpenRead filename) h in
  match disk be filename with
  | Some _ => (true, mkHandle (Some filename) None (calls h))
  | None => (false, h)
  end.

Definition gdxFileVersion (h : Handle) : (Z * string * string) * Handle :=
  let h := record FileVersion h in
  match content h with
  | Some c => (file_version c, h)
  | None => ((0%Z, "", ""), h)
  end.

Definition gdxSystemInfo (h : Handle) : (Z * Z * Z) * Handle :=
  let h := record SystemInfo h in
  match content h with
  | Some c => (system_info c, h)
  | None => ((0%Z, 0%Z, 0%Z), h)
  end.

Definition gdxSymbolInfo (i : Z) (h : Handle) : (Z * string * Z * Z) * Handle :=
  let h := record (SymbolInfo i) h in
  match content h with
  | Some c => (symbol_info c i, h)
  | None => ((0%Z, "", 0%Z, 0%Z), h)
  end.

Definition gdxSymbolInfoX (i : Z) (h : Handle) : (Z * Z * Z * string) * Handle :=
  let h := record (SymbolInfoX i) h in
  match content h with
  | Some c => (symbol_info_x c i, h)
  | None => ((0%Z, 0%Z, 0%Z, ""), h)
  end.

Definition gdxSymbolGetDomainX (i : Z) (h : Handle) : (Z * list string) * Handle :=
  let h := record (SymbolGetDomainX i) h in
  match content h with
  | Some c => (symbol_get_domain_x c i, h)
  | None => ((0%Z, []), h)
  end.

Definition gdxDataReadStrStart (i : Z) (h : Handle) : (Z * Z) * Handle :=
  let h := record (DataReadStrStart i) h in
  match content h with
  | Some c => (data_read_str_start c i, mkHandle (opened h) (Some (i, 0)) (calls h))
  | None => ((0%Z, 0%Z), h)
  end.

Definition no_values : Values := mkValues 0 0 0 0 0.

Definition gdxDataReadStr (h : Handle)
  : (Z * list string * Values * Z) * Handle :=
  let h := record DataReadStr h in
  match content h, cursor h with
  | Some c, Some (i, k) =>
      (data_read_str c i k, mkHandle (opened h) (Some (i, S k)) (calls h))
  | _, _ => ((0%Z, [], no_values, 0%Z), h)
  end.

Definition gdxOpenWrite (filename producer : string) (h : Handle)
  : list Z * Handle :=
  let h := record (OpenWrite filename producer) h in
  ([fst (open_write be filename); snd (open_write be filename)], h).

Definition gdxClose (h : Handle) : unit * Handle :=
  (tt, mkHandle None None (calls h ++ [Close])).

End Calls.

End gdxcc.

(** ** The objects *)

  (** A reference to the [GdxFile] object of the world.  The development
      follows one container; a symbol's [_file] is [None] or points to it. *)
Inductive FileRef : Type := this_file.

  (** The attributes of a [GdxSymbol].  [_dims] and [_num_records] are
      [None] while the attribute has not been assigned yet (reading it is an
      [AttributeError]); [_dataframe], [_variable_type], [_file] and
      [_index] are [None] when they hold Python's [None]. *)
Record GdxSymbol : Type := mkGdxSymbol {
  _name : string;
  description : string;
  _loaded : bool;
  _data_type : GamsDataType;
  _variable_type : option GamsVariableType;
  _dataframe : option pds.DataFrame;
  _dims : option (list string);
  _file : option FileRef;
  _index : option Z;
  _num_records : option Z
}.

Record GdxFile : Type := mkGdxFile {
  lazy_load : bool;
  _version : option string;
  _producer : option string;
  _filename : option string;
  universal_set : option GdxSymbol;
  _symbols : OrderedDict.t GdxSymbol
}.

  (** Everything a method can touch: the container, the state behind its
      handle [H], and the records handed to [logger]. *)
Record World : Type := mkWorld {
  file : GdxFile;
  H : gdxcc.Handle;
  log : list (Level * string)
}.

  (** What is fixed from outside: the GDX back end, whether [gdx2py] could
      be imported, and what [gdx2py.par2list(filename, name)] returns. *)
Record Env : Type := mkEnv {
  backend : gdxcc.Backend;
  HAVE_GDX2PY : bool;
  par2list : option string -> string -> list (list pds.Cell)
}.

Definition with_description (v : string) (s : GdxSymbol) : GdxSymbol :=
  mkGdxSymbol (_name s) v (_loaded s) (_data_type s) (_variable_type s)
    (_dataframe s) (_dims s) (_file s) (_index s) (_num_records s).

Definition with_loaded (v : bool) (s : GdxSymbol) : GdxSymbol :=
  mkGdxSymbol (_name s) (description s) v (_data_type s) (_variable_type s)
    (_dataframe s) (_dims s) (_file s) (_index s) (_num_records s).

Definition with_data_type (v : GamsDataType) (s : GdxSymbol) : GdxSymbol :=
  mkGdxSymbol (_name s) (description s) (_loaded s) v (_variable_type s)
    (_dataframe s) (_dims s) (_file s) (_index s) (_num_records s).

Definition with_variable_type (v : option GamsVariableType) (s : GdxSymbol)
  : GdxSymbol :=
  mkGdxSymbol (_name s) (description s) (_loaded s) (_data_type s) v
    (_dataframe s) (_dims s) (_file s) (_index s) (_num_records s).

Definition with_dataframe (v : option pds.DataFrame) (s : GdxSymbol)
  : GdxSymbol :=
  mkGdxSymbol (_name s) (description s) (_loaded s) (_data_type s)
    (_variable_type s) v (_dims s) (_file s) (_index s) (_num_records s).

Definition with_dims (v : option (list string)) (s : GdxSymbol) : GdxSymbol :=
  mkGdxSymbol (_name s) (description s) (_loaded s) (_data_type s)
    (_variable_type s) (_dataframe s) v (_file s) (_index s) (_num_records s).

Definition with_file (v : option FileRef) (s : GdxSymbol) : GdxSymbol :=
  mkGdxSymbol (_name s) (description s) (_loaded s) (_data_type s)
    (_variable_type s) (_dataframe s) (_dims s) v (_index s) (_num_records s).

Definition with_index (v : option Z) (s : GdxSymbol) : GdxSymbol :=
  mkGdxSymbol (_name s) (description s) (_loaded s) (_data_type s)
    (_variable_type s) (_dataframe s) (_dims s) (_file s) v (_num_records s).

Definition with_num_records (v : option Z) (s : GdxSymbol) : GdxSymbol :=
  mkGdxSymbol (_name s) (description s) (_loaded s) (_data_type s)
    (_variable_type s) (_dataframe s) (_dims s) (_file s) (_index s) v.

Definition with_filename (v : option string) (f : GdxFile) : GdxFile :=
  mkGdxFile (lazy_load f) (_version f) (_producer f) v (universal_set f)
    (_symbols f).

Definition with_version (v : option string) (f : GdxFile) : GdxFile :=
  mkGdxFile (lazy_load f) v (_producer f) (_filename f) (universal_set f)
    (_symbols f).

Definition with_producer (v : option string) (f : GdxFile) : GdxFile :=
  mkGdxFile (lazy_load f) (_version f) v (_filename f) (universal_set f)
    (_symbols f).

Definition with_universal_set (v : option GdxSymbol) (f : GdxFile) : GdxFile :=
  mkGdxFile (lazy_load f) (_version f) (_producer f) (_filename f) v
    (_symbols f).

Definition with_symbols (v : OrderedDict.t GdxSymbol) (f : GdxFile) : GdxFile :=
  mkGdxFile (lazy_load f) (_version f) (_producer f) (_filename f)
    (universal_set f) v.

  (** Steps on the world: a log record, a call through the handle, an
      update of the container. *)
Definition logger (lvl : Level) (msg : string) : M World unit :=
  modify (fun w => mkWorld (file w) (H w) (log w ++ [(lvl, msg)])).

Definition call {A} (c : gdxcc.Handle -> A * gdxcc.Handle) : M World A :=
  fun w => let (a, h) := c (H w) in (Ok a, mkWorld (file w) h (log w)).

Definition updf (g : GdxFile -> GdxFile) : M World unit :=
  modify (fun w => mkWorld (g (file w)) (H w) (log w)).

  (** [len(self)] of the container, placed here because the truth value of
      a [GdxFile] in [if self.file:] is that of its length. *)
Definition GdxFile_len (f : GdxFile) : nat := List.length (_symbols f).

(** ** class GdxSymbol *)

Module GdxSymbol.

Section Methods.

Context (env : Env).

  (** The state of a method call: the object itself and the world. *)
Definition St : Type := (GdxSymbol * World)%type.

Definition self : M St GdxSymbol := fun st => (Ok (fst st), st).

Definition upd (g : GdxSymbol -> GdxSymbol) : M St unit :=
  modify (fun st => (g (fst st), snd st)).

Definition world {A} (m : M World A) : M St A :=
  fun st => let (r, w) := m (snd st) in (r, (fst st, w)).

  (** *** Properties *)

Definition value_cols (s : GdxSymbol) : list (string * Z) :=
  GAMS_VALUE_COLS_MAP (_data_type s).

Definition value_col_names (s : GdxSymbol) : list string :=
  map fst (value_cols s).

Definition dims (s : GdxSymbol) : Res (list string) :=
  match _dims s with
  | Some d => Ok d
  | None => Raise AttributeError
  end.

Definition num_dims (s : GdxSymbol) : Res nat :=
  match dims s with
  | Ok d => Ok (List.length d)
  | Raise e => Raise e
  end.

  (** [self.dims + self.value_col_names], the labels every table of the
      symbol is given. *)
Definition own_columns (s : GdxSymbol) : Res (list Label) :=
  match dims s with
  | Ok d => Ok (map LStr (d ++ value_col_names s))
  | Raise e => Raise e
  end.

Definition num_records (s : GdxSymbol) : Res Z :=
  if _loaded s then
    match _dataframe s with
    | Some df => Ok (pds.len_index df)
    | None => Raise AttributeError
    end
  else
    match _num_records s with
    | Some n => Ok n
    | None => Raise AttributeError
    end.

  (** The truth value of [self.file]: [None] is false, and so is a
      container of length 0, since [GdxFile] defines [__len__] and neither
      it nor [MutableSequence] defines [__bool__] ([NeedsGamsDir], which
      lives in another module, is taken not to define it either). *)
Definition file_truthy (st : St) : bool :=
  match _file (fst st) with
  | Some this_file => negb (Nat.eqb (GdxFile_len (file (snd st))) 0)
  | None => false
  end.

  (** The truth value of [self.index]: false for [None] and for 0. *)
Definition index_truthy (s : GdxSymbol) : bool :=
  match _index s with
  | Some i => negb (i =? 0)%Z
  | None => false
  end.

Definition _init_dataframe : M St unit :=
  s <- self ;;
  cols <- liftR (own_columns s) ;;
  df <- liftR (pds.DataFrame_call [] cols) ;;
  upd (with_dataframe (Some df)).

  (** *** [variable_type] setter *)

Definition set_variable_type (value : PyVal) : M St unit :=
  s <- self ;;
  if GamsDataType_eqb (_data_type s) DT_Variable then
    match GamsVariableType_call value with
    | Ok t => upd (with_variable_type (Some t))
    | Raise _ =>
        match _variable_type s with
        | Some _ =>
            world (logger DEBUG "Ignoring invalid GamsVariableType request.")
        | None =>
            world (logger DEBUG "Setting variable_type to GamsVariableType.Free.") ;;;
            upd (with_variable_type (Some VT_Free))
        end
    end
  else
    when (match value with PNone => false | _ => true end)
      (world (logger WARNING
         "GdxSymbol is not a Variable, so setting variable_type to None")) ;;;
    upd (with_variable_type None).

  (** *** [dims] setter *)

Definition is_list (v : PyVal) : bool :=
  match v with PList _ => true | _ => false end.

  (** [len(value)] where the setter takes it. *)
Definition py_len (v : PyVal) : nat :=
  match v with
  | PList l => List.length l
  | PIndex l => List.length l
  | _ => 0
  end.

  (** The loop [for dim in value: if not isinstance(dim, string_types):
      raise]; the strings are collected on the way. *)
Fixpoint check_dims (l : list PyVal) : Res (list string) :=
  match l with
  | [] => Ok []
  | PStr d :: l' =>
      match check_dims l' with
      | Ok ds => Ok (d :: ds)
      | Raise e => Raise e
      end
  | _ :: _ =>
      Raise (Error "Individual dimensions must be denoted by strings.")
  end.

Definition has_records : M St bool :=
  s <- self ;;
  if _loaded s then
    n <- liftR (num_records s) ;;
    ret (0 <? n)%Z
  else ret false.

Definition set_dims (value : PyVal) : M St unit :=
  populated <- has_records ;;
  when populated
    (s <- self ;;
     differs <- (if is_list value
                 then nd <- liftR (num_dims s) ;;
                      ret (negb (Nat.eqb (py_len value) nd))
                 else ret true) ;;
     when differs
       (_ <- liftR (dims s) ;;
        world (logger WARNING
          "Cannot set dims, because dataframe already contains data."))) ;;;
  match as_int value, value with
  | Some n, _ =>
      upd (with_dims (Some (repeat "*" (Z.to_nat n)))) ;;;
      _init_dataframe
  | None, PList l =>
      ds <- liftR (check_dims l) ;;
      s <- self ;;
      nd <- liftR (num_dims s) ;;
      when (Nat.ltb 0 nd && negb (Nat.eqb nd (List.length l)))
        (world (logger WARNING "number of dimensions is changing")) ;;;
      upd (with_dims (Some ds)) ;;;
      populated <- has_records ;;
      if populated then
        s <- self ;;
        cols <- liftR (own_columns s) ;;
        match _dataframe s with
        | Some df =>
            df' <- liftR (pds.set_columns df cols) ;;
            upd (with_dataframe (Some df'))
        | None => raise AttributeError
        end
      else _init_dataframe
  | None, _ =>
      raise (Error "dims must be an int or a list.")
  end.

  (** *** [data_type] setter *)

Definition set_data_type (value : PyVal) : M St unit :=
  s <- self ;;
  blocked <- (if negb (_loaded s) then ret true
              else n <- liftR (num_records s) ;; ret (0 <? n)%Z) ;;
  if (blocked : bool) then
    raise (Error "Cannot change the data_type of a GdxSymbol that is yet to be read for file or contains records.")
  else
    k <- liftR (GamsDataType_call value) ;;
    upd (with_data_type k) ;;;
    set_variable_type PNone ;;;
    _init_dataframe.

  (** *** [dataframe] setter *)

Inductive TableArg : Type :=
| ADataFrame (df : pds.DataFrame)
| ARows (data : list (list pds.Cell)).

Definition set_dataframe (data : TableArg) : M St unit :=
  match data with
  | ADataFrame df =>
      s <- self ;;
      let num_dims' :=
        (Z.of_nat (List.length (pds.columns df))
         - Z.of_nat (List.length (value_cols s)))%Z in
      let dim_cols := Py.list_upto (pds.columns df) num_dims' in
      let replace_dims := forallb is_string_label dim_cols in
      when replace_dims (set_dims (PIndex dim_cols)) ;;;
      s <- self ;;
      nd <- liftR (num_dims s) ;;
      when (negb (num_dims' =? Z.of_nat nd)%Z) (set_dims (PInt num_dims')) ;;;
      (* [copy.deepcopy(data)]: the module never imports [copy], so the
         two assignments that follow in the source are never reached. *)
      raise (NameError "copy")
  | ARows rows =>
      s <- self ;;
      cols <- liftR (own_columns s) ;;
      df <- liftR (pds.DataFrame_call rows cols) ;;
      upd (with_dataframe (Some df))
  end.

  (** *** [load] *)

  (** [[values[col_ind] for col_name, col_ind in self.value_cols]]. *)
Fixpoint pick_values (values : gdxcc.Values) (cols : list (string * Z))
  : Res (list pds.Cell) :=
  match cols with
  | [] => Ok []
  | (_, col_ind) :: cols' =>
      match gdxcc.values_index values col_ind with
      | Ok x =>
          match pick_values values cols' with
          | Ok xs => Ok (pds.CFloat x :: xs)
          | Raise e => Raise e
          end
      | Raise e => Raise e
      end
  end.

  (** [row[-1] = x]. *)
Definition set_last (x : pds.Cell) (row : list pds.Cell)
  : Res (list pds.Cell) :=
  match row with
  | [] => Raise IndexError
  | _ => Ok (removelast row ++ [x])
  end.

  (** The body of [for i in range(records)], run [n] more times on the
      rows read so far. *)
Fixpoint read_records (n : nat) (data : list (list pds.Cell))
  : M St (list (list pds.Cell)) :=
  match n with
  | O => ret data
  | S n' =>
      '(_, elements, values, _) <-
         world (call (gdxcc.gdxDataReadStr (backend env))) ;;
      s <- self ;;
      vs <- liftR (pick_values values (value_cols s)) ;;
      let row := map pds.CStr elements ++ vs in
      row <- (if GamsDataType_eqb (_data_type s) DT_Set
              then liftR (set_last (pds.CBool true) row)
              else ret row) ;;
      read_records n' (data ++ [row])
  end.

Definition load : M St unit :=
  s <- self ;;
  if _loaded s then
    world (logger INFO "Nothing to do. Symbol already loaded.")
  else fun st =>
    (if negb (file_truthy st) then
       raise (Error "Cannot load because there is no file pointer")
     else if negb (index_truthy s) then
       raise (Error "Cannot load because there is no symbol index")
     else if GamsDataType_eqb (_data_type s) DT_Parameter && HAVE_GDX2PY env then
       set_dataframe
         (ARows (par2list env (_filename (file (snd st))) (_name s))) ;;;
       upd (with_loaded true)
     else
       '(_, records) <-
          world (call (gdxcc.gdxDataReadStrStart (backend env)
                         (match _index s with Some i => i | None => 0%Z end))) ;;
       data <- read_records (Z.to_nat records) [] ;;
       set_dataframe (ARows data) ;;;
       upd (with_loaded true)) st.

  (** *** [write] *)

  (** Modelled from the spec: the body of [GdxSymbol.write] is missing from
      the source (the method holds a lone comment).  The spec requires the
      symbol to be loaded and has every row of its table streamed through
      the session; the stream of one symbol is kept as one [DataWrite] call
      carrying the symbol's name and rows. *)
Definition write : M St unit :=
  s <- self ;;
  if negb (_loaded s) then
    raise (Error "Symbol must be loaded before it can be written.")
  else
    world (call (fun h =>
      (tt, gdxcc.record
             (gdxcc.DataWrite (_name s)
                (match _dataframe s with
                 | Some df => pds.rows df
                 | None => []
                 end)) h))).

  (** *** [__init__] *)

Definition __init__ (name : string) (data_type : PyVal) (dims_arg : PyVal)
    (file_arg : option FileRef) (index : option Z) (description_arg : string)
    (variable_type : PyVal) : M World GdxSymbol :=
  k <- liftR (GamsDataType_call data_type) ;;
  fun w =>
    let s0 :=
      mkGdxSymbol name description_arg false k None None None None None None in
    let body : M St unit :=
      set_variable_type variable_type ;;;
      set_dims dims_arg ;;;
      s <- self ;;
      when (match _dataframe s with None => true | Some _ => false end)
        (raise AssertionError) ;;;
      upd (with_file file_arg) ;;;
      upd (with_index index) ;;;
      fun st =>
        (if file_truthy st then
           match index with
           | None => raise TypeError
           | Some i =>
               '(ret_, records, userinfo, descr) <-
                  world (call (gdxcc.gdxSymbolInfoX (backend env) i)) ;;
               when (negb (ret_ =? 1)%Z)
                 (raise (GdxError "Unable to get extended symbol information")) ;;;
               upd (with_num_records (Some records)) ;;;
               s <- self ;;
               when (GamsDataType_eqb (_data_type s) DT_Variable)
                 (t <- liftR (GamsVariableType_call (PInt userinfo)) ;;
                  set_variable_type (PVarType t)) ;;;
               upd (with_description descr) ;;;
               when (0 <? i)%Z
                 ('(ret_, gdx_domain) <-
                    world (call (gdxcc.gdxSymbolGetDomainX (backend env) i)) ;;
                  when (ret_ =? 0)%Z
                    (raise (GdxError "Unable to get domain information")) ;;;
                  s <- self ;;
                  nd <- liftR (num_dims s) ;;
                  when (negb (Nat.eqb (List.length gdx_domain) nd))
                    (raise AssertionError) ;;;
                  set_dims (PList (map PStr gdx_domain)))
           end
         else upd (with_loaded true)) st
    in
    match body (s0, w) with
    | (Ok _, (s, w')) => (Ok s, w')
    | (Raise e, (_, w')) => (Raise e, w')
    end.

  (** *** [full_typename] *)

  (** [member.name] of the two enumerations. *)
Definition GamsDataType_name (k : GamsDataType) : string :=
  match k with
  | DT_Set => "Set"
  | DT_Parameter => "Parameter"
  | DT_Variable => "Variable"
  | DT_Equation => "Equation"
  | DT_Alias => "Alias"
  end.

Definition GamsVariableType_name (t : GamsVariableType) : string :=
  match t with
  | VT_Unknown => "Unknown"
  | VT_Binary => "Binary"
  | VT_Integer => "Integer"
  | VT_Positive => "Positive"
  | VT_Negative => "Negative"
  | VT_Free => "Free"
  | VT_SOS1 => "SOS1"
  | VT_SOS2 => "SOS2"
  | VT_Semicont => "Semicont"
  | VT_Semiint => "Semiint"
  end.

  (** [a_list == an_int] in Python: a list never equals an int. *)
Definition list_eq_int (d : list string) (z : Z) : bool := false.

Definition full_typename (s : GdxSymbol) : Res string :=
  match
    (if GamsDataType_eqb (_data_type s) DT_Parameter then
       match dims s with
       | Ok d => Ok (list_eq_int d 0)
       | Raise e => Raise e
       end
     else Ok false)
  with
  | Raise e => Raise e
  | Ok true => Ok "Scalar"
  | Ok false =>
      if GamsDataType_eqb (_data_type s) DT_Variable then
        match _variable_type s with
        | Some t =>
            Ok (String.append (GamsVariableType_name t)
                  (String.append " " (GamsDataType_name (_data_type s))))
        | None => Raise AttributeError
        end
      else Ok (GamsDataType_name (_data_type s))
  end.

End Methods.

End GdxSymbol.

(** ** class GdxFile *)

  (** What a caller may hand to the container: a [GdxSymbol] or anything
      else. *)
Inductive PyObj : Type :=
| OSym (s : GdxSymbol)
| OVal (v : PyVal).

Module GdxFile.

Section Methods.

Context (env : Env).

Definition __len__ (f : GdxFile) : nat := GdxFile_len f.

Definition empty (f : GdxFile) : bool := Nat.eqb (__len__ f) 0.

Definition _name_key (f : GdxFile) (key : PyVal) : Res PyVal :=
  match as_int key with
  | Some i =>
      match Py.list_index (OrderedDict.keys (_symbols f)) i with
      | Ok k => Ok (PStr k)
      | Raise e => Raise e
      end
  | None => Ok key
  end.

  (** [self._symbols[name_key]]. *)
Definition lookup (f : GdxFile) (name_key : PyVal) : Res GdxSymbol :=
  match name_key with
  | PStr k =>
      match OrderedDict.get k (_symbols f) with
      | Some v => Ok v
      | None => Raise KeyError
      end
  | PList _ | PIndex _ => Raise TypeError
  | _ => Raise KeyError
  end.

Definition __getitem__ (f : GdxFile) (key : PyVal) : Res GdxSymbol :=
  match _name_key f key with
  | Ok name_key => lookup f name_key
  | Raise e => Raise e
  end.

  (** [Sequence.__iter__], inherited: [self[0]], [self[1]], ... until an
      [IndexError].  On a container that does not change meanwhile the
      walk is over after [len(self) + 1] steps. *)
Fixpoint iter_from (f : GdxFile) (fuel : nat) (i : Z) : Res (list GdxSymbol) :=
  match fuel with
  | O => Ok []
  | S n =>
      match __getitem__ f (PInt i) with
      | Ok v =>
          match iter_from f n (i + 1) with
          | Ok vs => Ok (v :: vs)
          | Raise e => Raise e
          end
      | Raise IndexError => Ok []
      | Raise e => Raise e
      end
  end.

Definition __iter__ (f : GdxFile) : Res (list GdxSymbol) :=
  iter_from f (S (__len__ f)) 0.

  (** A method call on the symbol object stored under [k]: what the
      method does to the object is seen through the container. *)
Definition on_symbol {A} (k : string) (m : M GdxSymbol.St A) : M World A :=
  fun w =>
    match OrderedDict.get k (_symbols (file w)) with
    | None => (Raise KeyError, w)
    | Some s =>
        match m (s, w) with
        | (r, (s', w')) =>
            (r, mkWorld
                  (with_symbols (OrderedDict.set k s' (_symbols (file w')))
                     (file w'))
                  (H w') (log w'))
        end
    end.

  (** [for symbol in self: body] where the body is a method of the
      symbol.  The bodies used here never change the number of symbols. *)
Fixpoint for_symbol_from (fuel : nat) (i : Z) (body : M GdxSymbol.St unit)
  : M World unit :=
  match fuel with
  | O => ret tt
  | S n => fun w =>
      match _name_key (file w) (PInt i) with
      | Ok (PStr k) =>
          (on_symbol k body ;;; for_symbol_from n (i + 1) body) w
      | Ok _ => (Raise KeyError, w)
      | Raise IndexError => (Ok tt, w)
      | Raise e => (Raise e, w)
      end
  end.

Definition for_symbol_in_self (body : M GdxSymbol.St unit) : M World unit :=
  fun w => for_symbol_from (S (__len__ (file w))) 0 body w.

Definition num_elements (f : GdxFile) : Res Z :=
  match __iter__ f with
  | Ok syms =>
      fold_right
        (fun s acc =>
           match GdxSymbol.num_records s, acc with
           | Ok n, Ok a => Ok (n + a)%Z
           | Raise e, _ => Raise e
           | _, Raise e => Raise e
           end)
        (Ok 0%Z) syms
  | Raise e => Raise e
  end.

  (** The check returns normally only for a [GdxSymbol] and an int key;
      both are handed on as such. *)
Definition _check_insert_setitem (key : PyVal) (value : PyObj)
  : M World (Z * GdxSymbol) :=
  match value with
  | OVal _ => raise (Error "GdxFiles only contain GdxSymbols.")
  | OSym v =>
      match as_int key with
      | None =>
          raise (Error "When adding or replacing GdxSymbols in GdxFiles, only integer, not name indices, may be used.")
      | Some k =>
          w <- get ;;
          if (Z.of_nat (__len__ (file w)) <? k)%Z
          then raise (Error "Invalid key")
          else ret (k, v)
      end
  end.

  (** [for cur_key, symbol in self._symbols] walks the keys of the
      dictionary, which are strings: unpacking one into two names fails
      unless it has two characters, and then [symbol] is a character, which
      has no [name]. *)
Definition _fixup_name_keys : M World unit :=
  w <- get ;;
  match _symbols (file w) with
  | [] => updf (with_symbols (OrderedDict.of_pairs []))
  | (k, _) :: _ =>
      if Nat.eqb (Py.str_len k) 2 then raise AttributeError
      else raise ValueError
  end.

Definition insert (key : PyVal) (value : PyObj) : M World unit :=
  '(key, value) <- _check_insert_setitem key value ;;
  let value := with_file (Some this_file) value in
  w <- get ;;
  syms <- liftR (__iter__ (file w)) ;;
  let data := map (fun symbol => (_name symbol, symbol)) syms in
  let data := Py.list_insert key (_name value, value) data in
  updf (with_symbols (OrderedDict.of_pairs data)).

  (** [MutableSequence.append], inherited. *)
Definition append (value : PyObj) : M World unit :=
  w <- get ;;
  insert (PInt (Z.of_nat (__len__ (file w)))) value.

Definition __setitem__ (key : PyVal) (value : PyObj) : M World unit :=
  '(key, value) <- _check_insert_setitem key value ;;
  let value := with_file (Some this_file) value in
  w <- get ;;
  if (key <? Z.of_nat (__len__ (file w)))%Z then
    name_key <- liftR (_name_key (file w) (PInt key)) ;;
    match name_key with
    | PStr k =>
        updf (fun f => with_symbols (OrderedDict.set k value (_symbols f)) f) ;;;
        _fixup_name_keys
    | _ => raise KeyError
    end
  else
    when (negb (key =? Z.of_nat (__len__ (file w)))%Z) (raise AssertionError) ;;;
    updf (fun f => with_symbols (OrderedDict.set (_name value) value (_symbols f)) f).

Definition __delitem__ (key : PyVal) : M World unit :=
  w <- get ;;
  name_key <- liftR (_name_key (file w) key) ;;
  _ <- liftR (lookup (file w) name_key) ;;
  match name_key with
  | PStr k => updf (fun f => with_symbols (OrderedDict.del k (_symbols f)) f)
  | _ => raise KeyError
  end.

Definition read (filename : string) : M World unit :=
  w <- get ;;
  if negb (empty (file w)) then
    raise (Error "GdxFile.read can only be used if the GdxFile is .empty")
  else
    (* open the file *)
    rc <- call (gdxcc.gdxOpenRead (backend env) filename) ;;
    if negb rc then raise (GdxError "Could not open") else
    updf (with_filename (Some filename)) ;;;
    (* read in meta-data for the file *)
    '(ret_, version, producer) <- call (gdxcc.gdxFileVersion (backend env)) ;;
    updf (with_version (Some version)) ;;;
    updf (with_producer (Some producer)) ;;;
    (* [raise GDXError(...)] names a class that does not exist *)
    if negb (ret_ =? 1)%Z then raise (NameError "GDXError") else
    '(_, symbol_count, _) <- call (gdxcc.gdxSystemInfo (backend env)) ;;
    logger INFO "Opening file." ;;;
    (* ... for the symbols *)
    '(ret_, name, dims, data_type) <-
       call (gdxcc.gdxSymbolInfo (backend env) 0) ;;
    if negb (ret_ =? 1)%Z then
      raise (GdxError "Could not get symbol info for the universal set")
    else
    u <- GdxSymbol.__init__ env name (PInt data_type) (PInt dims)
           (Some this_file) (Some 0%Z) "" PNone ;;
    updf (with_universal_set (Some u)) ;;;
    for_each (Py.range symbol_count) (fun i =>
      let index := (i + 1)%Z in
      '(ret_, name, dims, data_type) <-
         call (gdxcc.gdxSymbolInfo (backend env) index) ;;
      if negb (ret_ =? 1)%Z then
        raise (GdxError "Could not get symbol info for symbol")
      else
        sym <- GdxSymbol.__init__ env name (PInt data_type) (PInt dims)
                 (Some this_file) (Some index) "" PNone ;;
        append (OSym sym)) ;;;
    (* read all symbols if not lazy_load *)
    w <- get ;;
    when (negb (lazy_load (file w))) (for_symbol_in_self (GdxSymbol.load env)).

Definition check_loaded : M GdxSymbol.St unit :=
  symbol <- GdxSymbol.self ;;
  when (negb (_loaded symbol))
    (raise (Error "All symbols must be loaded before this file can be written.")).

Definition write (filename : string) : M World unit :=
  (* only write if all symbols loaded *)
  for_symbol_in_self check_loaded ;;;
  ret_ <- call (gdxcc.gdxOpenWrite (backend env) filename "gdxpds") ;;
  (* [if not ret:] on the list that the call answers with *)
  if negb (Py.list_truthy ret_) then
    raise (GdxError "Could not open for writing.")
  else
  updf (with_filename (Some filename)) ;;;
  (* write the universal set *)
  (fun w =>
     match universal_set (file w) with
     | None => (Raise AttributeError, w)
     | Some u =>
         match GdxSymbol.write (u, w) with
         | (r, (u', w')) =>
             (r, mkWorld (with_universal_set (Some u') (file w')) (H w') (log w'))
         end
     end) ;;;
  for_symbol_in_self GdxSymbol.write ;;;
  call gdxcc.gdxClose.

End Methods.

End GdxFile.

(** ** class GdxSymbol: the [name] setter, which calls back into the container *)

Definition with_name (v : string) (s : GdxSymbol) : GdxSymbol :=
  mkGdxSymbol v (description s) (_loaded s) (_data_type s) (_variable_type s)
    (_dataframe s) (_dims s) (_file s) (_index s) (_num_records s).

Definition GdxSymbol_set_name (value : string) : M GdxSymbol.St unit :=
  GdxSymbol.upd (with_name value) ;;;
  fun st =>
    (if GdxSymbol.file_truthy st
     then GdxSymbol.world GdxFile._fixup_name_keys
     else ret tt) st.

(** * Sample objects used to run the code *)

Module Sample.

Definition one : float := 1.

Definition vals (x : float) : gdxcc.Values := gdxcc.mkValues x 0 0 0 1.

  (** A file with three symbols after the universal set: a set [i], a
      variable [x] over [i] with two records, and a set [j] over [i] whose
      two records carry the numeric payloads 7 and 0. *)
Definition demo : gdxcc.Content :=
  gdxcc.mkContent
    (1%Z, "V7", "GAMS")
    (1%Z, 3%Z, 2%Z)
    (fun i =>
       if (i =? 0)%Z then (1%Z, "*", 1%Z, GMS_DT_SET)
       else if (i =? 1)%Z then (1%Z, "i", 1%Z, GMS_DT_SET)
       else if (i =? 2)%Z then (1%Z, "x", 1%Z, GMS_DT_VAR)
       else if (i =? 3)%Z then (1%Z, "j", 1%Z, GMS_DT_SET)
       else (0%Z, "", 0%Z, 0%Z))
    (fun i =>
       if (i =? 2)%Z then (1%Z, 2%Z, GMS_VARTYPE_POSITIVE, "a variable")
       else if (i =? 3)%Z then (1%Z, 2%Z, 0%Z, "a set")
       else (1%Z, 2%Z, 0%Z, ""))
    (fun i => (1%Z, ["i"]))
    (fun i => (1%Z, 2%Z))
    (fun i k =>
       (1%Z, [if Nat.eqb k 0 then "a" else "b"],
        vals (if Nat.eqb k 0 then 7 else 0), 0%Z)).

  (** The same file, except that the symbol at position 2 cannot be
      described. *)
Definition broken : gdxcc.Content :=
  gdxcc.mkContent
    (gdxcc.file_version demo)
    (gdxcc.system_info demo)
    (fun i => if (i =? 2)%Z then (0%Z, "", 0%Z, 0%Z) else gdxcc.symbol_info demo i)
    (gdxcc.symbol_info_x demo)
    (gdxcc.symbol_get_domain_x demo)
    (gdxcc.data_read_str_start demo)
    (gdxcc.data_read_str demo).

Definition env : Env :=
  mkEnv
    (gdxcc.mkBackend
       (fun p => if String.eqb p "demo.gdx" then Some demo
                 else if String.eqb p "broken.gdx" then Some broken
                 else None)
       (fun p => if String.eqb p "out.gdx" then (1%Z, 0%Z) else (0%Z, 2%Z)))
    false
    (fun _ _ => []).

Definition new_file : GdxFile := mkGdxFile true None None None None [].

Definition world0 : World := mkWorld new_file gdxcc.new_gdxHandle_tp [].

  (** A freestanding, loaded parameter over one dimension with one row. *)
Definition par : GdxSymbol :=
  mkGdxSymbol "p" "" true DT_Parameter None
    (Some (pds.mkDataFrame [LStr "i"; LStr "Value"]
             [[pds.CStr "a"; pds.CFloat one]]))
    (Some ["i"]) None None None.

  (** A freestanding, loaded parameter with no rows yet. *)
Definition empty_par : GdxSymbol :=
  mkGdxSymbol "q" "" true DT_Parameter None
    (Some (pds.mkDataFrame [LStr "*"; LStr "Value"] []))
    (Some ["*"]) None None None.

  (** A variable whose subtype has been set to Binary. *)
Definition binary_var : GdxSymbol :=
  mkGdxSymbol "b" "" true DT_Variable (Some VT_Binary)
    (Some (pds.mkDataFrame
             (map LStr ["Level"; "Marginal"; "Lower"; "Upper"; "Scale"]) []))
    (Some []) None None None.

  (** The world after [read("demo.gdx")] on a new container. *)
Definition world1 : World := snd (GdxFile.read env "demo.gdx" world0).

  (** The set [j] as [read] left it: bound, at position 3, not loaded. *)
Definition set_j : GdxSymbol :=
  mkGdxSymbol "j" "a set" false DT_Set None
    (Some (pds.mkDataFrame [LStr "i"; LStr "Value"] []))
    (Some ["i"]) (Some this_file) (Some 3%Z) (Some 2%Z).

  (** The universal set, built again by hand once the container holds
      symbols: bound, at position 0, not loaded. *)
Definition universe : GdxSymbol :=
  mkGdxSymbol "*" "" false DT_Set None
    (Some (pds.mkDataFrame [LStr "*"; LStr "Value"] []))
    (Some ["*"]) (Some this_file) (Some 0%Z) (Some 2%Z).

  (** Two different symbols that share the name [a]. *)
Definition sym_a : GdxSymbol :=
  mkGdxSymbol "a" "first" true DT_Parameter None
    (Some (pds.mkDataFrame [LStr "Value"] [])) (Some []) None None None.

Definition sym_a' : GdxSymbol :=
  mkGdxSymbol "a" "second" true DT_Set None
    (Some (pds.mkDataFrame [LStr "Value"] [])) (Some []) None None None.

  (** A container that holds [sym_a] only. *)
Definition world_a : World :=
  snd (GdxFile.append (OSym sym_a) world0).

  (** A container authored by hand: a universal set and two loaded
      parameters. *)
Definition authored : World :=
  mkWorld
    (mkGdxFile true None None None
       (Some (with_loaded true universe))
       [("p", with_file (Some this_file) par);
        ("q", with_file (Some this_file) empty_par)])
    gdxcc.new_gdxHandle_tp [].

  (** The steps by which a caller arrives at [par]:
      [p = GdxSymbol('p', 1, dims=1)], [p.dims = ['i']],
      [p.dataframe = [['a', 1.0]]]. *)
Definition build_par : M World GdxSymbol :=
  p <- GdxSymbol.__init__ env "p" (PInt GMS_DT_PAR) (PInt 1) None None ""
         PNone ;;
  fun w =>
    match (GdxSymbol.set_dims (PList [PStr "i"]) ;;;
           GdxSymbol.set_dataframe
             (GdxSymbol.ARows [[pds.CStr "a"; pds.CFloat one]])) (p, w) with
    | (Ok _, (p', w')) => (Ok p', w')
    | (Raise e, (_, w')) => (Raise e, w')
    end.

  (** [GdxSymbol('*', 0, dims=1, file=f, index=0)] on the container that
      [read] has filled. *)
Definition build_universe : M World GdxSymbol :=
  GdxSymbol.__init__ env "*" (PInt GMS_DT_SET) (PInt 1) (Some this_file)
    (Some 0%Z) "" PNone.

  (** The variable [x] as [read] left it: bound, at position 2, not
      loaded. *)
Definition var_x : GdxSymbol :=
  mkGdxSymbol "x" "a variable" false DT_Variable (Some VT_Positive)
    (Some (pds.mkDataFrame
             (map LStr ["i"; "Level"; "Marginal"; "Lower"; "Upper"; "Scale"])
             []))
    (Some ["i"]) (Some this_file) (Some 2%Z) (Some 2%Z).

End Sample.

(** * Vocabulary of the statements *)

  (** The subtype left by a permitted change of kind. *)
Definition subtype_after (k : GamsDataType) (old : option GamsVariableType)
  : option GamsVariableType :=
  if GamsDataType_eqb k DT_Variable then
    Some (match old with Some t => t | None => VT_Free end)
  else None.

  (** The table has as many columns as the domain has labels plus the
      channels of the kind. *)
Definition column_count_ok (s : GdxSymbol) : bool :=
  match _dims s, _dataframe s with
  | Some d, Some df =>
      Nat.eqb (List.length (pds.columns df))
        (List.length d + List.length (GdxSymbol.value_cols s))
  | _, _ => false
  end.

  (** The columns are the domain labels followed by the channel names of
      the kind, in that order. *)
Definition columns_ok (s : GdxSymbol) : Prop :=
  exists d df,
    _dims s = Some d /\ _dataframe s = Some df /\
    pds.columns df = map LStr (d ++ GdxSymbol.value_col_names s).

  (** The rows of the table, none while there is no table. *)
Definition table_rows (s : GdxSymbol) : list (list pds.Cell) :=
  match _dataframe s with
  | Some df => pds.rows df
  | None => []
  end.

  (** Every key of the dictionary occurs once. *)
Fixpoint distinct (keys : list string) : bool :=
  match keys with
  | [] => true
  | k :: keys' =>
      negb (existsb (String.eqb k) keys') && distinct keys'
  end.

  (** Every symbol is stored under its own name. *)
Definition keyed_by_name (d : OrderedDict.t GdxSymbol) : Prop :=
  forall k v, In (k, v) d -> _name v = k.

  (** The domain elements of record [k] of the symbol at position [i]. *)
Definition stream_elements (c : gdxcc.Content) (i : Z) (k : nat)
  : list string :=
  match gdxcc.data_read_str c i k with
  | (_, elements, _, _) => elements
  end.

  (** The number of records that the stream of position [i] announces. *)
Definition stream_length (c : gdxcc.Content) (i : Z) : nat :=
  Z.to_nat (snd (gdxcc.data_read_str_start c i)).

  (** The row expected for record [k] of a set: its elements, then the
      marker. *)
Definition set_row (c : gdxcc.Content) (i : Z) (k : nat) : list pds.Cell :=
  map pds.CStr (stream_elements c i k) ++ [pds.CBool true].

  (** The rows expected for the set at position [i], given what the handle
      has open. *)
Definition set_rows (be : gdxcc.Backend) (h : gdxcc.Handle) (i : Z)
  : list (list pds.Cell) :=
  match gdxcc.content be h with
  | Some c => map (set_row c i) (seq 0 (stream_length c i))
  | None => []
  end.

  (** The call that the writing of one symbol leaves in the trace. *)
Definition write_call (s : GdxSymbol) : gdxcc.Call :=
  gdxcc.DataWrite (_name s) (table_rows s).

  (** An unloaded symbol is stored in the dictionary. *)
Definition holds_unloaded (d : OrderedDict.t GdxSymbol) : Prop :=
  exists k s, OrderedDict.get k d = Some s /\ _loaded s = false.

  (** Every symbol stored in the dictionary is loaded. *)
Definition all_loaded (d : OrderedDict.t GdxSymbol) : Prop :=
  forall k s, OrderedDict.get k d = Some s -> _loaded s = true.

  (** A method that leaves the keys of the container alone. *)
Definition keeps_keys (body : M GdxSymbol.St unit) : Prop :=
  forall s w r s' w',
    body (s, w) = (r, (s', w')) ->
    OrderedDict.keys (_symbols (file w')) = OrderedDict.keys (_symbols (file w)).

  (** A method keeps a property of its state on every exit. *)
Definition preserves {S A} (I : S -> Prop) (m : M S A) : Prop :=
  forall st, I st -> forall r st', m st = (r, st') -> I st'.

  (** A symbol method that leaves the container as it is. *)
Definition keeps_file {A} (m : M GdxSymbol.St A) : Prop :=
  forall f0, preserves (fun st => file (snd st) = f0) m.

  (** The file was opened and described: name, version and producer are
      bound to these values. *)
Definition described (filename version producer : string) (w : World) : Prop :=
  _filename (file w) = Some filename /\
  _version (file w) = Some version /\
  _producer (file w) = Some producer.

  (** The cells that [load] makes of the channel values of a record, for a
      kind. *)
Definition channel_cells (k : GamsDataType) (v : gdxcc.Values)
  : list pds.Cell :=
  match k with
  | DT_Variable | DT_Equation =>
      [pds.CFloat (gdxcc.level v); pds.CFloat (gdxcc.marginal v);
       pds.CFloat (gdxcc.lower v); pds.CFloat (gdxcc.upper v);
       pds.CFloat (gdxcc.scale v)]
  | DT_Set => [pds.CBool true]
  | _ => [pds.CFloat (gdxcc.level v)]
  end.

  (** The row that [load] makes of record [k] of position [i]. *)
Definition record_row (kind : GamsDataType) (c : gdxcc.Content) (i : Z)
    (k : nat) : list pds.Cell :=
  match gdxcc.data_read_str c i k with
  | (_, elements, values, _) =>
      map pds.CStr elements ++ channel_cells kind values
  end.

  (** The number of rows of the table of a symbol. *)
Definition table_len (s : GdxSymbol) : Z :=
  Z.of_nat (List.length (table_rows s)).

Definition total_rows (l : list GdxSymbol) : Z :=
  fold_right (fun s acc => (table_len s + acc)%Z) 0%Z l.

  (** The subtype a new symbol of kind [k] gets from the constructor
      argument [vt]. *)
Definition initial_subtype (k : GamsDataType) (vt : PyVal)
  : option GamsVariableType :=
  if GamsDataType_eqb k DT_Variable then
    Some (match GamsVariableType_call vt with
          | Ok t => t
          | Raise _ => VT_Free
          end)
  else None.

  (** The empty table of a symbol of kind [k] over the domain [d]. *)
Definition empty_table (k : GamsDataType) (d : list string) : pds.DataFrame :=
  pds.mkDataFrame (map LStr (d ++ map fst (GAMS_VALUE_COLS_MAP k))) [].

  (** The object at the start of the constructor, before any setter ran. *)
Definition blank (name descr : string) (k : GamsDataType) : GdxSymbol :=
  mkGdxSymbol name descr false k None None None None None None.

  (** An exception other than [gdxpds.Error]. *)
Definition not_Error (e : Exn) : Prop :=
  match e with Error _ => False | _ => True end.

  (** The subtype that the constructor takes from the session for a
      symbol of kind [k] whose extended information carries [userinfo]. *)
Definition subtype_read (k : GamsDataType) (userinfo : Z)
  : option GamsVariableType :=
  if GamsDataType_eqb k DT_Variable then
    match GamsVariableType_call (PInt userinfo) with
    | Ok t => Some t
    | Raise _ => None
    end
  else None.

  (** [isinstance(v, string_types)]. *)
Definition is_str (v : PyVal) : bool :=
  match v with PStr _ => true | _ => false end.

  (** What the [dims] setter takes: an int, or a list of strings. *)
Definition dims_accepted (v : PyVal) : bool :=
  match as_int v, v with
  | Some _, _ => true
  | None, PList l => forallb is_str l
  | None, _ => false
  end.

  (** The number of columns of every table of the symbol once its domain
      has [n] labels. *)
Definition own_width (n : nat) (s : GdxSymbol) : nat :=
  n + List.length (GdxSymbol.value_cols s).

(** * Properties *)

(** ** Reasoning support *)

Ltac run :=
  cbv [bind ret raise get modify liftR when GdxSymbol.self GdxSymbol.upd
       GdxSymbol.world logger call updf].

Lemma GamsDataType_eqb_eq (a b : GamsDataType) :
  GamsDataType_eqb a b = true <-> a = b.
Proof.
  destruct a, b; simpl; split; intro E; try reflexivity; discriminate E.
Qed.

Lemma GamsDataType_eqb_neq (a b : GamsDataType) :
  GamsDataType_eqb a b = false <-> a <> b.
Proof.
  destruct a, b; simpl; split; intro E; try reflexivity; try discriminate E;
    try (intro Q; discriminate Q); exfalso; apply E; reflexivity.
Qed.

Lemma with_variable_type_same (s : GdxSymbol) :
  with_variable_type (_variable_type s) s = s.
Proof. destruct s; reflexivity. Qed.

(** ** The [variable_type] setter *)

(** C10, as stated, fails: a Variable symbol that already holds the subtype
    Binary keeps it when [None] is assigned; the subtype does not become
    Free. *)
Lemma variable_type_invalid_keeps_subtype :
  _data_type Sample.binary_var = DT_Variable /\
  GamsVariableType_call PNone = Raise ValueError /\
  _variable_type
    (fst (snd (GdxSymbol.set_variable_type PNone
                 (Sample.binary_var, Sample.world0)))) = Some VT_Binary /\
  _variable_type
    (fst (snd (GdxSymbol.set_variable_type PNone
                 (Sample.binary_var, Sample.world0)))) <> Some VT_Free.
Proof.
  repeat split; try reflexivity.
  vm_compute. intro E. discriminate E.
Qed.

(** C10 (amended): on a Variable symbol an invalid or missing value never
    raises; it gives the subtype Free when the symbol holds no subtype yet
    and leaves the subtype it already holds otherwise.  On a symbol of any
    other kind a value other than [None] stores [None], logs one warning and
    raises nothing. *)
Theorem variable_type_setter (s : GdxSymbol) (w : World) (value : PyVal) :
  (_data_type s = DT_Variable ->
   (forall t, GamsVariableType_call value <> Ok t) ->
   exists msg,
     GdxSymbol.set_variable_type value (s, w) =
       (Ok tt,
        (with_variable_type
           (Some (match _variable_type s with
                  | Some t => t
                  | None => VT_Free
                  end)) s,
         mkWorld (file w) (H w) (log w ++ [(DEBUG, msg)])))) /\
  (_data_type s <> DT_Variable ->
   value <> PNone ->
   GdxSymbol.set_variable_type value (s, w) =
     (Ok tt,
      (with_variable_type None s,
       mkWorld (file w) (H w)
         (log w ++
          [(WARNING,
            "GdxSymbol is not a Variable, so setting variable_type to None")])))).
Proof.
  split.
  - intros K Bad. unfold GdxSymbol.set_variable_type. run. simpl.
    rewrite K. simpl.
    destruct (GamsVariableType_call value) as [t | e] eqn:E.
    + exfalso. exact (Bad t eq_refl).
    + destruct (_variable_type s) as [t |] eqn:V.
      * eexists. simpl. rewrite <- V, with_variable_type_same. reflexivity.
      * eexists. reflexivity.
  - intros K NotNone. unfold GdxSymbol.set_variable_type. run. simpl.
    apply GamsDataType_eqb_neq in K. rewrite K.
    destruct value; try reflexivity. exfalso. apply NotNone. reflexivity.
Qed.

Lemma variable_type_setter_witness :
  (exists msg,
     GdxSymbol.set_variable_type (PStr "free")
       (with_variable_type None Sample.binary_var, Sample.world0) =
       (Ok tt,
        (with_variable_type (Some VT_Free) Sample.binary_var,
         mkWorld Sample.new_file gdxcc.new_gdxHandle_tp [(DEBUG, msg)]))) /\
  GdxSymbol.set_variable_type (PInt 1) (Sample.par, Sample.world0) =
    (Ok tt,
     (Sample.par,
      mkWorld Sample.new_file gdxcc.new_gdxHandle_tp
        [(WARNING,
          "GdxSymbol is not a Variable, so setting variable_type to None")])).
Proof.
  split.
  - apply (proj1 (variable_type_setter
                    (with_variable_type None Sample.binary_var)
                    Sample.world0 (PStr "free"))).
    + reflexivity.
    + intros t E. discriminate E.
  - apply (proj2 (variable_type_setter Sample.par Sample.world0 (PInt 1))).
    + intro E. discriminate E.
    + intro E. discriminate E.
Defined.

(** ** The [data_type] setter *)

(** C8, as stated, fails in its last part: turning an empty, loaded
    Parameter into a Variable is permitted, and the subtype afterwards is
    Free, not none. *)
Lemma data_type_setter_gives_free :
  _loaded Sample.empty_par = true /\
  GdxSymbol.num_records Sample.empty_par = Ok 0%Z /\
  fst (GdxSymbol.set_data_type (PInt GMS_DT_VAR)
         (Sample.empty_par, Sample.world0)) = Ok tt /\
  _variable_type
    (fst (snd (GdxSymbol.set_data_type (PInt GMS_DT_VAR)
                 (Sample.empty_par, Sample.world0)))) = Some VT_Free /\
  _variable_type
    (fst (snd (GdxSymbol.set_data_type (PInt GMS_DT_VAR)
                 (Sample.empty_par, Sample.world0)))) <> None.
Proof.
  repeat split; try reflexivity.
  vm_compute. intro E. discriminate E.
Qed.

(** C8 (amended): assigning [data_type] raises [Error] and changes nothing
    when the symbol is not loaded or holds at least one record.  When it is
    permitted (loaded, no record, a valid kind), the kind is replaced, the
    table becomes an empty table whose columns are the domain labels
    followed by the new kind's channel columns, and the subtype becomes none
    for a kind other than Variable; for Variable it is the subtype already
    held, or Free when there was none. *)
Theorem data_type_setter (s : GdxSymbol) (w : World) (value : PyVal) :
  (_loaded s = false \/
   (exists n, GdxSymbol.num_records s = Ok n /\ (0 < n)%Z) ->
   exists msg,
     GdxSymbol.set_data_type value (s, w) = (Raise (Error msg), (s, w))) /\
  (forall k d,
     _loaded s = true ->
     GdxSymbol.num_records s = Ok 0%Z ->
     GamsDataType_call value = Ok k ->
     _dims s = Some d ->
     exists w',
       GdxSymbol.set_data_type value (s, w) =
         (Ok tt,
          (with_dataframe
             (Some (pds.mkDataFrame
                      (map LStr (d ++ map fst (GAMS_VALUE_COLS_MAP k))) []))
             (with_variable_type (subtype_after k (_variable_type s))
                (with_data_type k s)),
           w')) /\
       file w' = file w /\ H w' = H w).
Proof.
  split.
  - intros [L | [n [N Pos]]]; eexists; unfold GdxSymbol.set_data_type; run;
      simpl.
    + rewrite L. simpl. reflexivity.
    + destruct (_loaded s); simpl; [| reflexivity].
      rewrite N. apply Z.ltb_lt in Pos. rewrite Pos. reflexivity.
  - intros k d L N K D.
    unfold GdxSymbol.set_data_type, GdxSymbol.set_variable_type,
      GdxSymbol._init_dataframe, GdxSymbol.own_columns, GdxSymbol.dims,
      GdxSymbol.value_col_names, GdxSymbol.value_cols, subtype_after.
    run. simpl. rewrite L. simpl. rewrite N. simpl. rewrite K. simpl.
    destruct (GamsDataType_eqb k DT_Variable) eqn:V; simpl.
    + destruct (_variable_type s) as [t |] eqn:T; simpl; rewrite D; simpl;
        eexists;
        (split; [destruct s; simpl in *; subst; reflexivity
                | split; reflexivity]).
    + rewrite D. simpl. eexists. split; [reflexivity | split; reflexivity].
Qed.

Lemma data_type_setter_witness :
  (exists msg,
     GdxSymbol.set_data_type (PInt GMS_DT_SET) (Sample.par, Sample.world0) =
       (Raise (Error msg), (Sample.par, Sample.world0))) /\
  (exists w',
     GdxSymbol.set_data_type (PInt GMS_DT_EQU)
       (Sample.empty_par, Sample.world0) =
       (Ok tt,
        (with_dataframe
           (Some (pds.mkDataFrame
                    (map LStr
                       (["*"] ++ map fst (GAMS_VALUE_COLS_MAP DT_Equation)))
                    []))
           (with_variable_type None (with_data_type DT_Equation Sample.empty_par)),
         w')) /\
     file w' = file Sample.world0 /\ H w' = H Sample.world0).
Proof.
  split.
  - apply (proj1 (data_type_setter Sample.par Sample.world0 (PInt GMS_DT_SET))).
    right. exists 1%Z. split; [reflexivity | lia].
  - apply (proj2 (data_type_setter Sample.empty_par Sample.world0
                    (PInt GMS_DT_EQU)) DT_Equation ["*"]); reflexivity.
Defined.

(** ** The [dims] setter on a symbol that holds records *)

  (** The parameter used below is what the constructor and two
      assignments produce. *)
Lemma par_is_reachable :
  Sample.build_par Sample.world0 = (Ok Sample.par, Sample.world0).
Proof. reflexivity. Qed.

(** C4: the code at a loaded parameter with one row.  Assigning the
    integer 2 logs the warning, then replaces the table by an empty one:
    the stored row is gone. *)
Theorem dims_int_drops_rows :
  _loaded Sample.par = true /\
  GdxSymbol.num_records Sample.par = Ok 1%Z /\
  table_rows Sample.par = [[pds.CStr "a"; pds.CFloat Sample.one]] /\
  GdxSymbol.set_dims (PInt 2) (Sample.par, Sample.world0) =
    (Ok tt,
     (with_dataframe
        (Some (pds.mkDataFrame [LStr "*"; LStr "*"; LStr "Value"] []))
        (with_dims (Some ["*"; "*"]) Sample.par),
      mkWorld Sample.new_file gdxcc.new_gdxHandle_tp
        [(WARNING,
          "Cannot set dims, because dataframe already contains data.")])) /\
  table_rows
    (fst (snd (GdxSymbol.set_dims (PInt 2) (Sample.par, Sample.world0)))) = [].
Proof. repeat split; reflexivity. Qed.

(** C3: the code at the same symbol.  Assigning a list of two labels logs
    the warnings, stores the two labels, and then the relabelling of the
    two-column table is refused: the call raises with the domain at length 2
    and the table still at 2 columns, not 2 + 1. *)
Theorem dims_list_breaks_column_count :
  column_count_ok Sample.par = true /\
  fst (GdxSymbol.set_dims (PList [PStr "i"; PStr "j"])
         (Sample.par, Sample.world0)) = Raise ValueError /\
  _dims
    (fst (snd (GdxSymbol.set_dims (PList [PStr "i"; PStr "j"])
                 (Sample.par, Sample.world0)))) = Some ["i"; "j"] /\
  option_map (fun df => List.length (pds.columns df))
    (_dataframe
       (fst (snd (GdxSymbol.set_dims (PList [PStr "i"; PStr "j"])
                    (Sample.par, Sample.world0))))) = Some 2 /\
  column_count_ok
    (fst (snd (GdxSymbol.set_dims (PList [PStr "i"; PStr "j"])
                 (Sample.par, Sample.world0)))) = false.
Proof. repeat split; reflexivity. Qed.

(** ** [load]: the guards *)

(** C7: the code at a symbol that is bound to a container holding symbols,
    sits at position 0 and is not loaded.  [load] raises the error meant
    for a missing position and leaves everything as it was. *)
Theorem load_rejects_position_zero :
  fst (Sample.build_universe Sample.world1) = Ok Sample.universe /\
  _loaded Sample.universe = false /\
  _index Sample.universe = Some 0%Z /\
  GdxSymbol.file_truthy
    (Sample.universe, snd (Sample.build_universe Sample.world1)) = true /\
  GdxSymbol.load Sample.env
    (Sample.universe, snd (Sample.build_universe Sample.world1)) =
    (Raise (Error "Cannot load because there is no symbol index"),
     (Sample.universe, snd (Sample.build_universe Sample.world1))).
Proof.
  split; [vm_compute; reflexivity |].
  split; [reflexivity |].
  split; [reflexivity |].
  split; vm_compute; reflexivity.
Qed.

(** ** [load]: the rows of a set *)

Lemma width_uniform (n : nat) (data : list (list pds.Cell)) :
  data <> [] ->
  Forall (fun r => List.length r = n) data ->
  pds.width data = n.
Proof.
  intros NE All. induction All as [| r data R All IH].
  - exfalso. apply NE. reflexivity.
  - simpl. destruct data as [| r' data'].
    + simpl. rewrite R. apply Nat.max_0_r.
    + rewrite IH by discriminate. rewrite R. apply Nat.max_id.
Qed.

Lemma pad_full (n : nat) (r : list pds.Cell) :
  List.length r = n -> pds.pad n r = r.
Proof.
  intro R. unfold pds.pad. rewrite R, Nat.sub_diag. simpl. apply app_nil_r.
Qed.

Lemma DataFrame_call_uniform (n : nat) (data : list (list pds.Cell))
    (cols : list Label) :
  List.length cols = n ->
  Forall (fun r => List.length r = n) data ->
  pds.DataFrame_call data cols = Ok (pds.mkDataFrame cols data).
Proof.
  intros C All. destruct data as [| r data]; [reflexivity |].
  unfold pds.DataFrame_call.
  rewrite (width_uniform n) by (discriminate || assumption).
  rewrite C, Nat.eqb_refl. f_equal. f_equal.
  induction All as [| r' data' R' All' IH]; [reflexivity |].
  simpl. rewrite pad_full by assumption. f_equal. exact IH.
Qed.

Lemma set_last_app (x y : pds.Cell) (row : list pds.Cell) :
  GdxSymbol.set_last x (row ++ [y]) = Ok (row ++ [x]).
Proof.
  unfold GdxSymbol.set_last. rewrite removelast_last.
  destruct row; reflexivity.
Qed.

Lemma read_records_set (env : Env) (s : GdxSymbol) (c : gdxcc.Content)
    (i : Z) (n : nat) :
  _data_type s = DT_Set ->
  forall (w : World) (k0 : nat) (data : list (list pds.Cell)),
    gdxcc.content (backend env) (H w) = Some c ->
    gdxcc.cursor (H w) = Some (i, k0) ->
    exists w',
      GdxSymbol.read_records env n data (s, w) =
        (Ok (data ++ map (set_row c i) (seq k0 n)), (s, w')) /\
      file w' = file w /\ log w' = log w.
Proof.
  intro K. induction n as [| n IH]; intros w k0 data C Cur.
  - exists w. simpl. rewrite app_nil_r. repeat split; reflexivity.
  - simpl GdxSymbol.read_records. run.
    unfold gdxcc.gdxDataReadStr.
    assert (C' : gdxcc.content (backend env) (gdxcc.record gdxcc.DataReadStr (H w))
                 = Some c) by exact C.
    assert (Cur' : gdxcc.cursor (gdxcc.record gdxcc.DataReadStr (H w))
                   = Some (i, k0)) by exact Cur.
    cbv zeta. cbn [fst snd]. rewrite C', Cur'. cbn [fst snd].
    destruct (gdxcc.data_read_str c i k0) as [[[r0 elements] values] afdim] eqn:R.
    cbn [fst snd]. unfold GdxSymbol.value_cols. rewrite K.
    cbn [GAMS_VALUE_COLS_MAP GdxSymbol.pick_values GamsValueType_value
         GMS_VAL_LEVEL gdxcc.values_index Py.list_index GamsDataType_eqb].
    change (gdxcc.values_index values GMS_VAL_LEVEL)
      with (@Ok float (gdxcc.level values)).
    cbv beta iota. rewrite set_last_app.
    match goal with
    | |- context [GdxSymbol.read_records env n ?d (s, ?w2)] =>
        destruct (IH w2 (S k0) d) as [w' [E [F L]]]; [exact C | reflexivity |]
    end.
    exists w'. rewrite E. split; [| split; assumption].
    rewrite <- app_assoc. simpl. unfold set_row at 2, stream_elements.
    rewrite R. reflexivity.
Qed.

Lemma set_row_marker (c : gdxcc.Content) (i : Z) (k n : nat) :
  List.length (stream_elements c i k) = n ->
  List.length (set_row c i k) = n + 1 /\
  nth_error (set_row c i k) n = Some (pds.CBool true).
Proof.
  intro E. unfold set_row. split.
  - rewrite length_app, length_map, E. reflexivity.
  - rewrite nth_error_app2; rewrite length_map, E; [| lia].
    rewrite Nat.sub_diag. reflexivity.
Qed.

(** C6: a bound set that is not loaded yet, at a position other than 0,
    whose stream hands out as many elements per record as the symbol has
    dimensions, loads without an error; its table then holds one row per
    record, in stream order, made of the record's elements followed by the
    marker [True], whatever the channel values of the record are: the cell
    in the value column of every row is [True]. *)
Theorem load_set_rows_defined (env : Env) (s : GdxSymbol) (w : World)
    (i : Z) (d : list string) :
  _data_type s = DT_Set ->
  _loaded s = false ->
  GdxSymbol.file_truthy (s, w) = true ->
  _index s = Some i ->
  i <> 0%Z ->
  _dims s = Some d ->
  (forall c k,
     gdxcc.content (backend env) (H w) = Some c ->
     k < stream_length c i ->
     List.length (stream_elements c i k) = List.length d) ->
  exists s' w',
    GdxSymbol.load env (s, w) = (Ok tt, (s', w')) /\
    _loaded s' = true /\
    table_rows s' = set_rows (backend env) (H w) i /\
    Forall (fun row => nth_error row (List.length d) = Some (pds.CBool true))
      (table_rows s').
Proof.
  intros K L FT I NZ D Shape.
  assert (Rows : Forall (fun row => List.length row = List.length d + 1 /\
                           nth_error row (List.length d) = Some (pds.CBool true))
                   (set_rows (backend env) (H w) i)).
  { unfold set_rows.
    destruct (gdxcc.content (backend env) (H w)) as [c |] eqn:C; [| constructor].
    apply Forall_forall. intros row In_row.
    apply in_map_iff in In_row. destruct In_row as [k [E In_k]].
    apply in_seq in In_k. subst row.
    apply set_row_marker. apply Shape; [reflexivity | lia]. }
  assert (Cols : GdxSymbol.own_columns s = Ok (map LStr (d ++ ["Value"]))).
  { unfold GdxSymbol.own_columns, GdxSymbol.dims, GdxSymbol.value_col_names,
      GdxSymbol.value_cols. rewrite D, K. reflexivity. }
  assert (Read : exists w',
             (let (p, h) :=
                gdxcc.gdxDataReadStrStart (backend env) i (H w) in
              GdxSymbol.read_records env (Z.to_nat (snd p)) []
                (s, mkWorld (file w) h (log w))) =
               (Ok (set_rows (backend env) (H w) i), (s, w'))).
  { unfold gdxcc.gdxDataReadStrStart, set_rows. cbv zeta.
    assert (C' : gdxcc.content (backend env)
                   (gdxcc.record (gdxcc.DataReadStrStart i) (H w))
                 = gdxcc.content (backend env) (H w)) by reflexivity.
    rewrite C'.
    destruct (gdxcc.content (backend env) (H w)) as [c |] eqn:C.
    - match goal with
      | |- context [GdxSymbol.read_records env ?n ?data (s, ?w2)] =>
          destruct (read_records_set env s c i n K w2 0 data) as [w' [E _]];
            [exact C | reflexivity |]
      end.
      exists w'. rewrite E. reflexivity.
    - eexists. reflexivity. }
  destruct Read as [w1 Read].
  exists (with_loaded true
            (with_dataframe
               (Some (pds.mkDataFrame (map LStr (d ++ ["Value"]))
                        (set_rows (backend env) (H w) i))) s)), w1.
  split; [| split; [reflexivity | split]].
  - unfold GdxSymbol.load. run. cbn [fst snd]. rewrite L.
    rewrite FT. unfold GdxSymbol.index_truthy. rewrite I.
    apply Z.eqb_neq in NZ. rewrite NZ. rewrite K.
    cbn [negb GamsDataType_eqb andb].
    cbn [fst snd].
    destruct (gdxcc.gdxDataReadStrStart (backend env) i (H w)) as [p h] eqn:S.
    destruct p as [r0 records]. cbn [fst snd] in *. rewrite Read.
    unfold GdxSymbol.set_dataframe. run. cbn [fst snd]. rewrite Cols.
    rewrite (DataFrame_call_uniform (List.length d + 1)).
    + reflexivity.
    + rewrite length_map, length_app. reflexivity.
    + eapply Forall_impl; [| exact Rows]. intros row [E _]. exact E.
  - reflexivity.
  - unfold table_rows. simpl.
    eapply Forall_impl; [| exact Rows]. intros row [_ E]. exact E.
Qed.

Lemma world1_content :
  gdxcc.content (backend Sample.env) (H Sample.world1) = Some Sample.demo.
Proof. vm_compute. reflexivity. Qed.

Lemma load_set_rows_defined_witness :
  exists s' w',
    GdxSymbol.load Sample.env (Sample.set_j, Sample.world1) = (Ok tt, (s', w')) /\
    _loaded s' = true /\
    table_rows s' = set_rows (backend Sample.env) (H Sample.world1) 3 /\
    Forall (fun row => nth_error row 1 = Some (pds.CBool true)) (table_rows s').
Proof.
  apply (load_set_rows_defined Sample.env Sample.set_j Sample.world1 3 ["i"]).
  - reflexivity.
  - reflexivity.
  - reflexivity.
  - reflexivity.
  - lia.
  - reflexivity.
  - intros c k C _. rewrite world1_content in C.
    injection C as C. subst c. reflexivity.
Defined.

(** ** [load]: the second call *)

Lemma then_loaded {A} (m : M GdxSymbol.St A) (st : GdxSymbol.St)
    (s1 : GdxSymbol) (w1 : World) :
  (m ;;; GdxSymbol.upd (with_loaded true)) st = (Ok tt, (s1, w1)) ->
  _loaded s1 = true.
Proof.
  run. destruct (m st) as [[a | e] [s' w']]; intro E; inversion E.
  reflexivity.
Qed.

Lemma load_ok_loaded (env : Env) (s s1 : GdxSymbol) (w w1 : World) :
  GdxSymbol.load env (s, w) = (Ok tt, (s1, w1)) -> _loaded s1 = true.
Proof.
  unfold GdxSymbol.load.
  unfold bind at 1. unfold GdxSymbol.self at 1. cbn [fst snd].
  destruct (_loaded s) eqn:L.
  - run. cbn [fst snd]. intro E. inversion E. subst. exact L.
  - destruct (negb (GdxSymbol.file_truthy (s, w))); [intro E; discriminate E |].
    destruct (negb (GdxSymbol.index_truthy s)); [intro E; discriminate E |].
    destruct (GamsDataType_eqb (_data_type s) DT_Parameter && HAVE_GDX2PY env).
    + apply then_loaded.
    + unfold bind at 1.
      destruct (GdxSymbol.world _ (s, w)) as [[[r0 records] | e] st1];
        [| intro E; discriminate E].
      unfold bind at 1.
      destruct (GdxSymbol.read_records env (Z.to_nat records) [] st1)
        as [[data | e] st2]; [| intro E; discriminate E].
      apply then_loaded.
Qed.

(** C9: once [load] has returned normally, calling it again returns
    normally too and is a no-op: the symbol, its table included, is the
    same object state, and the state behind the handle is the same, with no
    call added; only the log gains the note that there was nothing to do. *)
Theorem load_twice (env : Env) (s s1 : GdxSymbol) (w w1 : World) :
  GdxSymbol.load env (s, w) = (Ok tt, (s1, w1)) ->
  GdxSymbol.load env (s1, w1) =
    (Ok tt,
     (s1,
      mkWorld (file w1) (H w1)
        (log w1 ++ [(INFO, "Nothing to do. Symbol already loaded.")]))).
Proof.
  intro First. apply load_ok_loaded in First.
  unfold GdxSymbol.load. run. cbn [fst snd]. rewrite First. reflexivity.
Qed.

Lemma load_twice_witness :
  exists s1 w1,
    GdxSymbol.load Sample.env (Sample.set_j, Sample.world1) = (Ok tt, (s1, w1)) /\
    GdxSymbol.load Sample.env (s1, w1) =
      (Ok tt,
       (s1,
        mkWorld (file w1) (H w1)
          (log w1 ++ [(INFO, "Nothing to do. Symbol already loaded.")]))).
Proof.
  assert (First : exists s1 w1,
             GdxSymbol.load Sample.env (Sample.set_j, Sample.world1) =
               (Ok tt, (s1, w1))).
  { vm_compute. eexists. eexists. reflexivity. }
  destruct First as [s1 [w1 First]]. exists s1, w1.
  split; [exact First |].
  exact (load_twice Sample.env Sample.set_j s1 Sample.world1 w1 First).
Defined.

(** ** The dictionary *)

Section Dict.

Context {V : Type}.

Implicit Types (d : OrderedDict.t V) (k : string) (v : V).

Lemma get_in_keys d k v :
  OrderedDict.get k d = Some v -> In k (OrderedDict.keys d).
Proof.
  induction d as [| [k' v'] d IH]; simpl; [discriminate |].
  destruct (String.eqb k k') eqn:E.
  - apply String.eqb_eq in E. intros _. left. symmetry. exact E.
  - intro G. right. exact (IH G).
Qed.

Lemma in_keys_get d k :
  In k (OrderedDict.keys d) -> exists v, OrderedDict.get k d = Some v.
Proof.
  induction d as [| [k' v'] d IH]; simpl; [intros [] |].
  destruct (String.eqb k k') eqn:E.
  - intros _. exists v'. reflexivity.
  - intros [Q | Q].
    + subst k'. rewrite String.eqb_refl in E. discriminate E.
    + exact (IH Q).
Qed.

Lemma set_get_same d k v :
  OrderedDict.get k d = Some v -> OrderedDict.set k v d = d.
Proof.
  induction d as [| [k' v'] d IH]; simpl; [discriminate |].
  destruct (String.eqb k k') eqn:E.
  - intro G. injection G as G. subst v'. reflexivity.
  - intro G. rewrite (IH G). reflexivity.
Qed.

Lemma keys_set_in d k v :
  In k (OrderedDict.keys d) ->
  OrderedDict.keys (OrderedDict.set k v d) = OrderedDict.keys d.
Proof.
  induction d as [| [k' v'] d IH]; simpl; [intros [] |].
  destruct (String.eqb k k') eqn:E; [reflexivity |].
  intros [Q | Q].
  - subst k'. rewrite String.eqb_refl in E. discriminate E.
  - simpl. f_equal. exact (IH Q).
Qed.

Lemma keys_set_new d k v :
  ~ In k (OrderedDict.keys d) ->
  OrderedDict.set k v d = d ++ [(k, v)].
Proof.
  induction d as [| [k' v'] d IH]; simpl; [reflexivity |].
  intro N. destruct (String.eqb k k') eqn:E.
  - apply String.eqb_eq in E. exfalso. apply N. left. symmetry. exact E.
  - f_equal. apply IH. intro Q. apply N. right. exact Q.
Qed.

Lemma get_set_same d k v :
  OrderedDict.get k (OrderedDict.set k v d) = Some v.
Proof.
  induction d as [| [k' v'] d IH]; simpl.
  - rewrite String.eqb_refl. reflexivity.
  - destruct (String.eqb k k') eqn:E; simpl; rewrite E; [reflexivity | exact IH].
Qed.

Lemma distinct_cons k (ks : list string) :
  distinct (k :: ks) = true <-> ~ In k ks /\ distinct ks = true.
Proof.
  simpl. rewrite andb_true_iff, negb_true_iff. split.
  - intros [N D]. split; [| exact D]. intro I.
    assert (E : existsb (String.eqb k) ks = true).
    { apply existsb_exists. exists k. split; [exact I | apply String.eqb_refl]. }
    rewrite E in N. discriminate N.
  - intros [N D]. split; [| exact D].
    destruct (existsb (String.eqb k) ks) eqn:E; [| reflexivity].
    apply existsb_exists in E. destruct E as [k' [I E]].
    apply String.eqb_eq in E. subst k'. exfalso. exact (N I).
Qed.

Lemma distinct_NoDup (ks : list string) :
  distinct ks = true <-> NoDup ks.
Proof.
  induction ks as [| k ks IH].
  - split; [constructor | reflexivity].
  - rewrite distinct_cons, IH. split.
    + intros [N D]. constructor; assumption.
    + intro D. inversion D. split; assumption.
Qed.

  (** Looking every key up, in key order, gives the stored values. *)
Lemma lookups_are_values {B} (f : V -> B) d :
  distinct (OrderedDict.keys d) = true ->
  flat_map (fun k => match OrderedDict.get k d with
                     | Some v => [f v]
                     | None => []
                     end) (OrderedDict.keys d)
  = map f (OrderedDict.values d).
Proof.
  induction d as [| [k v] d IH]; [reflexivity |].
  simpl OrderedDict.keys. intro D. apply distinct_cons in D.
  destruct D as [N D]. simpl. rewrite String.eqb_refl. simpl. f_equal.
  rewrite <- (IH D). clear IH D.
  assert (Other : forall k', In k' (OrderedDict.keys d) -> String.eqb k' k = false).
  { intros k' I. apply String.eqb_neq. intro Q. subst k'. exact (N I). }
  revert Other. generalize (OrderedDict.keys d) as ks.
  induction ks as [| k' ks IH]; [reflexivity |].
  intro Other. simpl. rewrite (Other k') by (left; reflexivity).
  f_equal. apply IH. intros k'' I. apply Other. right. exact I.
Qed.

  (** In a dictionary, what is stored is what a lookup finds. *)
Lemma stored_is_found d k v :
  distinct (OrderedDict.keys d) = true ->
  In (k, v) d -> OrderedDict.get k d = Some v.
Proof.
  induction d as [| [k' v'] d IH]; simpl OrderedDict.keys; intros D I;
    [destruct I |].
  apply distinct_cons in D. destruct D as [N D]. simpl.
  destruct I as [Q | I].
  - injection Q as Qk Qv. subst. rewrite String.eqb_refl. reflexivity.
  - destruct (String.eqb k k') eqn:E.
    + apply String.eqb_eq in E. subst k'. exfalso. apply N.
      apply (in_map fst) in I. exact I.
    + exact (IH D I).
Qed.

End Dict.

(** ** Walking the container *)

Lemma list_index_at {A} (pre post : list A) (x : A) :
  Py.list_index (pre ++ x :: post) (Z.of_nat (List.length pre)) = Ok x.
Proof.
  unfold Py.list_index. cbv zeta.
  assert (N : (Z.of_nat (List.length pre) <? 0)%Z = false)
    by (apply Z.ltb_ge; lia).
  rewrite !N. simpl orb.
  assert (B : (Z.of_nat (List.length (pre ++ x :: post))
               <=? Z.of_nat (List.length pre))%Z = false).
  { apply Z.leb_gt. rewrite length_app. simpl. lia. }
  rewrite B. rewrite Nat2Z.id.
  rewrite nth_error_app2 by lia. rewrite Nat.sub_diag. reflexivity.
Qed.

Lemma list_index_end {A} (l : list A) :
  Py.list_index l (Z.of_nat (List.length l)) = Raise IndexError.
Proof.
  unfold Py.list_index. cbv zeta.
  assert (N : (Z.of_nat (List.length l) <? 0)%Z = false)
    by (apply Z.ltb_ge; lia).
  rewrite !N. simpl orb. rewrite Z.leb_refl. reflexivity.
Qed.

Lemma world_eta (w : World) : mkWorld (file w) (H w) (log w) = w.
Proof. destruct w; reflexivity. Qed.

Lemma with_symbols_same (f : GdxFile) : with_symbols (_symbols f) f = f.
Proof. destruct f; reflexivity. Qed.

Lemma with_universal_set_same (f : GdxFile) :
  with_universal_set (universal_set f) f = f.
Proof. destruct f; reflexivity. Qed.

Lemma on_symbol_keeps_keys (body : M GdxSymbol.St unit) (k : string)
    (w w' : World) (r : Res unit) :
  keeps_keys body ->
  GdxFile.on_symbol k body w = (r, w') ->
  OrderedDict.keys (_symbols (file w')) = OrderedDict.keys (_symbols (file w)).
Proof.
  intros KK. unfold GdxFile.on_symbol.
  destruct (OrderedDict.get k (_symbols (file w))) as [s |] eqn:G.
  - destruct (body (s, w)) as [r1 [s1 w1]] eqn:B. intro E. inversion E.
    simpl. rewrite keys_set_in; [exact (KK _ _ _ _ _ B) |].
    rewrite (KK _ _ _ _ _ B). exact (get_in_keys _ _ _ G).
  - intro E. inversion E. reflexivity.
Qed.

Lemma for_symbol_from_S (n : nat) (i : Z) (body : M GdxSymbol.St unit)
    (w : World) :
  GdxFile.for_symbol_from (S n) i body w =
  match GdxFile._name_key (file w) (PInt i) with
  | Ok (PStr k) =>
      (GdxFile.on_symbol k body ;;; GdxFile.for_symbol_from n (i + 1) body) w
  | Ok _ => (Raise KeyError, w)
  | Raise IndexError => (Ok tt, w)
  | Raise e => (Raise e, w)
  end.
Proof. reflexivity. Qed.

  (** The inherited iteration visits the keys once each, first to last. *)
Lemma for_symbol_from_visits (body : M GdxSymbol.St unit) :
  keeps_keys body ->
  forall (post pre : list string) (w : World),
    OrderedDict.keys (_symbols (file w)) = pre ++ post ->
    GdxFile.for_symbol_from (S (List.length post))
      (Z.of_nat (List.length pre)) body w =
    for_each post (fun k => GdxFile.on_symbol k body) w.
Proof.
  intros KK post. induction post as [| k post IH]; intros pre w Keys.
  - simpl. unfold GdxFile._name_key. simpl as_int. cbv iota beta.
    rewrite Keys, app_nil_r, list_index_end. reflexivity.
  - rewrite for_symbol_from_S. unfold GdxFile._name_key at 1.
    simpl as_int. cbv iota beta. rewrite Keys, list_index_at.
    simpl for_each. unfold bind at 1 2.
    destruct (GdxFile.on_symbol k body w) as [[a | e] w1] eqn:O;
      [| reflexivity].
    assert (Keys1 : OrderedDict.keys (_symbols (file w1)) = (pre ++ [k]) ++ post).
    { rewrite (on_symbol_keeps_keys body k w w1 _ KK O), Keys, <- app_assoc.
      reflexivity. }
    rewrite <- (IH (pre ++ [k]) w1 Keys1). f_equal.
    rewrite length_app. cbn [List.length]. lia.
Qed.

Lemma for_symbol_in_self_visits (body : M GdxSymbol.St unit) (w : World) :
  keeps_keys body ->
  GdxFile.for_symbol_in_self body w =
  for_each (OrderedDict.keys (_symbols (file w)))
    (fun k => GdxFile.on_symbol k body) w.
Proof.
  intro KK. unfold GdxFile.for_symbol_in_self, GdxFile.__len__, GdxFile_len.
  rewrite <- (for_symbol_from_visits body KK _ [] w) by reflexivity.
  unfold OrderedDict.keys. rewrite length_map. reflexivity.
Qed.

(** ** [GdxFile.write] *)

Lemma on_symbol_check_loaded (k : string) (s : GdxSymbol) (w : World) :
  OrderedDict.get k (_symbols (file w)) = Some s ->
  GdxFile.on_symbol k GdxFile.check_loaded w =
    (if _loaded s then Ok tt
     else Raise (Error "All symbols must be loaded before this file can be written."),
     w).
Proof.
  intro G. unfold GdxFile.on_symbol, GdxFile.check_loaded. rewrite G. run.
  cbn [fst snd].
  destruct (_loaded s); cbn [negb fst snd];
    rewrite (set_get_same _ _ _ G), with_symbols_same, world_eta; reflexivity.
Qed.

Lemma check_loaded_keeps_keys : keeps_keys GdxFile.check_loaded.
Proof.
  intros s w r s' w'. unfold GdxFile.check_loaded. run. cbn [fst snd].
  destruct (_loaded s); cbn [negb]; intro E; inversion E; reflexivity.
Qed.

Lemma write_keeps_keys : keeps_keys GdxSymbol.write.
Proof.
  intros s w r s' w'. unfold GdxSymbol.write. run. cbn [fst snd].
  destruct (_loaded s); cbn [negb]; intro E; inversion E; reflexivity.
Qed.

Lemma check_all_loaded (w : World) (ks : list string) :
  all_loaded (_symbols (file w)) ->
  (forall k, In k ks -> In k (OrderedDict.keys (_symbols (file w)))) ->
  for_each ks (fun k => GdxFile.on_symbol k GdxFile.check_loaded) w = (Ok tt, w).
Proof.
  intros All. induction ks as [| k ks IH]; intro Sub; [reflexivity |].
  simpl. unfold bind.
  destruct (in_keys_get _ _ (Sub k (or_introl eq_refl))) as [s G].
  rewrite (on_symbol_check_loaded k s w G), (All k s G).
  apply IH. intros k' I. apply Sub. right. exact I.
Qed.

Lemma check_finds_unloaded (w : World) (ks : list string) :
  (forall k, In k ks -> In k (OrderedDict.keys (_symbols (file w)))) ->
  (exists k s, In k ks /\ OrderedDict.get k (_symbols (file w)) = Some s /\
               _loaded s = false) ->
  for_each ks (fun k => GdxFile.on_symbol k GdxFile.check_loaded) w =
    (Raise (Error "All symbols must be loaded before this file can be written."),
     w).
Proof.
  induction ks as [| k ks IH]; intros Sub [k0 [s0 [I [G0 L0]]]];
    [destruct I |].
  simpl. unfold bind.
  destruct (in_keys_get _ _ (Sub k (or_introl eq_refl))) as [s G].
  rewrite (on_symbol_check_loaded k s w G).
  destruct (_loaded s) eqn:L; [| reflexivity].
  apply IH.
  - intros k' I'. apply Sub. right. exact I'.
  - exists k0, s0. split; [| split; assumption].
    destruct I as [Q | I]; [| exact I].
    subst k0. rewrite G in G0. injection G0 as Q. subst s0.
    rewrite L in L0. discriminate L0.
Qed.

Lemma on_symbol_write (k : string) (s : GdxSymbol) (w : World) :
  OrderedDict.get k (_symbols (file w)) = Some s ->
  _loaded s = true ->
  GdxFile.on_symbol k GdxSymbol.write w =
    (Ok tt, mkWorld (file w) (gdxcc.record (write_call s) (H w)) (log w)).
Proof.
  intros G L. unfold GdxFile.on_symbol, GdxSymbol.write. rewrite G. run.
  cbn [fst snd]. rewrite L. cbn [negb fst snd file H log].
  rewrite (set_get_same _ _ _ G), with_symbols_same. reflexivity.
Qed.

Lemma write_each (ks : list string) :
  forall w : World,
    all_loaded (_symbols (file w)) ->
    (forall k, In k ks -> In k (OrderedDict.keys (_symbols (file w)))) ->
    for_each ks (fun k => GdxFile.on_symbol k GdxSymbol.write) w =
      (Ok tt,
       mkWorld (file w)
         (gdxcc.mkHandle (gdxcc.opened (H w)) (gdxcc.cursor (H w))
            (gdxcc.calls (H w) ++
             flat_map (fun k =>
                         match OrderedDict.get k (_symbols (file w)) with
                         | Some s => [write_call s]
                         | None => []
                         end) ks))
         (log w)).
Proof.
  induction ks as [| k ks IH]; intros w All Sub.
  - simpl. rewrite app_nil_r. destruct w as [f [o c l] lg]. reflexivity.
  - simpl. unfold bind.
    destruct (in_keys_get _ _ (Sub k (or_introl eq_refl))) as [s G].
    rewrite (on_symbol_write k s w G (All k s G)).
    rewrite IH.
    + cbn [file H log gdxcc.opened gdxcc.cursor gdxcc.calls gdxcc.record].
      rewrite G. rewrite <- app_assoc. reflexivity.
    + exact All.
    + intros k' I. apply Sub. right. exact I.
Qed.

  (** When the container stores a symbol that is not loaded, [write]
      raises [Error] before anything else happens: the container, the state
      behind the handle (no call is added) and the log are what they were.
      When every stored symbol is loaded and the universal set is present
      and loaded, [write] returns normally having made exactly these calls,
      in this order: open for writing with the producer tag [gdxpds], the
      universal set, every symbol in container order, close; it also binds
      the file name. *)
Lemma write_all_or_nothing (env : Env) (w : World) (filename : string) :
  (holds_unloaded (_symbols (file w)) ->
   GdxFile.write env filename w =
     (Raise (Error "All symbols must be loaded before this file can be written."),
      w)) /\
  (forall u,
     all_loaded (_symbols (file w)) ->
     distinct (OrderedDict.keys (_symbols (file w))) = true ->
     universal_set (file w) = Some u ->
     _loaded u = true ->
     GdxFile.write env filename w =
       (Ok tt,
        mkWorld (with_filename (Some filename) (file w))
          (gdxcc.mkHandle None None
             (gdxcc.calls (H w) ++
              [gdxcc.OpenWrite filename "gdxpds"] ++
              map write_call (u :: OrderedDict.values (_symbols (file w))) ++
              [gdxcc.Close]))
          (log w))).
Proof.
  split.
  - intros [k [s [G L]]]. unfold GdxFile.write. unfold bind at 1.
    rewrite (for_symbol_in_self_visits _ w check_loaded_keeps_keys).
    rewrite check_finds_unloaded; [reflexivity | | ].
    + intros k' I. exact I.
    + exists k, s. split; [exact (get_in_keys _ _ _ G) | split; assumption].
  - intros u All D U LU. unfold GdxFile.write. unfold bind at 1.
    rewrite (for_symbol_in_self_visits _ w check_loaded_keeps_keys).
    rewrite (check_all_loaded w _ All) by (intros k I; exact I).
    unfold bind at 1. unfold call at 1. unfold gdxcc.gdxOpenWrite.
    cbv zeta. cbn [Py.list_truthy negb].
    unfold bind at 1. unfold updf at 1. unfold modify. cbn [file H log].
    unfold bind at 1. cbn [file H log universal_set with_filename].
    rewrite U. unfold GdxSymbol.write at 1. run. cbn [fst snd].
    rewrite LU. cbn [negb fst snd file H log].
    match goal with
    | |- context [GdxFile.for_symbol_in_self GdxSymbol.write ?w2] =>
        rewrite (for_symbol_in_self_visits _ w2 write_keeps_keys);
        rewrite (write_each _ w2)
    end.
    + cbn [file H log _symbols with_universal_set gdxcc.opened gdxcc.cursor
           gdxcc.calls gdxcc.record gdxcc.gdxClose].
      change (_symbols (with_filename (Some filename) (file w)))
        with (_symbols (file w)).
      rewrite (lookups_are_values write_call _ D).
      f_equal. f_equal.
      * destruct (file w); simpl in *. subst. reflexivity.
      * f_equal. simpl. rewrite <- !app_assoc. reflexivity.
    + exact All.
    + intros k I. exact I.
Qed.

(** C5: the code at a container that was built by appending one loaded
    symbol and was never read.  Every stored symbol is loaded, yet [write]
    does not get to the symbols: the session is opened for writing, the
    file name is bound, and then the call to the universal set's [write]
    raises [AttributeError], the universal set being [None] as the
    constructor of the container left it.  Nothing is written and the
    session is not closed. *)
Theorem write_without_universal_set :
  GdxFile.append (OSym Sample.sym_a) Sample.world0 = (Ok tt, Sample.world_a) /\
  OrderedDict.values (_symbols (file Sample.world_a)) =
    [with_file (Some this_file) Sample.sym_a] /\
  forallb _loaded (OrderedDict.values (_symbols (file Sample.world_a))) = true /\
  universal_set (file Sample.world_a) = None /\
  GdxFile.write Sample.env "out.gdx" Sample.world_a =
    (Raise AttributeError,
     mkWorld (with_filename (Some "out.gdx") (file Sample.world_a))
       (gdxcc.mkHandle None None [gdxcc.OpenWrite "out.gdx" "gdxpds"])
       []).
Proof.
  split; [vm_compute; reflexivity |].
  split; [vm_compute; reflexivity |].
  split; [vm_compute; reflexivity |].
  split; vm_compute; reflexivity.
Qed.

(** ** Names in the container *)

Lemma in_set {V} (d : OrderedDict.t V) (k k' : string) (v v' : V) :
  In (k', v') (OrderedDict.set k v d) -> (k', v') = (k, v) \/ In (k', v') d.
Proof.
  induction d as [| [k0 v0] d IH]; simpl.
  - intros [Q | []]. left. symmetry. exact Q.
  - destruct (String.eqb k k0) eqn:E.
    + apply String.eqb_eq in E. subst k0. intros [Q | Q].
      * left. symmetry. exact Q.
      * right. right. exact Q.
    + intros [Q | Q].
      * right. left. exact Q.
      * destruct (IH Q) as [R | R]; [left; exact R | right; right; exact R].
Qed.

Lemma NoDup_snoc {A} (l : list A) (x : A) :
  NoDup l -> ~ In x l -> NoDup (l ++ [x]).
Proof.
  induction l as [| y l IH]; intros D N; simpl.
  - constructor; [intros [] | constructor].
  - inversion D as [| y' l' Ny Dl]. subst. constructor.
    + intro I. apply in_app_or in I. destruct I as [I | [Q | []]].
      * exact (Ny I).
      * apply N. left. symmetry. exact Q.
    + apply IH; [exact Dl |]. intro I. apply N. right. exact I.
Qed.

Lemma set_distinct {V} (d : OrderedDict.t V) (k : string) (v : V) :
  distinct (OrderedDict.keys d) = true ->
  distinct (OrderedDict.keys (OrderedDict.set k v d)) = true.
Proof.
  intro D. destruct (in_dec string_dec k (OrderedDict.keys d)) as [I | N].
  - rewrite keys_set_in by exact I. exact D.
  - rewrite keys_set_new by exact N. unfold OrderedDict.keys.
    rewrite map_app. simpl. apply distinct_NoDup. apply NoDup_snoc.
    + apply distinct_NoDup. exact D.
    + exact N.
Qed.

  (** What [OrderedDict(pairs)] guarantees, whatever the pairs. *)
Lemma of_pairs_from {V} (P : string -> V -> Prop)
    (pairs : list (string * V)) :
  (forall k v, In (k, v) pairs -> P k v) ->
  forall acc : OrderedDict.t V,
    distinct (OrderedDict.keys acc) = true ->
    (forall k v, In (k, v) acc -> P k v) ->
    distinct
      (OrderedDict.keys
         (fold_left (fun d kv => OrderedDict.set (fst kv) (snd kv) d) pairs acc))
      = true /\
    (forall k v,
       In (k, v)
         (fold_left (fun d kv => OrderedDict.set (fst kv) (snd kv) d) pairs acc) ->
       P k v).
Proof.
  induction pairs as [| [k0 v0] pairs IH]; intros All acc D Acc.
  - simpl. split; assumption.
  - simpl. apply IH.
    + intros k v I. apply All. right. exact I.
    + apply set_distinct. exact D.
    + intros k v I. apply in_set in I. destruct I as [Q | I].
      * injection Q as Qk Qv. subst. apply All. left. reflexivity.
      * exact (Acc k v I).
Qed.

Lemma of_pairs_distinct_keyed (pairs : list (string * GdxSymbol)) :
  (forall k v, In (k, v) pairs -> _name v = k) ->
  distinct (OrderedDict.keys (OrderedDict.of_pairs pairs)) = true /\
  keyed_by_name (OrderedDict.of_pairs pairs).
Proof.
  intro All. unfold OrderedDict.of_pairs, keyed_by_name.
  apply (of_pairs_from (fun k v => _name v = k) pairs All []).
  - reflexivity.
  - intros k v [].
Qed.

  (** A dictionary that is already one is rebuilt as itself. *)
Lemma of_pairs_snoc {V} (pairs : list (string * V)) (k : string) (v : V) :
  OrderedDict.of_pairs (pairs ++ [(k, v)]) =
  OrderedDict.set k v (OrderedDict.of_pairs pairs).
Proof. unfold OrderedDict.of_pairs. rewrite fold_left_app. reflexivity. Qed.

Lemma of_pairs_self {V} (d : OrderedDict.t V) :
  distinct (OrderedDict.keys d) = true -> OrderedDict.of_pairs d = d.
Proof.
  induction d as [| [k v] d IH] using rev_ind; [reflexivity |].
  intro D. rewrite of_pairs_snoc.
  unfold OrderedDict.keys in D. rewrite map_app in D. simpl in D.
  apply distinct_NoDup in D. apply NoDup_remove in D. destruct D as [D N].
  rewrite app_nil_r in D, N.
  rewrite IH by (apply distinct_NoDup; exact D).
  apply keys_set_new. exact N.
Qed.

Lemma in_list_insert {A} (i : Z) (x p : A) (l : list A) :
  In p (Py.list_insert i x l) -> p = x \/ In p l.
Proof.
  unfold Py.list_insert. cbv zeta.
  generalize (Z.to_nat
                (if (i <? 0)%Z
                 then Z.max 0 (i + Z.of_nat (List.length l))
                 else Z.min i (Z.of_nat (List.length l)))) as j.
  intros j I. apply in_app_or in I.
  destruct I as [I | [Q | I]].
  - right. rewrite <- (firstn_skipn j l). apply in_or_app. left. exact I.
  - left. symmetry. exact Q.
  - right. rewrite <- (firstn_skipn j l). apply in_or_app. right. exact I.
Qed.

Lemma list_insert_end {A} (x : A) (l : list A) :
  Py.list_insert (Z.of_nat (List.length l)) x l = l ++ [x].
Proof.
  unfold Py.list_insert. cbv zeta.
  assert (N : (Z.of_nat (List.length l) <? 0)%Z = false)
    by (apply Z.ltb_ge; lia).
  rewrite N, Z.min_id, Nat2Z.id, firstn_all, skipn_all. reflexivity.
Qed.

Lemma iter_from_S (f : GdxFile) (n : nat) (i : Z) :
  GdxFile.iter_from f (S n) i =
  match GdxFile.__getitem__ f (PInt i) with
  | Ok v =>
      match GdxFile.iter_from f n (i + 1) with
      | Ok vs => Ok (v :: vs)
      | Raise e => Raise e
      end
  | Raise IndexError => Ok []
  | Raise e => Raise e
  end.
Proof. reflexivity. Qed.

Lemma iter_from_lookups (f : GdxFile) (post pre : list string) :
  OrderedDict.keys (_symbols f) = pre ++ post ->
  GdxFile.iter_from f (S (List.length post)) (Z.of_nat (List.length pre)) =
  Ok (flat_map (fun k => match OrderedDict.get k (_symbols f) with
                         | Some v => [v]
                         | None => []
                         end) post).
Proof.
  revert pre. induction post as [| k post IH]; intros pre Keys;
    rewrite iter_from_S; unfold GdxFile.__getitem__, GdxFile._name_key;
    simpl as_int; cbv iota beta; rewrite Keys.
  - rewrite app_nil_r, list_index_end. reflexivity.
  - rewrite list_index_at. simpl GdxFile.lookup.
    assert (I : In k (OrderedDict.keys (_symbols f)))
      by (rewrite Keys; apply in_or_app; right; left; reflexivity).
    destruct (in_keys_get _ _ I) as [v G]. rewrite G.
    replace (Z.of_nat (List.length pre) + 1)%Z
      with (Z.of_nat (List.length (pre ++ [k])))
      by (rewrite length_app; cbn [List.length]; lia).
    rewrite IH by (rewrite <- app_assoc; exact Keys).
    simpl. rewrite G. reflexivity.
Qed.

Lemma iter_lookups (f : GdxFile) :
  GdxFile.__iter__ f =
  Ok (flat_map (fun k => match OrderedDict.get k (_symbols f) with
                         | Some v => [v]
                         | None => []
                         end) (OrderedDict.keys (_symbols f))).
Proof.
  unfold GdxFile.__iter__, GdxFile.__len__, GdxFile_len.
  rewrite <- (iter_from_lookups f _ []) by reflexivity.
  unfold OrderedDict.keys. rewrite length_map. reflexivity.
Qed.

  (** On a well-formed dictionary the iteration yields the stored symbols
      in their order. *)
Lemma iter_values (f : GdxFile) :
  distinct (OrderedDict.keys (_symbols f)) = true ->
  GdxFile.__iter__ f = Ok (OrderedDict.values (_symbols f)).
Proof.
  intro D. rewrite iter_lookups.
  rewrite (lookups_are_values (fun v => v) _ D). rewrite map_id. reflexivity.
Qed.

Lemma named_pairs_self (d : OrderedDict.t GdxSymbol) :
  keyed_by_name d ->
  map (fun symbol => (_name symbol, symbol)) (OrderedDict.values d) = d.
Proof.
  induction d as [| [k v] d IH]; intro Kd; [reflexivity |].
  simpl. rewrite (Kd k v) by (left; reflexivity). f_equal.
  apply IH. intros k' v' I. apply Kd. right. exact I.
Qed.

Lemma names_differ (d : OrderedDict.t GdxSymbol) :
  distinct (OrderedDict.keys d) = true ->
  keyed_by_name d ->
  forall i j a b,
    i <> j -> nth_error d i = Some a -> nth_error d j = Some b ->
    _name (snd a) <> _name (snd b).
Proof.
  intros D Kd i j [ka a] [kb b] Neq A B Same. simpl in Same.
  rewrite (Kd ka a) in Same by (eapply nth_error_In; exact A).
  rewrite (Kd kb b) in Same by (eapply nth_error_In; exact B).
  subst kb. apply distinct_NoDup in D. apply Neq.
  assert (Li : i < List.length (OrderedDict.keys d)).
  { unfold OrderedDict.keys. rewrite length_map. apply nth_error_Some.
    rewrite A. discriminate. }
  apply (proj1 (NoDup_nth_error (OrderedDict.keys d)) D i j Li).
  unfold OrderedDict.keys. rewrite !nth_error_map, A, B. reflexivity.
Qed.

(** C2, as stated, fails: appending a second symbol named [a] to a
    container that holds a symbol named [a] is no error.  The call returns
    normally and the new symbol has taken the place of the old one, the
    container still holding one symbol. *)
Lemma append_same_name_overwrites :
  _symbols (file Sample.world_a) =
    [("a", with_file (Some this_file) Sample.sym_a)] /\
  _name Sample.sym_a' = _name Sample.sym_a /\
  Sample.sym_a' <> Sample.sym_a /\
  GdxFile.append (OSym Sample.sym_a') Sample.world_a =
    (Ok tt,
     mkWorld
       (with_symbols [("a", with_file (Some this_file) Sample.sym_a')]
          (file Sample.world_a))
       (H Sample.world_a) (log Sample.world_a)).
Proof.
  repeat split; try reflexivity. intro E. discriminate E.
Qed.

(** C2 (amended): after every [insert] (and [append]) that the position
    check lets through, every symbol is stored under its own name and no
    name occurs twice, so the symbols at two distinct positions have
    different names.  A name that is already present is no error: the call
    returns normally and the entries that share the name collapse into one;
    on [append] to a well-formed container the new symbol silently replaces
    the stored one at its position and the container keeps its length. *)
Theorem insert_names_unique (w : World) (v : GdxSymbol) :
  (forall key : Z,
     (key <= Z.of_nat (GdxFile.__len__ (file w)))%Z ->
     exists d',
       GdxFile.insert (PInt key) (OSym v) w =
         (Ok tt, mkWorld (with_symbols d' (file w)) (H w) (log w)) /\
       distinct (OrderedDict.keys d') = true /\
       keyed_by_name d' /\
       (forall i j a b,
          i <> j -> nth_error d' i = Some a -> nth_error d' j = Some b ->
          _name (snd a) <> _name (snd b))) /\
  (distinct (OrderedDict.keys (_symbols (file w))) = true ->
   keyed_by_name (_symbols (file w)) ->
   In (_name v) (OrderedDict.keys (_symbols (file w))) ->
   let d' :=
     OrderedDict.set (_name v) (with_file (Some this_file) v)
       (_symbols (file w)) in
   GdxFile.append (OSym v) w =
     (Ok tt, mkWorld (with_symbols d' (file w)) (H w) (log w)) /\
   List.length d' = List.length (_symbols (file w)) /\
   OrderedDict.get (_name v) d' = Some (with_file (Some this_file) v)).
Proof.
  assert (Ins : forall key : Z,
             (key <= Z.of_nat (GdxFile.__len__ (file w)))%Z ->
             forall syms, GdxFile.__iter__ (file w) = Ok syms ->
             GdxFile.insert (PInt key) (OSym v) w =
               (Ok tt,
                mkWorld
                  (with_symbols
                     (OrderedDict.of_pairs
                        (Py.list_insert key
                           (_name v, with_file (Some this_file) v)
                           (map (fun symbol => (_name symbol, symbol)) syms)))
                     (file w))
                  (H w) (log w))).
  { intros key Le syms It.
    unfold GdxFile.insert, GdxFile._check_insert_setitem. run.
    cbn [as_int]. cbv beta.
    assert (B : (Z.of_nat (GdxFile.__len__ (file w)) <? key)%Z = false)
      by (apply Z.ltb_ge; exact Le).
    rewrite B. cbv beta iota. rewrite It. reflexivity. }
  split.
  - intros key Le. eexists. split; [apply (Ins key Le); apply iter_lookups |].
    match goal with
    | |- distinct (OrderedDict.keys (OrderedDict.of_pairs ?pairs)) = true /\ _ =>
        destruct (of_pairs_distinct_keyed pairs) as [D Kd]
    end.
    + intros k s I. apply in_list_insert in I. destruct I as [Q | I].
      * injection Q as Qk Qs. subst. reflexivity.
      * apply in_map_iff in I. destruct I as [s' [Q _]].
        injection Q as Qk Qs. subst. reflexivity.
    + split; [exact D | split; [exact Kd | exact (names_differ _ D Kd)]].
  - intros D Kd I d'. split; [| split].
    + unfold GdxFile.append. run.
      rewrite (Ins _ (Z.le_refl _) _ (iter_values _ D)).
      rewrite (named_pairs_self _ Kd).
      unfold GdxFile.__len__, GdxFile_len. rewrite list_insert_end.
      rewrite of_pairs_snoc, (of_pairs_self _ D). reflexivity.
    + rewrite <- (length_map fst d'), <- (length_map fst (_symbols (file w))).
      change (map fst d') with (OrderedDict.keys d'). unfold d'.
      rewrite keys_set_in by exact I. reflexivity.
    + apply get_set_same.
Qed.

Lemma insert_names_unique_witness :
  (exists d',
     GdxFile.insert (PInt 0) (OSym Sample.sym_a') Sample.world_a =
       (Ok tt,
        mkWorld (with_symbols d' (file Sample.world_a)) (H Sample.world_a)
          (log Sample.world_a)) /\
     distinct (OrderedDict.keys d') = true /\
     keyed_by_name d' /\
     (forall i j a b,
        i <> j -> nth_error d' i = Some a -> nth_error d' j = Some b ->
        _name (snd a) <> _name (snd b))) /\
  (let d' :=
     OrderedDict.set (_name Sample.sym_a')
       (with_file (Some this_file) Sample.sym_a')
       (_symbols (file Sample.world_a)) in
   GdxFile.append (OSym Sample.sym_a') Sample.world_a =
     (Ok tt,
      mkWorld (with_symbols d' (file Sample.world_a)) (H Sample.world_a)
        (log Sample.world_a)) /\
   List.length d' = List.length (_symbols (file Sample.world_a)) /\
   OrderedDict.get (_name Sample.sym_a') d' =
     Some (with_file (Some this_file) Sample.sym_a')).
Proof.
  split.
  - apply (proj1 (insert_names_unique Sample.world_a Sample.sym_a') 0%Z).
    vm_compute. intro E. discriminate E.
  - apply (proj2 (insert_names_unique Sample.world_a Sample.sym_a')).
    + reflexivity.
    + intros k s [Q | []]. injection Q as Qk Qs. subst. reflexivity.
    + left. reflexivity.
Defined.

  (** Replacement at an existing position: the new symbol is stored under
      the old key, then [_fixup_name_keys] raises on the first key. *)
Lemma setitem_replace_raises :
  GdxFile.__setitem__ (PInt 0) (OSym Sample.par) Sample.world_a =
    (Raise ValueError,
     mkWorld
       (with_symbols [("a", with_file (Some this_file) Sample.par)]
          (file Sample.world_a))
       (H Sample.world_a) (log Sample.world_a)).
Proof. reflexivity. Qed.

(** ** [GdxFile.read] *)

(** C1, as stated, fails: reading a file whose symbol at position 2 cannot
    be described raises, and the new container is left with the file name,
    the version, the producer, the universal set and the one symbol that
    was read before the failure. *)
Lemma read_failure_leaves_partial_state :
  GdxFile.empty (file Sample.world0) = true /\
  fst (GdxFile.read Sample.env "broken.gdx" Sample.world0) =
    Raise (GdxError "Could not get symbol info for symbol") /\
  _filename (file (snd (GdxFile.read Sample.env "broken.gdx" Sample.world0))) =
    Some "broken.gdx" /\
  _version (file (snd (GdxFile.read Sample.env "broken.gdx" Sample.world0))) =
    Some "V7" /\
  OrderedDict.keys
    (_symbols (file (snd (GdxFile.read Sample.env "broken.gdx" Sample.world0)))) =
    ["i"] /\
  file (snd (GdxFile.read Sample.env "broken.gdx" Sample.world0)) <>
    file Sample.world0.
Proof.
  repeat split; try reflexivity.
  intro E. apply (f_equal _filename) in E. vm_compute in E. discriminate E.
Qed.

(** C1 (amended): on a container that already holds a symbol, [read]
    raises [Error] and leaves the container, the state behind the handle
    and the log exactly as they were.  On an empty container, a path that
    cannot be opened makes [read] raise [GdxError] with the container (its
    symbols, universal set, version, producer and file name) exactly as it
    was; only the attempt to open is added to the calls of the handle. *)
Theorem read_rejections (env : Env) (w : World) (filename : string) :
  (GdxFile.empty (file w) = false ->
   GdxFile.read env filename w =
     (Raise (Error "GdxFile.read can only be used if the GdxFile is .empty"),
      w)) /\
  (GdxFile.empty (file w) = true ->
   gdxcc.disk (backend env) filename = None ->
   GdxFile.read env filename w =
     (Raise (GdxError "Could not open"),
      mkWorld (file w) (gdxcc.record (gdxcc.OpenRead filename) (H w)) (log w))).
Proof.
  split.
  - intro NE. unfold GdxFile.read. unfold bind at 1. unfold get at 1.
    rewrite NE. reflexivity.
  - intros E Closed. unfold GdxFile.read. unfold bind at 1. unfold get at 1.
    rewrite E. cbn [negb]. unfold bind at 1. unfold call at 1.
    unfold gdxcc.gdxOpenRead. cbv zeta. rewrite Closed. reflexivity.
Qed.

Lemma read_rejections_witness :
  GdxFile.read Sample.env "demo.gdx" Sample.world_a =
    (Raise (Error "GdxFile.read can only be used if the GdxFile is .empty"),
     Sample.world_a) /\
  GdxFile.read Sample.env "missing.gdx" Sample.world0 =
    (Raise (GdxError "Could not open"),
     mkWorld (file Sample.world0)
       (gdxcc.record (gdxcc.OpenRead "missing.gdx") (H Sample.world0))
       (log Sample.world0)).
Proof.
  split.
  - apply (proj1 (read_rejections Sample.env Sample.world_a "demo.gdx")).
    reflexivity.
  - apply (proj2 (read_rejections Sample.env Sample.world0 "missing.gdx"));
      reflexivity.
Defined.

(** ** The column count on the paths that return normally *)

Lemma columns_ok_count (s : GdxSymbol) :
  columns_ok s -> column_count_ok s = true.
Proof.
  intros [d [df [D [F C]]]]. unfold column_count_ok. rewrite D, F, C.
  unfold GdxSymbol.value_col_names.
  rewrite length_map, length_app, length_map. apply Nat.eqb_refl.
Qed.

Lemma value_cols_count (s : GdxSymbol) :
  List.length (GdxSymbol.value_cols s) =
  match _data_type s with
  | DT_Variable | DT_Equation => 5
  | _ => 1
  end.
Proof. unfold GdxSymbol.value_cols. destruct (_data_type s); reflexivity. Qed.

Lemma value_col_names_order (s : GdxSymbol) :
  GdxSymbol.value_col_names s =
  match _data_type s with
  | DT_Variable | DT_Equation =>
      ["Level"; "Marginal"; "Lower"; "Upper"; "Scale"]
  | _ => ["Value"]
  end.
Proof.
  unfold GdxSymbol.value_col_names, GdxSymbol.value_cols.
  destruct (_data_type s); reflexivity.
Qed.

Lemma init_dataframe_columns (s s' : GdxSymbol) (w w' : World) :
  GdxSymbol._init_dataframe (s, w) = (Ok tt, (s', w')) -> columns_ok s'.
Proof.
  unfold GdxSymbol._init_dataframe, GdxSymbol.own_columns, GdxSymbol.dims.
  run. cbn [fst snd]. destruct (_dims s) as [d |] eqn:D; [| discriminate].
  cbn. intro E. inversion E. subst.
  exists d, (pds.mkDataFrame (map LStr (d ++ GdxSymbol.value_col_names s)) []).
  repeat split; assumption.
Qed.

Lemma has_records_state (st st' : GdxSymbol.St) (r : Res bool) :
  GdxSymbol.has_records st = (r, st') -> st' = st.
Proof.
  unfold GdxSymbol.has_records. run. destruct (_loaded (fst st)).
  - destruct (GdxSymbol.num_records (fst st)); intro E; inversion E; reflexivity.
  - intro E. inversion E. reflexivity.
Qed.

  (** The warning issued on a populated symbol touches the log only. *)
Lemma dims_warning_symbol (value : PyVal) (populated : bool)
    (s s' : GdxSymbol) (w w' : World) (r : Res unit) :
  when populated
    (s <- GdxSymbol.self ;;
     differs <- (if GdxSymbol.is_list value
                 then nd <- liftR (GdxSymbol.num_dims s) ;;
                      ret (negb (Nat.eqb (GdxSymbol.py_len value) nd))
                 else ret true) ;;
     when differs
       (_ <- liftR (GdxSymbol.dims s) ;;
        GdxSymbol.world (logger WARNING
          "Cannot set dims, because dataframe already contains data.")))
    (s, w) = (r, (s', w')) ->
  s' = s.
Proof.
  run. cbn [fst snd]. destruct populated; [| intro E; inversion E; reflexivity].
  destruct (GdxSymbol.is_list value); cbn [fst snd].
  - destruct (GdxSymbol.num_dims s) as [nd | e];
      [| cbv beta iota; intro E; inversion E; reflexivity].
    cbv beta iota.
    destruct (negb (Nat.eqb (GdxSymbol.py_len value) nd)).
    + destruct (GdxSymbol.dims s); cbn [fst snd]; intro E; inversion E;
        reflexivity.
    + intro E. inversion E. reflexivity.
  - destruct (GdxSymbol.dims s); cbn [fst snd]; intro E; inversion E;
      reflexivity.
Qed.

Lemma set_dims_columns (value : PyVal) (s s' : GdxSymbol) (w w' : World) :
  GdxSymbol.set_dims value (s, w) = (Ok tt, (s', w')) -> columns_ok s'.
Proof.
  unfold GdxSymbol.set_dims. unfold bind at 1.
  destruct (GdxSymbol.has_records (s, w)) as [[populated | e] st1] eqn:HR;
    [| discriminate].
  apply has_records_state in HR. subst st1.
  unfold bind at 1.
  match goal with
  | |- context [when populated ?blk (s, w)] =>
      destruct (when populated blk (s, w)) as [[u | e] [s1 w1]] eqn:Warn;
        [| discriminate]
  end.
  apply dims_warning_symbol in Warn. subst s1.
  destruct (as_int value) as [n |] eqn:I.
  - unfold bind at 1. unfold GdxSymbol.upd at 1. unfold modify.
    cbn [fst snd]. apply init_dataframe_columns.
  - destruct value; try discriminate.
    unfold bind at 1. unfold liftR at 1.
    destruct (GdxSymbol.check_dims l) as [ds | e]; [| discriminate].
    unfold bind at 1. unfold GdxSymbol.self at 1. cbn [fst snd].
    unfold bind at 1. unfold liftR at 1.
    destruct (GdxSymbol.num_dims s) as [nd | e]; [| discriminate].
    unfold bind at 1.
    destruct (Nat.ltb 0 nd && negb (Nat.eqb nd (List.length l)));
      unfold when, GdxSymbol.world, logger, modify, ret; cbn [fst snd];
      unfold bind at 1; unfold GdxSymbol.upd at 1; unfold modify;
      cbn [fst snd]; unfold bind at 1;
      match goal with
      | |- context [GdxSymbol.has_records ?st] =>
          destruct (GdxSymbol.has_records st) as [[p2 | e] st2] eqn:HR2;
            [| discriminate];
          apply has_records_state in HR2; subst st2
      end;
      (destruct p2; [| apply init_dataframe_columns]);
      run; cbn [fst snd];
      unfold GdxSymbol.own_columns, GdxSymbol.dims; cbn [_dims with_dims];
      (destruct (_dataframe (with_dims (Some ds) s)) as [df |] eqn:F;
         [| discriminate]);
      unfold pds.set_columns;
      match goal with
      | |- context [Nat.eqb ?a ?b] => destruct (Nat.eqb a b); [| discriminate]
      end;
      intro E; inversion E; subst;
      eexists; eexists; repeat split; reflexivity.
Qed.

Lemma DataFrame_call_columns (data : list (list pds.Cell)) (cols : list Label)
    (df : pds.DataFrame) :
  pds.DataFrame_call data cols = Ok df -> pds.columns df = cols.
Proof.
  unfold pds.DataFrame_call. destruct data as [| r data].
  - intro E. injection E as E. subst df. reflexivity.
  - destruct (Nat.eqb _ _); [| discriminate].
    intro E. injection E as E. subst df. reflexivity.
Qed.

Lemma set_dataframe_columns (data : GdxSymbol.TableArg) (s s' : GdxSymbol)
    (w w' : World) :
  GdxSymbol.set_dataframe data (s, w) = (Ok tt, (s', w')) -> columns_ok s'.
Proof.
  destruct data as [df | data]; unfold GdxSymbol.set_dataframe.
  - unfold bind at 1. unfold GdxSymbol.self at 1. cbn [fst snd].
    unfold bind at 1.
    match goal with
    | |- context [when ?c ?m (s, w)] =>
        destruct (when c m (s, w)) as [[u | e] st1]; [| discriminate]
    end.
    unfold bind at 1. unfold GdxSymbol.self at 1.
    unfold bind at 1. unfold liftR at 1.
    destruct (GdxSymbol.num_dims (fst st1)) as [nd | e]; [| discriminate].
    unfold bind at 1.
    match goal with
    | |- context [when ?c ?m st1] =>
        destruct (when c m st1) as [[u' | e] st2]; discriminate
    end.
  - unfold GdxSymbol.own_columns, GdxSymbol.dims. run. cbn [fst snd].
    destruct (_dims s) as [d |] eqn:D; [| discriminate].
    destruct (pds.DataFrame_call data _) as [df | e] eqn:C; [| discriminate].
    apply DataFrame_call_columns in C.
    intro E. inversion E. subst. exists d, df. repeat split; assumption.
Qed.

Lemma set_variable_type_frame (value : PyVal) (s s' : GdxSymbol)
    (w w' : World) (r : Res unit) :
  GdxSymbol.set_variable_type value (s, w) = (r, (s', w')) ->
  _dims s' = _dims s /\ _dataframe s' = _dataframe s /\
  _data_type s' = _data_type s.
Proof.
  unfold GdxSymbol.set_variable_type. run. cbn [fst snd].
  destruct (GamsDataType_eqb (_data_type s) DT_Variable).
  - destruct (GamsVariableType_call value).
    + intro E. inversion E. repeat split.
    + destruct (_variable_type s); cbn [fst snd]; intro E; inversion E;
        repeat split.
  - destruct value; cbn [fst snd]; intro E; inversion E; repeat split.
Qed.

Lemma set_data_type_columns (value : PyVal) (s s' : GdxSymbol)
    (w w' : World) :
  GdxSymbol.set_data_type value (s, w) = (Ok tt, (s', w')) -> columns_ok s'.
Proof.
  unfold GdxSymbol.set_data_type.
  unfold bind at 1. unfold GdxSymbol.self at 1. cbn [fst snd].
  unfold bind at 1.
  match goal with
  | |- context [(if negb (_loaded s) then ?a else ?b) (s, w)] =>
      destruct ((if negb (_loaded s) then a else b) (s, w))
        as [[blocked | e] st1]; [| discriminate]
  end.
  destruct blocked; [discriminate |].
  unfold bind at 1. unfold liftR at 1.
  destruct (GamsDataType_call value) as [k | e]; [| discriminate].
  unfold bind at 1. unfold GdxSymbol.upd at 1. unfold modify.
  unfold bind at 1.
  destruct (GdxSymbol.set_variable_type PNone _) as [[u | e] [s2 w2]];
    [| discriminate].
  apply init_dataframe_columns.
Qed.

Lemma columns_ok_with_loaded (b : bool) (s : GdxSymbol) :
  columns_ok s -> columns_ok (with_loaded b s).
Proof. intros [d [df C]]. exists d, df. exact C. Qed.

Lemma then_loaded_columns (data : GdxSymbol.TableArg)
    (st : GdxSymbol.St) (s1 : GdxSymbol) (w1 : World) :
  (GdxSymbol.set_dataframe data ;;; GdxSymbol.upd (with_loaded true)) st =
    (Ok tt, (s1, w1)) ->
  columns_ok s1.
Proof.
  unfold bind. destruct st as [s w].
  destruct (GdxSymbol.set_dataframe data (s, w)) as [[[] | e] [s' w']] eqn:SD;
    [| discriminate].
  apply set_dataframe_columns in SD. unfold GdxSymbol.upd, modify.
  cbn [fst snd]. intro E. inversion E. subst.
  apply columns_ok_with_loaded. exact SD.
Qed.

Lemma load_columns (env : Env) (s s' : GdxSymbol) (w w' : World) :
  columns_ok s ->
  GdxSymbol.load env (s, w) = (Ok tt, (s', w')) -> columns_ok s'.
Proof.
  intro C. unfold GdxSymbol.load.
  unfold bind at 1. unfold GdxSymbol.self at 1. cbn [fst snd].
  destruct (_loaded s) eqn:L.
  - run. cbn [fst snd]. intro E. inversion E. subst. exact C.
  - destruct (negb (GdxSymbol.file_truthy (s, w))); [discriminate |].
    destruct (negb (GdxSymbol.index_truthy s)); [discriminate |].
    destruct (GamsDataType_eqb (_data_type s) DT_Parameter && HAVE_GDX2PY env).
    + apply then_loaded_columns.
    + unfold bind at 1.
      destruct (GdxSymbol.world _ (s, w)) as [[[r0 records] | e] st1];
        [| discriminate].
      unfold bind at 1.
      destruct (GdxSymbol.read_records env (Z.to_nat records) [] st1)
        as [[data | e] st2]; [| discriminate].
      apply then_loaded_columns.
Qed.

  (** Every setter and [load], when it returns normally, leaves a table
      whose columns are the domain labels followed by the channel names of
      the kind: domain length + 1 columns for Set, Parameter and Alias,
      domain length + 5 for Variable and Equation. *)
Lemma columns_after_normal_return (env : Env) (s s' : GdxSymbol)
    (w w' : World) :
  (forall value,
     GdxSymbol.set_dims value (s, w) = (Ok tt, (s', w')) -> columns_ok s') /\
  (forall value,
     GdxSymbol.set_data_type value (s, w) = (Ok tt, (s', w')) -> columns_ok s') /\
  (forall data,
     GdxSymbol.set_dataframe data (s, w) = (Ok tt, (s', w')) -> columns_ok s') /\
  (columns_ok s ->
   GdxSymbol.load env (s, w) = (Ok tt, (s', w')) -> columns_ok s').
Proof.
  repeat split.
  - intro value. apply set_dims_columns.
  - intro value. apply set_data_type_columns.
  - intro data. apply set_dataframe_columns.
  - apply load_columns.
Qed.

(** * More of the module *)

(** ** What a method leaves alone *)

Section Preserves.

Context {S : Type} (I : S -> Prop).

Lemma preserves_ret {A} (a : A) : preserves I (ret a).
Proof. intros st P r st' E. inversion E. subst. exact P. Qed.

Lemma preserves_raise {A} (e : Exn) : preserves I (@raise S A e).
Proof. intros st P r st' E. inversion E. subst. exact P. Qed.

Lemma preserves_liftR {A} (x : Res A) : preserves I (liftR x).
Proof. intros st P r st' E. inversion E. subst. exact P. Qed.

Lemma preserves_get : preserves I get.
Proof. intros st P r st' E. inversion E. subst. exact P. Qed.

Lemma preserves_modify (g : S -> S) :
  (forall st, I st -> I (g st)) -> preserves I (modify g).
Proof. intros G st P r st' E. inversion E. subst. exact (G st P). Qed.

Lemma preserves_bind {A B} (m : M S A) (k : A -> M S B) :
  preserves I m -> (forall a, preserves I (k a)) -> preserves I (bind m k).
Proof.
  intros Pm Pk st P r st'. unfold bind.
  destruct (m st) as [[a | e] st1] eqn:E.
  - apply (Pk a st1). exact (Pm st P _ _ E).
  - intro Q. inversion Q. subst. exact (Pm st P _ _ E).
Qed.

Lemma preserves_when (c : bool) (m : M S unit) :
  preserves I m -> preserves I (when c m).
Proof. intro Pm. destruct c; [exact Pm | apply preserves_ret]. Qed.

Lemma preserves_for_each {A} (xs : list A) (body : A -> M S unit) :
  (forall x, preserves I (body x)) -> preserves I (for_each xs body).
Proof.
  intro Pb. induction xs as [| x xs IH]; simpl.
  - apply preserves_ret.
  - apply preserves_bind; [apply Pb | intros _; exact IH].
Qed.

  (** A method written as a function of the state it starts from. *)
Lemma preserves_here {A} (m : S -> M S A) :
  (forall st0, preserves I (m st0)) -> preserves I (fun st => m st st).
Proof. intros Pm st P r st' E. exact (Pm st st P r st' E). Qed.

End Preserves.

Lemma preserves_upd (I : GdxSymbol.St -> Prop) (g : GdxSymbol -> GdxSymbol) :
  (forall s w, I (s, w) -> I (g s, w)) -> preserves I (GdxSymbol.upd g).
Proof.
  intros G. apply preserves_modify. intros [s w] P. apply G. exact P.
Qed.

Lemma preserves_self (I : GdxSymbol.St -> Prop) : preserves I GdxSymbol.self.
Proof. intros st P r st' E. inversion E. subst. exact P. Qed.

  (** A step on the world, seen from a symbol method. *)
Lemma preserves_world {A} (J : World -> Prop) (m : M World A) :
  preserves J m -> preserves (fun st => J (snd st)) (GdxSymbol.world m).
Proof.
  intros Pm [s w] P r [s' w']. unfold GdxSymbol.world. cbn [fst snd].
  destruct (m w) as [r1 w1] eqn:E. intro Q. inversion Q. subst.
  exact (Pm w P _ _ E).
Qed.

Lemma logger_keeps (J : World -> Prop) (lvl : Level) (msg : string) :
  (forall f h l l', J (mkWorld f h l) -> J (mkWorld f h l')) ->
  preserves J (logger lvl msg).
Proof.
  intro G. apply preserves_modify. intros [f h l] P. exact (G f h l _ P).
Qed.

Lemma call_keeps {A} (J : World -> Prop)
    (c : gdxcc.Handle -> A * gdxcc.Handle) :
  (forall f h h' l, J (mkWorld f h l) -> J (mkWorld f h' l)) ->
  preserves J (call c).
Proof.
  intros G [f h l] P r w'. unfold call. cbn [H file log].
  destruct (c h) as [a h']. intro E. inversion E. subst. exact (G f h h' l P).
Qed.

Ltac frame_file :=
  repeat first
    [ apply preserves_ret
    | apply preserves_raise
    | apply preserves_liftR
    | apply preserves_self
    | apply preserves_upd; intros ? ? ?; assumption
    | apply preserves_when
    | match goal with
      | |- preserves (fun st => file (snd st) = ?f) (GdxSymbol.world (logger _ _)) =>
          apply (preserves_world (fun w => file w = f));
          apply logger_keeps; intros ? ? ? ? ?; assumption
      | |- preserves (fun st => file (snd st) = ?f) (GdxSymbol.world (call _)) =>
          apply (preserves_world (fun w => file w = f));
          apply call_keeps; intros ? ? ? ? ?; assumption
      end
    | apply preserves_bind; [| intros ?]
    | match goal with
      | |- preserves _ (if ?c then _ else _) => destruct c
      | |- preserves _ (match ?x with _ => _ end) => destruct x
      end ].

Lemma set_variable_type_keeps_file (value : PyVal) :
  keeps_file (GdxSymbol.set_variable_type value).
Proof. intro f0. unfold GdxSymbol.set_variable_type. frame_file. Qed.

Lemma init_dataframe_keeps_file : keeps_file GdxSymbol._init_dataframe.
Proof. intro f0. unfold GdxSymbol._init_dataframe. frame_file. Qed.

Lemma has_records_keeps_file : keeps_file GdxSymbol.has_records.
Proof. intro f0. unfold GdxSymbol.has_records. frame_file. Qed.

Lemma set_dims_keeps_file (value : PyVal) :
  keeps_file (GdxSymbol.set_dims value).
Proof.
  intro f0. unfold GdxSymbol.set_dims.
  apply preserves_bind; [apply has_records_keeps_file | intro populated].
  apply preserves_bind; [frame_file | intros _].
  destruct (as_int value) as [n |].
  - apply preserves_bind; [frame_file | intros _].
    apply init_dataframe_keeps_file.
  - destruct value; try apply preserves_raise.
    apply preserves_bind; [frame_file | intro ds].
    apply preserves_bind; [frame_file | intro s].
    apply preserves_bind; [frame_file | intro nd].
    apply preserves_bind; [frame_file | intros _].
    apply preserves_bind; [frame_file | intros _].
    apply preserves_bind; [apply has_records_keeps_file | intro p].
    destruct p; [frame_file | apply init_dataframe_keeps_file].
Qed.

Lemma set_data_type_keeps_file (value : PyVal) :
  keeps_file (GdxSymbol.set_data_type value).
Proof.
  intro f0. unfold GdxSymbol.set_data_type.
  apply preserves_bind; [frame_file | intro s].
  apply preserves_bind; [frame_file | intro blocked].
  destruct blocked; [apply preserves_raise |].
  apply preserves_bind; [frame_file | intro k].
  apply preserves_bind; [frame_file | intros _].
  apply preserves_bind; [apply set_variable_type_keeps_file | intros _].
  apply init_dataframe_keeps_file.
Qed.

Lemma set_dataframe_keeps_file (data : GdxSymbol.TableArg) :
  keeps_file (GdxSymbol.set_dataframe data).
Proof.
  intro f0. destruct data as [df | rows]; unfold GdxSymbol.set_dataframe.
  - apply preserves_bind; [frame_file | intro s].
    apply preserves_bind;
      [apply preserves_when; apply set_dims_keeps_file | intros _].
    apply preserves_bind; [frame_file | intro s'].
    apply preserves_bind; [frame_file | intro nd].
    apply preserves_bind;
      [apply preserves_when; apply set_dims_keeps_file | intros _].
    apply preserves_raise.
  - frame_file.
Qed.

Lemma read_records_keeps_file (env : Env) (n : nat) :
  forall data, keeps_file (GdxSymbol.read_records env n data).
Proof.
  induction n as [| n IH]; intros data f0; simpl.
  - apply preserves_ret.
  - apply preserves_bind; [frame_file | intros [[[r0 elements] values] afdim]].
    apply preserves_bind; [frame_file | intro s].
    apply preserves_bind; [frame_file | intro vs].
    apply preserves_bind; [frame_file | intro row].
    apply IH.
Qed.

Lemma load_keeps_file (env : Env) : keeps_file (GdxSymbol.load env).
Proof.
  intro f0. unfold GdxSymbol.load.
  apply preserves_bind; [frame_file | intro s].
  destruct (_loaded s); [frame_file |].
  apply preserves_here. intro st0.
  destruct (negb (GdxSymbol.file_truthy st0)); [apply preserves_raise |].
  destruct (negb (GdxSymbol.index_truthy s)); [apply preserves_raise |].
  destruct (GamsDataType_eqb (_data_type s) DT_Parameter && HAVE_GDX2PY env).
  - apply preserves_bind; [apply set_dataframe_keeps_file | intros _].
    frame_file.
  - apply preserves_bind; [frame_file | intros [r0 records]].
    apply preserves_bind; [apply read_records_keeps_file | intro data].
    apply preserves_bind; [apply set_dataframe_keeps_file | intros _].
    frame_file.
Qed.

Lemma init_keeps_file (env : Env) (name : string) (data_type dims_arg : PyVal)
    (file_arg : option FileRef) (index : option Z) (descr : string)
    (variable_type : PyVal) (w w' : World) (r : Res GdxSymbol) :
  GdxSymbol.__init__ env name data_type dims_arg file_arg index descr
    variable_type w = (r, w') ->
  file w' = file w.
Proof.
  unfold GdxSymbol.__init__. unfold bind at 1. unfold liftR at 1.
  destruct (GamsDataType_call data_type) as [k | e];
    [| intro E; inversion E; reflexivity].
  match goal with
  | |- context [?body (?s0, w)] =>
      assert (K : preserves (fun st => file (snd st) = file w) body)
  end.
  { apply preserves_bind; [apply set_variable_type_keeps_file | intros _].
    apply preserves_bind; [apply set_dims_keeps_file | intros _].
    apply preserves_bind; [frame_file | intro s].
    apply preserves_bind; [frame_file | intros _].
    apply preserves_bind; [frame_file | intros _].
    apply preserves_bind; [frame_file | intros _].
    apply preserves_here. intro st0.
    destruct (GdxSymbol.file_truthy st0); [| frame_file].
    destruct index as [i |]; [| apply preserves_raise].
    apply preserves_bind; [frame_file | intros [[[ret_ records] userinfo] d']].
    apply preserves_bind; [frame_file | intros _].
    apply preserves_bind; [frame_file | intros _].
    apply preserves_bind; [frame_file | intro s1].
    apply preserves_bind.
    - apply preserves_when.
      apply preserves_bind; [frame_file | intro t].
      apply set_variable_type_keeps_file.
    - intros _. apply preserves_bind; [frame_file | intros _].
      apply preserves_when.
      apply preserves_bind; [frame_file | intros [ret2 gdx_domain]].
      apply preserves_bind; [frame_file | intros _].
      apply preserves_bind; [frame_file | intro s2].
      apply preserves_bind; [frame_file | intro nd].
      apply preserves_bind; [frame_file | intros _].
      apply set_dims_keeps_file. }
  match goal with
  | |- context [?body (?s0, w)] =>
      destruct (body (s0, w)) as [[u | e] [s1 w1]] eqn:B;
        apply K in B; [| reflexivity | | reflexivity];
        cbn [snd] in B; intro E; inversion E; subst; exact B
  end.
Qed.

(** ** [GdxFile.read]: what is bound once the file is open *)

Lemma described_file (fn v p : string) (w w' : World) :
  _filename (file w') = _filename (file w) ->
  _version (file w') = _version (file w) ->
  _producer (file w') = _producer (file w) ->
  described fn v p w -> described fn v p w'.
Proof.
  intros F V P [D1 [D2 D3]]. unfold described.
  rewrite F, V, P. repeat split; assumption.
Qed.

Lemma described_init (fn v p : string) (env : Env) (name : string)
    (data_type dims_arg : PyVal) (file_arg : option FileRef)
    (index : option Z) (descr : string) (variable_type : PyVal) :
  preserves (described fn v p)
    (GdxSymbol.__init__ env name data_type dims_arg file_arg index descr
       variable_type).
Proof.
  intros w D r w' E. apply init_keeps_file in E.
  apply (described_file fn v p w w'); try (rewrite E; reflexivity). exact D.
Qed.

Lemma described_call {A} (fn v p : string)
    (c : gdxcc.Handle -> A * gdxcc.Handle) :
  preserves (described fn v p) (call c).
Proof. apply call_keeps. intros f h h' l D. exact D. Qed.

Lemma described_logger (fn v p : string) (lvl : Level) (msg : string) :
  preserves (described fn v p) (logger lvl msg).
Proof. apply logger_keeps. intros f h l l' D. exact D. Qed.

Lemma described_insert (fn v p : string) (key : PyVal) (value : PyObj) :
  preserves (described fn v p) (GdxFile.insert key value).
Proof.
  unfold GdxFile.insert.
  apply preserves_bind.
  - unfold GdxFile._check_insert_setitem.
    destruct value; [| apply preserves_raise].
    destruct (as_int key); [| apply preserves_raise].
    apply preserves_bind; [apply preserves_get | intro w0].
    destruct (_ <? _)%Z; [apply preserves_raise | apply preserves_ret].
  - intros [k s]. apply preserves_bind; [apply preserves_get | intro w0].
    apply preserves_bind; [apply preserves_liftR | intro syms].
    apply preserves_modify. intros w D. exact D.
Qed.

Lemma described_append (fn v p : string) (value : PyObj) :
  preserves (described fn v p) (GdxFile.append value).
Proof.
  unfold GdxFile.append.
  apply preserves_bind; [apply preserves_get | intro w0].
  apply described_insert.
Qed.

Lemma described_on_symbol (fn v p : string) (k : string)
    (body : M GdxSymbol.St unit) :
  keeps_file body -> preserves (described fn v p) (GdxFile.on_symbol k body).
Proof.
  intros K w D r w'. unfold GdxFile.on_symbol.
  destruct (OrderedDict.get k (_symbols (file w))) as [s |];
    [| intro E; inversion E; subst; exact D].
  destruct (body (s, w)) as [r1 [s1 w1]] eqn:B.
  apply (K (file w)) in B; [| reflexivity]. cbn [snd] in B.
  intro E. inversion E. subst.
  apply (described_file fn v p w); try (cbn; rewrite B; reflexivity). exact D.
Qed.

Lemma described_for_symbol (fn v p : string) (body : M GdxSymbol.St unit)
    (fuel : nat) :
  keeps_file body ->
  forall i, preserves (described fn v p) (GdxFile.for_symbol_from fuel i body).
Proof.
  intro K. induction fuel as [| n IH]; intro i; simpl.
  - apply preserves_ret.
  - intros w D r w'.
    destruct (GdxFile._name_key (file w) (PInt i)) as [[] | []];
      try (intro E; inversion E; subst; exact D).
    apply (preserves_bind (described fn v p)); [| intros _; apply IH | exact D].
    apply described_on_symbol. exact K.
Qed.

(** X1: on an empty container, once the path has been opened, [read] ends
    (normally or by any later error) with the container's file name bound
    to the path and its version and producer bound to what the file
    reports. *)
Theorem read_binds_description (env : Env) (w w' : World) (filename : string)
    (c : gdxcc.Content) (r : Res unit) :
  GdxFile.empty (file w) = true ->
  gdxcc.disk (backend env) filename = Some c ->
  GdxFile.read env filename w = (r, w') ->
  described filename (snd (fst (gdxcc.file_version c)))
    (snd (gdxcc.file_version c)) w'.
Proof.
  intros E Open. unfold GdxFile.read.
  unfold bind at 1. unfold get at 1. rewrite E. cbn [negb].
  unfold bind at 1. unfold call at 1. unfold gdxcc.gdxOpenRead. cbv zeta.
  rewrite Open. cbn [negb].
  unfold bind at 1. unfold updf at 1. unfold modify. cbn [file H log].
  unfold bind at 1. unfold call at 1. unfold gdxcc.gdxFileVersion.
  cbv zeta. cbn [file H log].
  assert (C : gdxcc.content (backend env)
                (gdxcc.record gdxcc.FileVersion
                   (gdxcc.mkHandle (Some filename) None
                      (gdxcc.calls
                         (gdxcc.record (gdxcc.OpenRead filename) (H w)))))
              = Some c) by exact Open.
  rewrite C. destruct (gdxcc.file_version c) as [[ret_ version] producer].
  cbn [fst snd].
  unfold bind at 1. unfold updf at 1. unfold modify. cbn [file H log].
  unfold bind at 1. unfold updf at 1. unfold modify. cbn [file H log].
  match goal with
  | |- ?rest ?w3 = _ -> _ =>
      assert (D : described filename version producer w3)
        by (repeat split; reflexivity);
      revert D; generalize w3
  end.
  intros w3 D.
  destruct (negb (ret_ =? 1)%Z); [intro Q; inversion Q; subst; exact D |].
  revert r w'. revert w3 D.
  change (preserves (described filename version producer)
    ('(_, symbol_count, _) <- call (gdxcc.gdxSystemInfo (backend env)) ;;
     logger INFO "Opening file." ;;;
     '(ret_, name, dims, data_type) <-
        call (gdxcc.gdxSymbolInfo (backend env) 0) ;;
     if negb (ret_ =? 1)%Z then
       raise (GdxError "Could not get symbol info for the universal set")
     else
     u <- GdxSymbol.__init__ env name (PInt data_type) (PInt dims)
            (Some this_file) (Some 0%Z) "" PNone ;;
     updf (with_universal_set (Some u)) ;;;
     for_each (Py.range symbol_count) (fun i =>
       let index := (i + 1)%Z in
       '(ret_, name, dims, data_type) <-
          call (gdxcc.gdxSymbolInfo (backend env) index) ;;
       if negb (ret_ =? 1)%Z then
         raise (GdxError "Could not get symbol info for symbol")
       else
         sym <- GdxSymbol.__init__ env name (PInt data_type) (PInt dims)
                  (Some this_file) (Some index) "" PNone ;;
         GdxFile.append (OSym sym)) ;;;
     w <- get ;;
     when (negb (lazy_load (file w)))
       (GdxFile.for_symbol_in_self (GdxSymbol.load env)))).
  apply preserves_bind; [apply described_call | intros [[r1 symbol_count] ec]].
  apply preserves_bind; [apply described_logger | intros _].
  apply preserves_bind; [apply described_call | intros [[[r2 name] dims] dt]].
  destruct (negb (r2 =? 1)%Z); [apply preserves_raise |].
  apply preserves_bind; [apply described_init | intro u].
  apply preserves_bind;
    [apply preserves_modify; intros w0 D; exact D | intros _].
  apply preserves_bind.
  - apply preserves_for_each. intro i. cbv zeta.
    apply preserves_bind; [apply described_call | intros [[[r3 n3] d3] t3]].
    destruct (negb (r3 =? 1)%Z); [apply preserves_raise |].
    apply preserves_bind; [apply described_init | intro sym].
    apply described_append.
  - intros _. apply preserves_bind; [apply preserves_get | intro w0].
    apply preserves_when.
    intros w1 D r w2. unfold GdxFile.for_symbol_in_self.
    apply (described_for_symbol _ _ _ _ _ (load_keeps_file env) 0%Z w1 D).
Qed.

Lemma read_binds_description_witness :
  described "broken.gdx" "V7" "GAMS"
    (snd (GdxFile.read Sample.env "broken.gdx" Sample.world0)).
Proof.
  apply (read_binds_description Sample.env Sample.world0
           (snd (GdxFile.read Sample.env "broken.gdx" Sample.world0))
           "broken.gdx" Sample.broken
           (fst (GdxFile.read Sample.env "broken.gdx" Sample.world0))).
  - reflexivity.
  - reflexivity.
  - vm_compute. reflexivity.
Defined.

(** ** The container as a sequence *)

(** X2: the check before [insert] and [__setitem__] never changes
    anything; it lets through exactly a [GdxSymbol] with an integer position
    of at most [len(self)] (negative positions included), and whatever it
    rejects it rejects with [Error]. *)
Theorem check_insert_setitem_spec (key : PyVal) (value : PyObj) (w : World) :
  snd (GdxFile._check_insert_setitem key value w) = w /\
  (forall k v,
     fst (GdxFile._check_insert_setitem key value w) = Ok (k, v) <->
     value = OSym v /\ as_int key = Some k /\
     (k <= Z.of_nat (GdxFile.__len__ (file w)))%Z) /\
  (forall e,
     fst (GdxFile._check_insert_setitem key value w) = Raise e ->
     exists msg, e = Error msg).
Proof.
  unfold GdxFile._check_insert_setitem.
  destruct value as [s | x].
  - destruct (as_int key) as [k |] eqn:I.
    + run. destruct (Z.of_nat (GdxFile.__len__ (file w)) <? k)%Z eqn:B.
      * apply Z.ltb_lt in B. cbn [fst snd]. split; [reflexivity | split].
        -- intros k' v. split; [discriminate |].
           intros [_ [Q Le]]. injection Q as Q. subst k'. lia.
        -- intros e Q. injection Q as Q. subst e. eexists. reflexivity.
      * apply Z.ltb_ge in B. cbn [fst snd]. split; [reflexivity | split].
        -- intros k' v. split.
           ++ intro Q. injection Q as Qk Qv. subst. repeat split. exact B.
           ++ intros [Qv [Qk _]]. injection Qv as Qv. injection Qk as Qk.
              subst. reflexivity.
        -- intros e Q. discriminate Q.
    + cbn [fst snd raise]. split; [reflexivity | split].
      * intros k v. split; [discriminate | intros [_ [Q _]]; discriminate Q].
      * intros e Q. injection Q as Q. subst e. eexists. reflexivity.
  - cbn [fst snd raise]. split; [reflexivity | split].
    + intros k v. split; [discriminate | intros [Q _]; discriminate Q].
    + intros e Q. injection Q as Q. subst e. eexists. reflexivity.
Qed.

Lemma set_not_empty {V} (d : OrderedDict.t V) (k : string) (v : V) :
  OrderedDict.set k v d <> [].
Proof.
  destruct d as [| [k' v'] d]; simpl; [discriminate |].
  destruct (String.eqb k k'); discriminate.
Qed.

(** X3: replacing the symbol at an existing position never completes.  The
    new symbol is stored under the key found at that position (the old
    symbol's), the keys are as before, and then [_fixup_name_keys] raises
    [ValueError] or [AttributeError]; a position below [-len(self)] raises
    [IndexError] with the container untouched. *)
Theorem setitem_replace_always_raises (w : World) (key : Z) (v : GdxSymbol) :
  (key < Z.of_nat (GdxFile.__len__ (file w)))%Z ->
  (forall k,
     Py.list_index (OrderedDict.keys (_symbols (file w))) key = Ok k ->
     exists e,
       (e = ValueError \/ e = AttributeError) /\
       GdxFile.__setitem__ (PInt key) (OSym v) w =
         (Raise e,
          mkWorld
            (with_symbols
               (OrderedDict.set k (with_file (Some this_file) v)
                  (_symbols (file w)))
               (file w))
            (H w) (log w)) /\
       OrderedDict.keys
         (OrderedDict.set k (with_file (Some this_file) v) (_symbols (file w)))
       = OrderedDict.keys (_symbols (file w))) /\
  (Py.list_index (OrderedDict.keys (_symbols (file w))) key = Raise IndexError ->
   GdxFile.__setitem__ (PInt key) (OSym v) w = (Raise IndexError, w)).
Proof.
  intro Lt.
  assert (B : (Z.of_nat (GdxFile.__len__ (file w)) <? key)%Z = false)
    by (apply Z.ltb_ge; lia).
  assert (B' : (key <? Z.of_nat (GdxFile.__len__ (file w)))%Z = true)
    by (apply Z.ltb_lt; exact Lt).
  split.
  - intros k Ix.
    assert (In_k : In k (OrderedDict.keys (_symbols (file w)))).
    { unfold Py.list_index in Ix. cbv zeta in Ix.
      destruct (_ || _)%bool; [discriminate |].
      destruct (nth_error _ _) as [k' |] eqn:N; [| discriminate].
      injection Ix as Ix. subst k'. eapply nth_error_In. exact N. }
    unfold GdxFile.__setitem__, GdxFile._check_insert_setitem,
      GdxFile._fixup_name_keys, GdxFile._name_key.
    run. cbn [as_int]. cbv beta. rewrite B. cbv beta iota. rewrite B'.
    rewrite Ix. cbn [file H log _symbols with_symbols].
    destruct (OrderedDict.set k (with_file (Some this_file) v)
                (_symbols (file w))) as [| [k1 v1] d1] eqn:Sd.
    + exfalso. exact (set_not_empty _ _ _ Sd).
    + rewrite <- Sd. destruct (Nat.eqb (Py.str_len k1) 2).
      * exists AttributeError. split; [right; reflexivity | split].
        -- reflexivity.
        -- apply keys_set_in. exact In_k.
      * exists ValueError. split; [left; reflexivity | split].
        -- reflexivity.
        -- apply keys_set_in. exact In_k.
  - intro Ix. unfold GdxFile.__setitem__, GdxFile._check_insert_setitem,
      GdxFile._name_key.
    run. cbn [as_int]. cbv beta. rewrite B. cbv beta iota. rewrite B'.
    rewrite Ix. reflexivity.
Qed.

Lemma setitem_replace_always_raises_witness :
  exists e,
    (e = ValueError \/ e = AttributeError) /\
    GdxFile.__setitem__ (PInt (-1)) (OSym Sample.par) Sample.world_a =
      (Raise e,
       mkWorld
         (with_symbols
            (OrderedDict.set "a" (with_file (Some this_file) Sample.par)
               (_symbols (file Sample.world_a)))
            (file Sample.world_a))
         (H Sample.world_a) (log Sample.world_a)) /\
    OrderedDict.keys
      (OrderedDict.set "a" (with_file (Some this_file) Sample.par)
         (_symbols (file Sample.world_a)))
    = OrderedDict.keys (_symbols (file Sample.world_a)).
Proof.
  apply (proj1 (setitem_replace_always_raises Sample.world_a (-1) Sample.par
                  ltac:(vm_compute; reflexivity)) "a").
  reflexivity.
Defined.

Lemma length_set {V} (d : OrderedDict.t V) (k : string) (v : V) :
  List.length (OrderedDict.set k v d) =
  List.length d +
  (if existsb (String.eqb k) (OrderedDict.keys d) then 0 else 1).
Proof.
  induction d as [| [k' v'] d IH]; simpl; [reflexivity |].
  destruct (String.eqb k k') eqn:E; simpl.
  - lia.
  - rewrite IH. lia.
Qed.

(** X4: [self[len(self)] = value] always completes: the symbol is stored
    under its own name and can be looked up by it; the container grows by
    one when the name is new and keeps its length when a symbol of that name
    is already there (which it then replaces). *)
Theorem setitem_at_end (w : World) (v : GdxSymbol) :
  GdxFile.__setitem__ (PInt (Z.of_nat (GdxFile.__len__ (file w)))) (OSym v) w =
    (Ok tt,
     mkWorld
       (with_symbols
          (OrderedDict.set (_name v) (with_file (Some this_file) v)
             (_symbols (file w)))
          (file w))
       (H w) (log w)) /\
  GdxFile.__getitem__
    (with_symbols
       (OrderedDict.set (_name v) (with_file (Some this_file) v)
          (_symbols (file w)))
       (file w))
    (PStr (_name v)) = Ok (with_file (Some this_file) v) /\
  List.length
    (OrderedDict.set (_name v) (with_file (Some this_file) v)
       (_symbols (file w))) =
  GdxFile.__len__ (file w) +
  (if existsb (String.eqb (_name v)) (OrderedDict.keys (_symbols (file w)))
   then 0 else 1).
Proof.
  split; [| split].
  - unfold GdxFile.__setitem__, GdxFile._check_insert_setitem. run.
    cbn [as_int]. cbv beta. rewrite Z.ltb_irrefl. cbv beta iota.
    rewrite Z.ltb_irrefl, Z.eqb_refl. reflexivity.
  - unfold GdxFile.__getitem__, GdxFile._name_key. cbn [as_int].
    cbn [GdxFile.lookup _symbols with_symbols]. rewrite get_set_same.
    reflexivity.
  - apply length_set.
Qed.

Lemma keys_list_insert {V} (i : Z) (k : string) (v : V)
    (d : OrderedDict.t V) :
  OrderedDict.keys (Py.list_insert i (k, v) d) =
  Py.list_insert i k (OrderedDict.keys d).
Proof.
  unfold Py.list_insert, OrderedDict.keys. cbv zeta.
  rewrite length_map, map_app, firstn_map. simpl. rewrite skipn_map.
  reflexivity.
Qed.

Lemma list_insert_NoDup {A} (i : Z) (x : A) (l : list A) :
  NoDup l -> ~ In x l -> NoDup (Py.list_insert i x l).
Proof.
  intros D N. unfold Py.list_insert. cbv zeta.
  match goal with
  | |- NoDup (firstn ?j l ++ x :: skipn ?j l) =>
      apply (NoDup_Add (Add_app x (firstn j l) (skipn j l)));
      rewrite firstn_skipn
  end.
  split; assumption.
Qed.

(** X5: on a container whose symbols are stored under their own distinct
    names, inserting a symbol with a new name at position [key], where
    [0 <= key <= len(self)], puts it at that position as Python's
    [list.insert] does: the symbols before keep their positions, the others
    move up by one, and [self[key]] is the new symbol. *)
Theorem insert_at_position (w : World) (key : Z) (v : GdxSymbol) :
  distinct (OrderedDict.keys (_symbols (file w))) = true ->
  keyed_by_name (_symbols (file w)) ->
  ~ In (_name v) (OrderedDict.keys (_symbols (file w))) ->
  (0 <= key <= Z.of_nat (GdxFile.__len__ (file w)))%Z ->
  let d' :=
    firstn (Z.to_nat key) (_symbols (file w)) ++
    (_name v, with_file (Some this_file) v) ::
    skipn (Z.to_nat key) (_symbols (file w)) in
  GdxFile.insert (PInt key) (OSym v) w =
    (Ok tt, mkWorld (with_symbols d' (file w)) (H w) (log w)) /\
  GdxFile.__getitem__ (with_symbols d' (file w)) (PInt key) =
    Ok (with_file (Some this_file) v).
Proof.
  intros D Kd New [Lo Hi] d'.
  assert (Ins : Py.list_insert key (_name v, with_file (Some this_file) v)
                  (_symbols (file w)) = d').
  { unfold Py.list_insert, d'. cbv zeta.
    assert (N : (key <? 0)%Z = false) by (apply Z.ltb_ge; exact Lo).
    rewrite N. unfold GdxFile.__len__, GdxFile_len in Hi.
    rewrite Z.min_l by exact Hi. reflexivity. }
  assert (D' : distinct (OrderedDict.keys d') = true).
  { rewrite <- Ins, keys_list_insert. apply distinct_NoDup.
    apply list_insert_NoDup; [apply distinct_NoDup; exact D | exact New]. }
  split.
  - unfold GdxFile.insert, GdxFile._check_insert_setitem. run.
    cbn [as_int]. cbv beta.
    assert (B : (Z.of_nat (GdxFile.__len__ (file w)) <? key)%Z = false)
      by (apply Z.ltb_ge; exact Hi).
    rewrite B. cbv beta iota. rewrite (iter_values _ D).
    rewrite (named_pairs_self _ Kd).
    change (_name (with_file (Some this_file) v)) with (_name v).
    rewrite Ins, (of_pairs_self _ D'). reflexivity.
  - assert (Len : List.length (firstn (Z.to_nat key) (_symbols (file w)))
                  = Z.to_nat key).
    { apply firstn_length_le. unfold GdxFile.__len__, GdxFile_len in Hi. lia. }
    assert (Ix : Py.list_index (OrderedDict.keys d') key = Ok (_name v)).
    { unfold d', OrderedDict.keys. rewrite map_app. simpl map.
      replace key with
        (Z.of_nat (List.length (map fst (firstn (Z.to_nat key) (_symbols (file w))))))
        at 3 by (rewrite length_map, Len; lia).
      apply list_index_at. }
    assert (G : OrderedDict.get (_name v) d' =
                Some (with_file (Some this_file) v)).
    { apply (stored_is_found d' _ _ D').
      unfold d'. apply in_or_app. right. left. reflexivity. }
    clearbody d'.
    unfold GdxFile.__getitem__, GdxFile._name_key. cbn [as_int].
    cbn [_symbols with_symbols]. rewrite Ix. cbn [GdxFile.lookup].
    change (_symbols (with_symbols d' (file w))) with d'.
    rewrite G. reflexivity.
Qed.

Lemma insert_at_position_witness :
  let d' :=
    firstn (Z.to_nat 1) (_symbols (file Sample.authored)) ++
    (_name Sample.sym_a, with_file (Some this_file) Sample.sym_a) ::
    skipn (Z.to_nat 1) (_symbols (file Sample.authored)) in
  GdxFile.insert (PInt 1) (OSym Sample.sym_a) Sample.authored =
    (Ok tt,
     mkWorld (with_symbols d' (file Sample.authored)) (H Sample.authored)
       (log Sample.authored)) /\
  GdxFile.__getitem__ (with_symbols d' (file Sample.authored)) (PInt 1) =
    Ok (with_file (Some this_file) Sample.sym_a).
Proof.
  apply (insert_at_position Sample.authored 1 Sample.sym_a).
  - reflexivity.
  - intros k s [Q | [Q | []]]; injection Q as Qk Qs; subst; reflexivity.
  - simpl. intros [Q | [Q | []]]; discriminate Q.
  - simpl. lia.
Defined.

Lemma list_index_nth {A} (l : list A) (n : nat) (x : A) :
  nth_error l n = Some x ->
  Py.list_index l (Z.of_nat n) = Ok x /\
  Py.list_index l (Z.of_nat n - Z.of_nat (List.length l)) = Ok x.
Proof.
  intro N.
  assert (Lt : n < List.length l) by (apply nth_error_Some; rewrite N; discriminate).
  unfold Py.list_index. cbv zeta. split.
  - assert (B1 : (Z.of_nat n <? 0)%Z = false) by (apply Z.ltb_ge; lia).
    assert (B2 : (Z.of_nat (List.length l) <=? Z.of_nat n)%Z = false)
      by (apply Z.leb_gt; lia).
    rewrite !B1, B2, Nat2Z.id, N. reflexivity.
  - assert (B1 : (Z.of_nat n - Z.of_nat (List.length l) <? 0)%Z = true)
      by (apply Z.ltb_lt; lia).
    rewrite !B1.
    replace (Z.of_nat n - Z.of_nat (List.length l) + Z.of_nat (List.length l))%Z
      with (Z.of_nat n) by lia.
    assert (B0 : (Z.of_nat n <? 0)%Z = false) by (apply Z.ltb_ge; lia).
    assert (B2 : (Z.of_nat (List.length l) <=? Z.of_nat n)%Z = false)
      by (apply Z.leb_gt; lia).
    rewrite B0, B2, Nat2Z.id, N. reflexivity.
Qed.

Lemma list_index_out {A} (l : list A) (i : Z) :
  (Z.of_nat (List.length l) <= i \/ i < - Z.of_nat (List.length l))%Z ->
  Py.list_index l i = Raise IndexError.
Proof.
  intro Out. unfold Py.list_index. cbv zeta.
  destruct (i <? 0)%Z eqn:N.
  - apply Z.ltb_lt in N.
    assert (B : (i + Z.of_nat (List.length l) <? 0)%Z = true)
      by (apply Z.ltb_lt; lia).
    rewrite B. reflexivity.
  - apply Z.ltb_ge in N. rewrite (proj2 (Z.ltb_ge i 0) N).
    assert (B : (Z.of_nat (List.length l) <=? i)%Z = true)
      by (apply Z.leb_le; lia).
    rewrite B. reflexivity.
Qed.

Lemma get_not_in {V} (d : OrderedDict.t V) (k : string) :
  ~ In k (OrderedDict.keys d) -> OrderedDict.get k d = None.
Proof.
  intro N. destruct (OrderedDict.get k d) as [v |] eqn:G; [| reflexivity].
  exfalso. exact (N (get_in_keys _ _ _ G)).
Qed.

(** X6: in a container whose names are distinct, the symbol stored at
    position [n] under the name [k] is what [self[n]], [self[n - len(self)]]
    and [self[k]] return; a position outside [-len(self) .. len(self) - 1]
    raises [IndexError] and a name that is not a key raises [KeyError]. *)
Theorem getitem_spec (f : GdxFile) :
  (distinct (OrderedDict.keys (_symbols f)) = true ->
   forall n k s,
     nth_error (_symbols f) n = Some (k, s) ->
     GdxFile.__getitem__ f (PInt (Z.of_nat n)) = Ok s /\
     GdxFile.__getitem__ f
       (PInt (Z.of_nat n - Z.of_nat (GdxFile.__len__ f))) = Ok s /\
     GdxFile.__getitem__ f (PStr k) = Ok s) /\
  (forall i,
     (Z.of_nat (GdxFile.__len__ f) <= i \/
      i < - Z.of_nat (GdxFile.__len__ f))%Z ->
     GdxFile.__getitem__ f (PInt i) = Raise IndexError) /\
  (forall k,
     ~ In k (OrderedDict.keys (_symbols f)) ->
     GdxFile.__getitem__ f (PStr k) = Raise KeyError).
Proof.
  assert (Len : List.length (OrderedDict.keys (_symbols f)) = GdxFile.__len__ f)
    by (unfold OrderedDict.keys; apply length_map).
  split; [| split].
  - intros D n k s N.
    assert (G : OrderedDict.get k (_symbols f) = Some s)
      by (apply (stored_is_found _ _ _ D); eapply nth_error_In; exact N).
    assert (Nk : nth_error (OrderedDict.keys (_symbols f)) n = Some k)
      by (unfold OrderedDict.keys; rewrite nth_error_map, N; reflexivity).
    destruct (list_index_nth _ _ _ Nk) as [I1 I2]. rewrite Len in I2.
    unfold GdxFile.__getitem__, GdxFile._name_key. cbn [as_int].
    rewrite I1, I2. cbn [GdxFile.lookup]. rewrite G. repeat split.
  - intros i Out. unfold GdxFile.__getitem__, GdxFile._name_key.
    cbn [as_int]. rewrite list_index_out; [reflexivity |].
    rewrite Len. exact Out.
  - intros k N. unfold GdxFile.__getitem__, GdxFile._name_key.
    cbn [as_int GdxFile.lookup]. rewrite (get_not_in _ _ N). reflexivity.
Qed.

Lemma getitem_spec_witness :
  (GdxFile.__getitem__ (file Sample.authored) (PInt (Z.of_nat 1)) =
     Ok (with_file (Some this_file) Sample.empty_par) /\
   GdxFile.__getitem__ (file Sample.authored)
     (PInt (Z.of_nat 1 - Z.of_nat (GdxFile.__len__ (file Sample.authored)))) =
     Ok (with_file (Some this_file) Sample.empty_par) /\
   GdxFile.__getitem__ (file Sample.authored) (PStr "q") =
     Ok (with_file (Some this_file) Sample.empty_par)) /\
  GdxFile.__getitem__ (file Sample.authored) (PInt 2) = Raise IndexError /\
  GdxFile.__getitem__ (file Sample.authored) (PStr "z") = Raise KeyError.
Proof.
  split; [| split].
  - apply (proj1 (getitem_spec (file Sample.authored)) eq_refl 1 "q").
    reflexivity.
  - apply (proj1 (proj2 (getitem_spec (file Sample.authored))) 2%Z).
    left. simpl. lia.
  - apply (proj2 (proj2 (getitem_spec (file Sample.authored))) "z").
    simpl. intros [Q | [Q | []]]; discriminate Q.
Defined.

Lemma del_at {V} (d : OrderedDict.t V) :
  distinct (OrderedDict.keys d) = true ->
  forall n k v,
    nth_error d n = Some (k, v) ->
    OrderedDict.del k d = firstn n d ++ skipn (S n) d.
Proof.
  induction d as [| [k0 v0] d IH]; intros D n k v N.
  - destruct n; discriminate N.
  - simpl OrderedDict.keys in D. apply distinct_cons in D.
    destruct D as [New D]. destruct n as [| n]; simpl in N.
    + injection N as Qk Qv. subst. simpl. rewrite String.eqb_refl.
      reflexivity.
    + assert (Other : String.eqb k k0 = false).
      { apply String.eqb_neq. intro Q. subst k0. apply New.
        apply nth_error_In in N. apply (in_map fst) in N. exact N. }
      simpl. rewrite Other. f_equal. exact (IH D n k v N).
Qed.

Lemma del_snoc {V} (d : OrderedDict.t V) (k : string) (v : V) :
  ~ In k (OrderedDict.keys d) -> OrderedDict.del k (d ++ [(k, v)]) = d.
Proof.
  induction d as [| [k0 v0] d IH]; intro New; simpl.
  - rewrite String.eqb_refl. reflexivity.
  - destruct (String.eqb k k0) eqn:E.
    + apply String.eqb_eq in E. subst k0. exfalso. apply New. left.
      reflexivity.
    + f_equal. apply IH. intro I. apply New. right. exact I.
Qed.

(** X7: in a container whose names are distinct, [del self[n]] and
    [del self[k]], for the symbol stored at position [n] under the name [k],
    both remove exactly that symbol and keep the others in their order;
    a name that is not a key raises [KeyError] and a position out of range
    raises [IndexError], the container staying as it was. *)
Theorem delitem_spec (w : World) :
  (distinct (OrderedDict.keys (_symbols (file w))) = true ->
   forall n k s,
     nth_error (_symbols (file w)) n = Some (k, s) ->
     let rest :=
       mkWorld
         (with_symbols
            (firstn n (_symbols (file w)) ++ skipn (S n) (_symbols (file w)))
            (file w))
         (H w) (log w) in
     GdxFile.__delitem__ (PInt (Z.of_nat n)) w = (Ok tt, rest) /\
     GdxFile.__delitem__ (PStr k) w = (Ok tt, rest)) /\
  (forall k,
     ~ In k (OrderedDict.keys (_symbols (file w))) ->
     GdxFile.__delitem__ (PStr k) w = (Raise KeyError, w)) /\
  (forall i,
     (Z.of_nat (GdxFile.__len__ (file w)) <= i \/
      i < - Z.of_nat (GdxFile.__len__ (file w)))%Z ->
     GdxFile.__delitem__ (PInt i) w = (Raise IndexError, w)).
Proof.
  assert (Len : List.length (OrderedDict.keys (_symbols (file w)))
                = GdxFile.__len__ (file w))
    by (unfold OrderedDict.keys; apply length_map).
  split; [| split].
  - intros D n k s N rest.
    assert (G : OrderedDict.get k (_symbols (file w)) = Some s)
      by (apply (stored_is_found _ _ _ D); eapply nth_error_In; exact N).
    assert (Nk : nth_error (OrderedDict.keys (_symbols (file w))) n = Some k)
      by (unfold OrderedDict.keys; rewrite nth_error_map, N; reflexivity).
    destruct (list_index_nth _ _ _ Nk) as [I1 _].
    unfold GdxFile.__delitem__, GdxFile._name_key. run. cbn [as_int].
    rewrite I1. cbn [GdxFile.lookup]. rewrite G.
    rewrite (del_at _ D n k s N). split; reflexivity.
  - intros k N. unfold GdxFile.__delitem__, GdxFile._name_key. run.
    cbn [as_int GdxFile.lookup]. rewrite (get_not_in _ _ N). reflexivity.
  - intros i Out. unfold GdxFile.__delitem__, GdxFile._name_key. run.
    cbn [as_int]. rewrite list_index_out; [reflexivity |].
    rewrite Len. exact Out.
Qed.

Lemma delitem_spec_witness :
  (let rest :=
     mkWorld
       (with_symbols
          (firstn 0 (_symbols (file Sample.authored)) ++
           skipn 1 (_symbols (file Sample.authored)))
          (file Sample.authored))
       (H Sample.authored) (log Sample.authored) in
   GdxFile.__delitem__ (PInt (Z.of_nat 0)) Sample.authored = (Ok tt, rest) /\
   GdxFile.__delitem__ (PStr "p") Sample.authored = (Ok tt, rest)) /\
  GdxFile.__delitem__ (PStr "z") Sample.authored =
    (Raise KeyError, Sample.authored) /\
  GdxFile.__delitem__ (PInt 5) Sample.authored =
    (Raise IndexError, Sample.authored).
Proof.
  split; [| split].
  - apply (proj1 (delitem_spec Sample.authored) eq_refl 0 "p"
             (with_file (Some this_file) Sample.par)).
    reflexivity.
  - apply (proj1 (proj2 (delitem_spec Sample.authored)) "z").
    simpl. intros [Q | [Q | []]]; discriminate Q.
  - apply (proj2 (proj2 (delitem_spec Sample.authored)) 5%Z).
    left. simpl. lia.
Defined.

Lemma append_fresh (w : World) (v : GdxSymbol) :
  distinct (OrderedDict.keys (_symbols (file w))) = true ->
  keyed_by_name (_symbols (file w)) ->
  ~ In (_name v) (OrderedDict.keys (_symbols (file w))) ->
  GdxFile.append (OSym v) w =
    (Ok tt,
     mkWorld
       (with_symbols
          (_symbols (file w) ++ [(_name v, with_file (Some this_file) v)])
          (file w))
       (H w) (log w)).
Proof.
  intros D Kd New.
  unfold GdxFile.append, GdxFile.insert, GdxFile._check_insert_setitem. run.
  cbn [as_int]. cbv beta. rewrite Z.ltb_irrefl. cbv beta iota.
  rewrite (iter_values _ D), (named_pairs_self _ Kd).
  unfold GdxFile.__len__, GdxFile_len. rewrite list_insert_end.
  rewrite of_pairs_snoc, (of_pairs_self _ D).
  change (_name (with_file (Some this_file) v)) with (_name v).
  rewrite (keys_set_new _ _ _ New). reflexivity.
Qed.

(** X8: on a container whose symbols are stored under their own distinct
    names, appending a symbol with a new name and then deleting the last
    position (or deleting by that name) gives back the container as it
    was. *)
Theorem append_then_delete (w : World) (v : GdxSymbol) :
  distinct (OrderedDict.keys (_symbols (file w))) = true ->
  keyed_by_name (_symbols (file w)) ->
  ~ In (_name v) (OrderedDict.keys (_symbols (file w))) ->
  (GdxFile.append (OSym v) ;;; GdxFile.__delitem__ (PInt (-1))) w = (Ok tt, w) /\
  (GdxFile.append (OSym v) ;;; GdxFile.__delitem__ (PStr (_name v))) w =
    (Ok tt, w).
Proof.
  intros D Kd New.
  assert (Back : forall d,
             mkWorld (with_symbols d
                        (with_symbols
                           (_symbols (file w) ++
                            [(_name v, with_file (Some this_file) v)])
                           (file w)))
               (H w) (log w) =
             mkWorld (with_symbols d (file w)) (H w) (log w))
    by reflexivity.
  assert (G : OrderedDict.get (_name v)
                (_symbols (file w) ++ [(_name v, with_file (Some this_file) v)])
              = Some (with_file (Some this_file) v)).
  { rewrite <- (keys_set_new _ _ (with_file (Some this_file) v) New).
    apply get_set_same. }
  assert (Last : Py.list_index
                   (OrderedDict.keys
                      (_symbols (file w) ++
                       [(_name v, with_file (Some this_file) v)])) (-1)
                 = Ok (_name v)).
  { unfold OrderedDict.keys. rewrite map_app. simpl map.
    pose proof (list_index_nth
                  (map fst (_symbols (file w)) ++ [_name v])
                  (List.length (map fst (_symbols (file w)))) (_name v)) as P.
    rewrite nth_error_app2, Nat.sub_diag in P by lia.
    destruct (P eq_refl) as [_ P2]. rewrite <- P2. f_equal.
    rewrite length_app. cbn [List.length]. lia. }
  split; unfold bind; rewrite (append_fresh w v D Kd New);
    unfold GdxFile.__delitem__, GdxFile._name_key; run; cbn [as_int];
    cbn [file H log _symbols with_symbols].
  - rewrite Last. cbn [GdxFile.lookup _symbols with_symbols]. rewrite G.
    cbn [file H log].
    change (_symbols
              (with_symbols
                 (_symbols (file w) ++ [(_name v, with_file (Some this_file) v)])
                 (file w)))
      with (_symbols (file w) ++ [(_name v, with_file (Some this_file) v)]).
    rewrite (del_snoc _ _ _ New).
    rewrite Back, with_symbols_same, world_eta. reflexivity.
  - cbn [GdxFile.lookup _symbols with_symbols]. rewrite G.
    cbn [file H log].
    change (_symbols
              (with_symbols
                 (_symbols (file w) ++ [(_name v, with_file (Some this_file) v)])
                 (file w)))
      with (_symbols (file w) ++ [(_name v, with_file (Some this_file) v)]).
    rewrite (del_snoc _ _ _ New).
    rewrite Back, with_symbols_same, world_eta. reflexivity.
Qed.

Lemma append_then_delete_witness :
  (GdxFile.append (OSym Sample.sym_a) ;;; GdxFile.__delitem__ (PInt (-1)))
    Sample.authored = (Ok tt, Sample.authored) /\
  (GdxFile.append (OSym Sample.sym_a) ;;;
   GdxFile.__delitem__ (PStr (_name Sample.sym_a)))
    Sample.authored = (Ok tt, Sample.authored).
Proof.
  apply (append_then_delete Sample.authored Sample.sym_a).
  - reflexivity.
  - intros k s [Q | [Q | []]]; injection Q as Qk Qs; subst; reflexivity.
  - simpl. intros [Q | [Q | []]]; discriminate Q.
Defined.

Lemma total_rows_elements (f : GdxFile) :
  forall syms : list GdxSymbol,
    (forall s, In s syms -> _loaded s = true /\ _dataframe s <> None) ->
    fold_right
      (fun s acc =>
         match GdxSymbol.num_records s, acc with
         | Ok n, Ok a => Ok (n + a)%Z
         | Raise e, _ => Raise e
         | _, Raise e => Raise e
         end)
      (Ok 0%Z) syms = Ok (total_rows syms).
Proof.
  induction syms as [| s syms IH]; intro All; [reflexivity |].
  simpl. rewrite IH by (intros s' I; apply All; right; exact I).
  destruct (All s (or_introl eq_refl)) as [L F].
  unfold GdxSymbol.num_records, table_len, table_rows. rewrite L.
  destruct (_dataframe s) as [df |]; [reflexivity |].
  exfalso. apply F. reflexivity.
Qed.

(** X9: for a container whose names are distinct and whose symbols are all
    loaded, [num_elements] is the total number of rows of their tables (0
    for an empty container). *)
Theorem num_elements_total (f : GdxFile) :
  distinct (OrderedDict.keys (_symbols f)) = true ->
  (forall s, In s (OrderedDict.values (_symbols f)) ->
             _loaded s = true /\ _dataframe s <> None) ->
  GdxFile.num_elements f = Ok (total_rows (OrderedDict.values (_symbols f))).
Proof.
  intros D All. unfold GdxFile.num_elements. rewrite (iter_values _ D).
  apply (total_rows_elements f). exact All.
Qed.

Lemma num_elements_total_witness :
  GdxFile.num_elements (file Sample.authored) =
    Ok (total_rows (OrderedDict.values (_symbols (file Sample.authored)))) /\
  total_rows (OrderedDict.values (_symbols (file Sample.authored))) = 1%Z.
Proof.
  split; [| reflexivity].
  apply (num_elements_total (file Sample.authored)).
  - reflexivity.
  - intros s [Q | [Q | []]]; subst s; (split; [reflexivity | discriminate]).
Defined.

(** ** The constructor *)

Lemma init_unbound (env : Env) (name : string) (data_type dims_arg : PyVal)
    (file_arg : option FileRef) (index : option Z) (descr : string)
    (variable_type : PyVal) (w : World) (k : GamsDataType) :
  GamsDataType_call data_type = Ok k ->
  file_arg = None \/ GdxFile_len (file w) = 0 ->
  GdxSymbol.__init__ env name data_type dims_arg file_arg index descr
    variable_type w =
  match (GdxSymbol.set_variable_type variable_type ;;;
         GdxSymbol.set_dims dims_arg) (blank name descr k, w) with
  | (Ok _, (s, w')) =>
      (Ok (with_loaded true (with_index index (with_file file_arg s))), w')
  | (Raise e, (_, w')) => (Raise e, w')
  end.
Proof.
  intros K Unbound. unfold GdxSymbol.__init__.
  unfold bind at 1. unfold liftR at 1. rewrite K. fold (blank name descr k).
  change ((GdxSymbol.set_variable_type variable_type ;;;
           GdxSymbol.set_dims dims_arg) (blank name descr k, w))
    with (match GdxSymbol.set_variable_type variable_type
                  (blank name descr k, w) with
          | (Ok _, st') => GdxSymbol.set_dims dims_arg st'
          | (Raise e, st') => (Raise e, st')
          end).
  unfold bind at 1.
  destruct (GdxSymbol.set_variable_type variable_type (blank name descr k, w))
    as [[u1 | e] [s1 w1]] eqn:A; [| reflexivity].
  pose proof (set_variable_type_keeps_file variable_type (file w)
                (blank name descr k, w) eq_refl _ _ A) as F1. cbn [snd] in F1.
  unfold bind at 1.
  destruct (GdxSymbol.set_dims dims_arg (s1, w1)) as [[u2 | e] [s2 w2]] eqn:B;
    [| reflexivity].
  pose proof (set_dims_keeps_file dims_arg (file w1) (s1, w1) eq_refl _ _ B)
    as F2.
  cbn [snd] in F2. destruct u2.
  destruct (set_dims_columns _ _ _ _ _ B) as [d [df [_ [DF _]]]].
  run. cbn [fst snd]. rewrite DF. cbn [fst snd].
  unfold GdxSymbol.file_truthy. cbn [fst snd _file with_file with_index].
  destruct Unbound as [N | Z0].
  - subst file_arg. reflexivity.
  - destruct file_arg as [[] |]; [| reflexivity].
    rewrite F2, F1, Z0. reflexivity.
Qed.

Lemma set_variable_type_fresh (vt : PyVal) (name descr : string)
    (k : GamsDataType) (w : World) :
  exists w',
    GdxSymbol.set_variable_type vt (blank name descr k, w) =
      (Ok tt,
       (with_variable_type (initial_subtype k vt) (blank name descr k), w')) /\
    file w' = file w /\ H w' = H w.
Proof.
  unfold GdxSymbol.set_variable_type, initial_subtype. run. cbn [fst snd].
  cbn [_data_type blank _variable_type].
  destruct (GamsDataType_eqb k DT_Variable).
  - destruct (GamsVariableType_call vt); eexists;
      (split; [reflexivity | split; reflexivity]).
  - destruct vt; eexists; (split; [reflexivity | split; reflexivity]).
Qed.

(** X10: built without a container (or with one that is still empty), from
    a valid kind and an integer number of dimensions [n], a symbol is
    loaded, has [n] anonymous domain labels ["*"] (none for a negative [n])
    and an empty table with those columns followed by the channel columns
    of its kind; its subtype is none unless the kind is Variable, where it
    is the subtype asked for, or Free when that is missing or invalid.  No
    call goes through the handle and the container is not touched. *)
Theorem init_freestanding (env : Env) (name : string) (data_type : PyVal)
    (n : Z) (file_arg : option FileRef) (index : option Z) (descr : string)
    (variable_type : PyVal) (w : World) (k : GamsDataType) :
  GamsDataType_call data_type = Ok k ->
  file_arg = None \/ GdxFile_len (file w) = 0 ->
  exists w',
    GdxSymbol.__init__ env name data_type (PInt n) file_arg index descr
      variable_type w =
      (Ok (mkGdxSymbol name descr true k (initial_subtype k variable_type)
             (Some (empty_table k (repeat "*" (Z.to_nat n))))
             (Some (repeat "*" (Z.to_nat n))) file_arg index None),
       w') /\
    file w' = file w /\ H w' = H w.
Proof.
  intros K Unbound.
  rewrite (init_unbound env name data_type (PInt n) file_arg index descr
             variable_type w k K Unbound).
  unfold bind.
  destruct (set_variable_type_fresh variable_type name descr k w)
    as [w' [A [F Hd]]].
  rewrite A. exists w'. split; [| split; assumption].
  unfold GdxSymbol.set_dims, GdxSymbol.has_records, GdxSymbol._init_dataframe,
    GdxSymbol.own_columns, GdxSymbol.dims, GdxSymbol.value_col_names,
    GdxSymbol.value_cols.
  run. reflexivity.
Qed.

Lemma init_freestanding_witness :
  exists w',
    GdxSymbol.__init__ Sample.env "y" (PInt GMS_DT_VAR) (PInt 2) None None
      "a new variable" PNone Sample.world0 =
      (Ok (mkGdxSymbol "y" "a new variable" true DT_Variable
             (initial_subtype DT_Variable PNone)
             (Some (empty_table DT_Variable (repeat "*" (Z.to_nat 2))))
             (Some (repeat "*" (Z.to_nat 2))) None None None),
       w') /\
    file w' = file Sample.world0 /\ H w' = H Sample.world0.
Proof.
  apply (init_freestanding Sample.env "y" (PInt GMS_DT_VAR) 2 None None
           "a new variable" PNone Sample.world0 DT_Variable).
  - reflexivity.
  - left. reflexivity.
Defined.

(** X11: to a container that is still empty the constructor pays no
    attention: binding a new symbol to it gives the same outcome as building
    the symbol without a container and then recording the reference (the
    symbol is marked loaded and nothing is read from the session). *)
Theorem init_on_empty_container (env : Env) (name : string)
    (data_type dims_arg : PyVal) (index : option Z) (descr : string)
    (variable_type : PyVal) (w : World) :
  GdxFile_len (file w) = 0 ->
  GdxSymbol.__init__ env name data_type dims_arg (Some this_file) index descr
    variable_type w =
  match GdxSymbol.__init__ env name data_type dims_arg None index descr
          variable_type w with
  | (Ok s, w') => (Ok (with_file (Some this_file) s), w')
  | (Raise e, w') => (Raise e, w')
  end.
Proof.
  intro Z0. destruct (GamsDataType_call data_type) as [k | e] eqn:K.
  - rewrite (init_unbound env name data_type dims_arg (Some this_file) index
               descr variable_type w k K (or_intror Z0)).
    rewrite (init_unbound env name data_type dims_arg None index
               descr variable_type w k K (or_introl eq_refl)).
    destruct ((GdxSymbol.set_variable_type variable_type ;;;
               GdxSymbol.set_dims dims_arg) (blank name descr k, w))
      as [[u | e] [s w']]; reflexivity.
  - unfold GdxSymbol.__init__. run. rewrite K. reflexivity.
Qed.

Lemma init_on_empty_container_witness :
  GdxSymbol.__init__ Sample.env "i" (PInt GMS_DT_SET) (PInt 1)
    (Some this_file) (Some 1%Z) "" PNone Sample.world0 =
  match GdxSymbol.__init__ Sample.env "i" (PInt GMS_DT_SET) (PInt 1) None
          (Some 1%Z) "" PNone Sample.world0 with
  | (Ok s, w') => (Ok (with_file (Some this_file) s), w')
  | (Raise e, w') => (Raise e, w')
  end.
Proof.
  apply (init_on_empty_container Sample.env "i" (PInt GMS_DT_SET) (PInt 1)
           (Some 1%Z) "" PNone Sample.world0).
  reflexivity.
Defined.

(** X12: the constructor never accepts an explicit list of domain labels:
    whatever the list, the call raises (for a valid kind and a list of
    strings with [AttributeError], because the setter reads the number of
    dimensions before there is one); no call goes through the handle and
    the container is not touched. *)
Theorem init_rejects_domain_list (env : Env) (name : string)
    (data_type : PyVal) (l : list PyVal) (file_arg : option FileRef)
    (index : option Z) (descr : string) (variable_type : PyVal) (w : World) :
  (forall s,
     fst (GdxSymbol.__init__ env name data_type (PList l) file_arg index descr
            variable_type w) <> Ok s) /\
  (forall k ds,
     GamsDataType_call data_type = Ok k ->
     GdxSymbol.check_dims l = Ok ds ->
     fst (GdxSymbol.__init__ env name data_type (PList l) file_arg index descr
            variable_type w) = Raise AttributeError) /\
  file (snd (GdxSymbol.__init__ env name data_type (PList l) file_arg index
               descr variable_type w)) = file w /\
  H (snd (GdxSymbol.__init__ env name data_type (PList l) file_arg index
            descr variable_type w)) = H w.
Proof.
  assert (E : exists e w1,
             GdxSymbol.__init__ env name data_type (PList l) file_arg index
               descr variable_type w = (Raise e, w1) /\
             file w1 = file w /\ H w1 = H w /\
             (forall k ds,
                GamsDataType_call data_type = Ok k ->
                GdxSymbol.check_dims l = Ok ds -> e = AttributeError)).
  { unfold GdxSymbol.__init__. unfold bind at 1. unfold liftR at 1.
    destruct (GamsDataType_call data_type) as [k | e] eqn:K.
    - fold (blank name descr k).
      destruct (set_variable_type_fresh variable_type name descr k w)
        as [w1 [A [F Hd]]].
      unfold bind at 1. rewrite A. unfold bind at 1.
      unfold GdxSymbol.set_dims at 1, GdxSymbol.has_records.
      unfold bind at 1. unfold bind at 1.
      unfold GdxSymbol.self at 1. cbn [fst snd].
      cbn [_loaded with_variable_type blank]. unfold ret at 1.
      unfold bind at 1. unfold when at 1. unfold ret at 1.
      cbn [as_int]. unfold bind at 1. unfold liftR at 1.
      destruct (GdxSymbol.check_dims l) as [ds | e].
      + unfold bind at 1. unfold GdxSymbol.self at 1. cbn [fst snd].
        unfold bind at 1. unfold liftR at 1.
        unfold GdxSymbol.num_dims, GdxSymbol.dims.
        cbn [_dims with_variable_type blank].
        exists AttributeError, w1. repeat split; assumption.
      + exists e, w1. split; [reflexivity | split; [exact F | split]];
          [exact Hd | intros k' ds Q1 Q2; discriminate Q2].
    - exists e, w. split; [reflexivity | split; [| split]]; try reflexivity.
      intros k ds Q. discriminate Q. }
  destruct E as [e [w1 [E [F [Hd Attr]]]]]. rewrite E. cbn [fst snd].
  split; [intros s Q; discriminate Q | split; [| split; assumption]].
  intros k ds Q C. rewrite (Attr k ds Q C). reflexivity.
Qed.

Lemma init_rejects_domain_list_witness :
  fst (GdxSymbol.__init__ Sample.env "p" (PInt GMS_DT_PAR)
         (PList [PStr "region"; PStr "year"]) None None "" PNone
         Sample.world0) = Raise AttributeError.
Proof.
  apply (proj1 (proj2 (init_rejects_domain_list Sample.env "p"
                         (PInt GMS_DT_PAR) [PStr "region"; PStr "year"]
                         None None "" PNone Sample.world0))
           DT_Parameter ["region"; "year"]); reflexivity.
Defined.

Lemma check_dims_strings (l : list string) :
  GdxSymbol.check_dims (map PStr l) = Ok l.
Proof.
  induction l as [| x l IH]; simpl; [reflexivity |]. rewrite IH. reflexivity.
Qed.

Lemma set_dims_int_unpopulated (s : GdxSymbol) (w : World) (n : Z) :
  _loaded s = false ->
  GdxSymbol.set_dims (PInt n) (s, w) =
    (Ok tt,
     (with_dataframe
        (Some (empty_table (_data_type s) (repeat "*" (Z.to_nat n))))
        (with_dims (Some (repeat "*" (Z.to_nat n))) s),
      w)).
Proof.
  intro L.
  unfold GdxSymbol.set_dims, GdxSymbol.has_records, GdxSymbol._init_dataframe,
    GdxSymbol.own_columns, GdxSymbol.dims, GdxSymbol.value_col_names,
    GdxSymbol.value_cols.
  run. cbn [fst snd]. rewrite L. reflexivity.
Qed.

Lemma set_dims_list_unpopulated (s : GdxSymbol) (w : World)
    (d l : list string) :
  _loaded s = false ->
  _dims s = Some d ->
  List.length d = List.length l ->
  GdxSymbol.set_dims (PList (map PStr l)) (s, w) =
    (Ok tt,
     (with_dataframe (Some (empty_table (_data_type s) l))
        (with_dims (Some l) s),
      w)).
Proof.
  intros L D Len.
  unfold GdxSymbol.set_dims, GdxSymbol.has_records, GdxSymbol._init_dataframe,
    GdxSymbol.own_columns, GdxSymbol.num_dims, GdxSymbol.dims,
    GdxSymbol.value_col_names, GdxSymbol.value_cols.
  run. cbn [fst snd]. rewrite L. cbn [as_int]. rewrite check_dims_strings.
  cbn [fst snd]. rewrite D. rewrite length_map, Len, Nat.eqb_refl, andb_false_r.
  cbn [fst snd _loaded with_dims]. rewrite L. reflexivity.
Qed.

(** X13: bound to a container that already holds symbols, at a position
    [i > 0] that the open file describes, a new symbol takes its record
    count, its description and its domain labels from the session (the
    description passed to the constructor is replaced), for a Variable also
    its subtype; it is left not loaded, with an empty table over the labels
    read.  Exactly two calls go through the handle, for the extended
    information and for the domain, and the container is not touched. *)
Theorem init_bound_reads_metadata (env : Env) (name : string)
    (data_type : PyVal) (n i : Z) (descr : string) (variable_type : PyVal)
    (w : World) (k : GamsDataType) (c : gdxcc.Content)
    (records userinfo r2 : Z) (descr' : string) (domain : list string) :
  GamsDataType_call data_type = Ok k ->
  GdxFile_len (file w) <> 0 ->
  (0 < i)%Z ->
  gdxcc.content (backend env) (H w) = Some c ->
  gdxcc.symbol_info_x c i = (1%Z, records, userinfo, descr') ->
  gdxcc.symbol_get_domain_x c i = (r2, domain) ->
  r2 <> 0%Z ->
  List.length domain = Z.to_nat n ->
  (k = DT_Variable -> exists t, GamsVariableType_call (PInt userinfo) = Ok t) ->
  exists w',
    GdxSymbol.__init__ env name data_type (PInt n) (Some this_file) (Some i)
      descr variable_type w =
      (Ok (mkGdxSymbol name descr' false k (subtype_read k userinfo)
             (Some (empty_table k domain)) (Some domain) (Some this_file)
             (Some i) (Some records)),
       w') /\
    file w' = file w /\
    gdxcc.calls (H w') =
      gdxcc.calls (H w) ++ [gdxcc.SymbolInfoX i; gdxcc.SymbolGetDomainX i].
Proof.
  intros K NE Pos C IX DX R2 Len Var.
  unfold GdxSymbol.__init__. unfold bind at 1. unfold liftR at 1. rewrite K.
  fold (blank name descr k).
  destruct (set_variable_type_fresh variable_type name descr k w)
    as [w1 [A [F Hd]]].
  unfold bind at 1. rewrite A. unfold bind at 1.
  rewrite set_dims_int_unpopulated by reflexivity.
  unfold bind at 1. unfold GdxSymbol.self at 1. cbn [fst snd].
  unfold bind at 1. cbn [_dataframe with_dataframe when]. unfold ret at 1.
  unfold bind at 1. unfold GdxSymbol.upd at 1. unfold modify. cbn [fst snd].
  unfold bind at 1. unfold GdxSymbol.upd at 1. unfold modify. cbn [fst snd].
  unfold GdxSymbol.file_truthy. cbn [fst snd _file with_file with_index].
  rewrite F. apply Nat.eqb_neq in NE. rewrite NE. cbn [negb].
  unfold bind at 1. unfold GdxSymbol.world at 1. unfold call at 1.
  cbn [fst snd H file log]. unfold gdxcc.gdxSymbolInfoX. cbv zeta.
  assert (C1 : gdxcc.content (backend env)
                 (gdxcc.record (gdxcc.SymbolInfoX i) (H w1)) = Some c)
    by (unfold gdxcc.content in *; cbn [gdxcc.opened gdxcc.record];
        rewrite Hd; exact C).
  rewrite C1, IX. cbn [fst snd].
  unfold bind at 1. change (negb (1 =? 1)%Z) with false. cbn [when].
  unfold ret at 1.
  unfold bind at 1. unfold GdxSymbol.upd at 1. unfold modify. cbn [fst snd].
  unfold bind at 1. unfold GdxSymbol.self at 1. cbn [fst snd].
  cbn [_data_type with_num_records with_index with_file with_dataframe
       with_dims with_variable_type blank].
  assert (C2 : gdxcc.content (backend env)
                 (gdxcc.record (gdxcc.SymbolGetDomainX i)
                    (gdxcc.record (gdxcc.SymbolInfoX i) (H w1))) = Some c)
    by exact C1.
  assert (R2' : (r2 =? 0)%Z = false) by (apply Z.eqb_neq; exact R2).
  assert (Pos' : (0 <? i)%Z = true) by (apply Z.ltb_lt; exact Pos).
  assert (Calls : gdxcc.calls
                    (gdxcc.record (gdxcc.SymbolGetDomainX i)
                       (gdxcc.record (gdxcc.SymbolInfoX i) (H w1))) =
                  gdxcc.calls (H w) ++
                  [gdxcc.SymbolInfoX i; gdxcc.SymbolGetDomainX i]).
  { cbn [gdxcc.calls gdxcc.record]. rewrite Hd, <- app_assoc. reflexivity. }
  assert (Tail : forall S0 : GdxSymbol,
             _loaded S0 = false ->
             _dims S0 = Some (repeat "*" (Z.to_nat n)) ->
             (GdxSymbol.upd (with_description descr') ;;;
              when (0 <? i)%Z
                (x <- GdxSymbol.world
                        (call (gdxcc.gdxSymbolGetDomainX (backend env) i)) ;;
                 (let (ret_, gdx_domain) := x in
                  when (ret_ =? 0)%Z
                    (raise (GdxError "Unable to get domain information")) ;;;
                  s <- GdxSymbol.self ;;
                  nd <- liftR (GdxSymbol.num_dims s) ;;
                  when (negb (Nat.eqb (List.length gdx_domain) nd))
                    (raise AssertionError) ;;;
                  GdxSymbol.set_dims (PList (map PStr gdx_domain)))))
               (S0, mkWorld (file w1)
                      (gdxcc.record (gdxcc.SymbolInfoX i) (H w1)) (log w1)) =
             (Ok tt,
              (with_dataframe (Some (empty_table (_data_type S0) domain))
                 (with_dims (Some domain) (with_description descr' S0)),
               mkWorld (file w1)
                 (gdxcc.record (gdxcc.SymbolGetDomainX i)
                    (gdxcc.record (gdxcc.SymbolInfoX i) (H w1)))
                 (log w1)))).
  { intros S0 L0 D0. rewrite Pos'. unfold when at 1.
    unfold bind at 1. unfold GdxSymbol.upd at 1. unfold modify.
    cbn [fst snd]. unfold bind at 1. unfold GdxSymbol.world at 1.
    unfold call at 1. cbn [fst snd H file log].
    unfold gdxcc.gdxSymbolGetDomainX. cbv zeta. rewrite C2, DX.
    cbn [fst snd]. rewrite R2'. unfold when at 1.
    unfold bind at 1. unfold ret at 1.
    unfold bind at 1. unfold GdxSymbol.self at 1. cbn [fst snd].
    unfold bind at 1. unfold liftR at 1.
    unfold GdxSymbol.num_dims, GdxSymbol.dims. cbn [_dims with_description].
    rewrite D0. rewrite repeat_length, Len, Nat.eqb_refl. cbn [negb when].
    unfold bind at 1. unfold ret at 1.
    rewrite (set_dims_list_unpopulated _ _ (repeat "*" (Z.to_nat n)) domain);
      [reflexivity | exact L0 | exact D0 |].
    rewrite repeat_length. symmetry. exact Len. }
  destruct (GamsDataType_eqb k DT_Variable) eqn:V.
  - apply GamsDataType_eqb_eq in V. destruct (Var V) as [t T].
    assert (Vstep : forall (S0 : GdxSymbol) (w0 : World),
               _data_type S0 = DT_Variable ->
               (t <- liftR (GamsVariableType_call (PInt userinfo)) ;;
                GdxSymbol.set_variable_type (PVarType t)) (S0, w0) =
               (Ok tt, (with_variable_type (Some t) S0, w0))).
    { intros S0 w0 D0. rewrite T. unfold GdxSymbol.set_variable_type. run.
      cbn [fst snd]. rewrite D0. reflexivity. }
    unfold when at 1. unfold bind at 1.
    rewrite Vstep by (subst k; reflexivity). cbv beta iota.
    match goal with
    | |- context [(GdxSymbol.upd (with_description descr') ;;; _) (?S0, _)] =>
        rewrite (Tail S0) by reflexivity
    end.
    subst k. eexists. split.
    { unfold subtype_read. rewrite T. reflexivity. }
    split; [exact F | exact Calls].
  - unfold when at 1. unfold bind at 1. unfold ret at 1.
    match goal with
    | |- context [(GdxSymbol.upd (with_description descr') ;;; _) (?S0, _)] =>
        rewrite (Tail S0) by reflexivity
    end.
    eexists. split.
    { unfold subtype_read, initial_subtype. rewrite V. reflexivity. }
    split; [exact F | exact Calls].
Qed.

Lemma init_bound_reads_metadata_witness :
  exists w',
    GdxSymbol.__init__ Sample.env "x" (PInt GMS_DT_VAR) (PInt 1)
      (Some this_file) (Some 2%Z) "" PNone Sample.world1 =
      (Ok (mkGdxSymbol "x" "a variable" false DT_Variable
             (subtype_read DT_Variable GMS_VARTYPE_POSITIVE)
             (Some (empty_table DT_Variable ["i"])) (Some ["i"])
             (Some this_file) (Some 2%Z) (Some 2%Z)),
       w') /\
    file w' = file Sample.world1 /\
    gdxcc.calls (H w') =
      gdxcc.calls (H Sample.world1) ++
      [gdxcc.SymbolInfoX 2; gdxcc.SymbolGetDomainX 2].
Proof.
  apply (init_bound_reads_metadata Sample.env "x" (PInt GMS_DT_VAR) 1 2 ""
           PNone Sample.world1 DT_Variable Sample.demo 2 GMS_VARTYPE_POSITIVE
           1 "a variable" ["i"]).
  - reflexivity.
  - vm_compute. intro Q. discriminate Q.
  - lia.
  - exact world1_content.
  - reflexivity.
  - reflexivity.
  - intro Q. discriminate Q.
  - reflexivity.
  - intros _. exists VT_Positive. reflexivity.
Defined.

Lemma check_insert_setitem_spec_witness :
  fst (GdxFile._check_insert_setitem (PInt (-3)) (OSym Sample.par)
         Sample.world_a) = Ok ((-3)%Z, Sample.par) /\
  (exists msg, Error "Invalid key" = Error msg).
Proof.
  split.
  - apply (proj2 (proj1 (proj2 (check_insert_setitem_spec (PInt (-3))
                                  (OSym Sample.par) Sample.world_a))
                    (-3)%Z Sample.par)).
    repeat split. vm_compute. intro Q. discriminate Q.
  - apply (proj2 (proj2 (check_insert_setitem_spec (PInt 2)
                           (OSym Sample.par) Sample.world_a))
             (Error "Invalid key")).
    reflexivity.
Defined.

(** ** The setters on a symbol *)

(** X14: on a loaded symbol that holds rows, assigning a list of as many
    labels as the symbol has dimensions replaces the labels and nothing is
    logged.  When the table has the number of columns of the symbol (its
    dimensions and the channels of its kind) the domain columns are
    renamed: the table keeps every row and gets the new labels followed by
    the channel names.  When it has another number of columns, as after a
    refused assignment that changed the number of dimensions, the
    relabelling is refused with [ValueError]: the new labels stay and the
    table is what it was. *)
Theorem dims_rename_keeps_rows (s : GdxSymbol) (w : World)
    (df : pds.DataFrame) (d l : list string) :
  _loaded s = true ->
  _dataframe s = Some df ->
  pds.rows df <> [] ->
  _dims s = Some d ->
  List.length l = List.length d ->
  GdxSymbol.set_dims (PList (map PStr l)) (s, w) =
    if Nat.eqb (own_width (List.length d) s) (List.length (pds.columns df))
    then
      (Ok tt,
       (with_dataframe
          (Some (pds.mkDataFrame (map LStr (l ++ GdxSymbol.value_col_names s))
                   (pds.rows df)))
          (with_dims (Some l) s),
        w))
    else (Raise ValueError, (with_dims (Some l) s, w)).
Proof.
  intros L F Rows D Len.
  assert (Pos : (0 <? pds.len_index df)%Z = true).
  { apply Z.ltb_lt. unfold pds.len_index.
    destruct (pds.rows df); [exfalso; apply Rows; reflexivity |].
    cbn [List.length]. lia. }
  unfold GdxSymbol.set_dims, GdxSymbol.has_records, GdxSymbol.num_records,
    GdxSymbol.own_columns, GdxSymbol.num_dims, GdxSymbol.dims,
    GdxSymbol.is_list, GdxSymbol.py_len.
  run. cbn [fst snd]. rewrite L, F, Pos. cbn [fst snd]. rewrite D.
  rewrite length_map, Len, Nat.eqb_refl. cbn [negb as_int fst snd].
  rewrite check_dims_strings. cbn [fst snd]. rewrite D.
  rewrite Nat.eqb_refl. cbn [negb]. rewrite andb_false_r.
  cbn [fst snd _loaded _dataframe _dims with_dims]. rewrite L, F, Pos.
  cbn [fst snd _loaded _dataframe _dims with_dims]. rewrite F.
  unfold pds.set_columns.
  assert (Same : List.length
                   (map LStr
                      (l ++ GdxSymbol.value_col_names (with_dims (Some l) s))) =
                 own_width (List.length d) s).
  { rewrite length_map, length_app, Len.
    unfold own_width, GdxSymbol.value_col_names. rewrite length_map.
    reflexivity. }
  rewrite Same.
  destruct (Nat.eqb (own_width (List.length d) s)
              (List.length (pds.columns df))); reflexivity.
Qed.

Lemma dims_rename_keeps_rows_witness :
  GdxSymbol.set_dims (PList (map PStr ["region"])) (Sample.par, Sample.world0) =
    (if Nat.eqb (own_width (List.length ["i"]) Sample.par)
          (List.length
             (pds.columns
                (pds.mkDataFrame [LStr "i"; LStr "Value"]
                   [[pds.CStr "a"; pds.CFloat Sample.one]])))
     then
       (Ok tt,
        (with_dataframe
           (Some (pds.mkDataFrame
                    (map LStr
                       (["region"] ++ GdxSymbol.value_col_names Sample.par))
                    (pds.rows
                       (pds.mkDataFrame [LStr "i"; LStr "Value"]
                          [[pds.CStr "a"; pds.CFloat Sample.one]]))))
           (with_dims (Some ["region"]) Sample.par),
         Sample.world0))
     else (Raise ValueError, (with_dims (Some ["region"]) Sample.par,
                              Sample.world0))) /\
  GdxSymbol.set_dims (PList (map PStr ["k"; "l"]))
    (fst (snd (GdxSymbol.set_dims (PList [PStr "i"; PStr "j"])
                 (Sample.par, Sample.world0))),
     Sample.world0) =
    (Raise ValueError,
     (with_dims (Some ["k"; "l"])
        (fst (snd (GdxSymbol.set_dims (PList [PStr "i"; PStr "j"])
                     (Sample.par, Sample.world0)))),
      Sample.world0)).
Proof.
  split.
  - apply (dims_rename_keeps_rows Sample.par Sample.world0
             (pds.mkDataFrame [LStr "i"; LStr "Value"]
                [[pds.CStr "a"; pds.CFloat Sample.one]]) ["i"] ["region"]).
    + reflexivity.
    + reflexivity.
    + discriminate.
    + reflexivity.
    + reflexivity.
  - apply (dims_rename_keeps_rows
             (fst (snd (GdxSymbol.set_dims (PList [PStr "i"; PStr "j"])
                          (Sample.par, Sample.world0))))
             Sample.world0
             (pds.mkDataFrame [LStr "i"; LStr "Value"]
                [[pds.CStr "a"; pds.CFloat Sample.one]])
             ["i"; "j"] ["k"; "l"]).
    + reflexivity.
    + reflexivity.
    + discriminate.
    + reflexivity.
    + reflexivity.
Defined.

Lemma check_dims_refuses (l : list PyVal) :
  forallb is_str l = false ->
  GdxSymbol.check_dims l =
    Raise (Error "Individual dimensions must be denoted by strings.").
Proof.
  induction l as [| v l IH]; [discriminate |].
  destruct v; try reflexivity.
  cbn [forallb is_str andb GdxSymbol.check_dims]. intro N.
  rewrite (IH N). reflexivity.
Qed.

  (** The warning of the [dims] setter writes to the log only, and nothing
      at all on a symbol that holds no rows; it can only fail on a missing
      attribute. *)
Lemma dims_warning_world (value : PyVal) (populated : bool)
    (s s' : GdxSymbol) (w w' : World) (r : Res unit) :
  when populated
    (s <- GdxSymbol.self ;;
     differs <- (if GdxSymbol.is_list value
                 then nd <- liftR (GdxSymbol.num_dims s) ;;
                      ret (negb (Nat.eqb (GdxSymbol.py_len value) nd))
                 else ret true) ;;
     when differs
       (_ <- liftR (GdxSymbol.dims s) ;;
        GdxSymbol.world (logger WARNING
          "Cannot set dims, because dataframe already contains data.")))
    (s, w) = (r, (s', w')) ->
  file w' = file w /\ H w' = H w /\
  (populated = false -> r = Ok tt /\ w' = w) /\
  (forall e, r = Raise e -> e = AttributeError).
Proof.
  run. cbn [fst snd]. unfold GdxSymbol.num_dims, GdxSymbol.dims.
  destruct populated;
    [| intro E; inversion E; repeat split; intros; reflexivity || discriminate].
  destruct (GdxSymbol.is_list value); cbn [fst snd].
  - destruct (_dims s) as [d |];
      [| cbv beta iota; intro E; inversion E; repeat split; intros;
         (discriminate || congruence)].
    cbv beta iota.
    destruct (negb (Nat.eqb (GdxSymbol.py_len value) (List.length d)));
      cbn [fst snd]; intro E; inversion E;
      repeat split; intros; discriminate.
  - destruct (_dims s) as [d |]; cbn [fst snd]; intro E; inversion E;
      repeat split; intros; (discriminate || congruence).
Qed.

Lemma has_records_unloaded (s : GdxSymbol) (w : World) :
  _loaded s = false -> GdxSymbol.has_records (s, w) = (Ok false, (s, w)).
Proof.
  intro L. unfold GdxSymbol.has_records. run. cbn [fst snd]. rewrite L.
  reflexivity.
Qed.

Lemma has_records_raises (st st' : GdxSymbol.St) (e : Exn) :
  GdxSymbol.has_records st = (Raise e, st') -> e = AttributeError.
Proof.
  unfold GdxSymbol.has_records, GdxSymbol.num_records. run.
  destruct (_loaded (fst st)); [| discriminate].
  destruct (_dataframe (fst st)); cbn [fst snd]; intro E; inversion E.
  reflexivity.
Qed.

  (** What the [dims] setter does with a value it does not take. *)
Lemma set_dims_refused (value : PyVal) (s : GdxSymbol) (w : World) :
  dims_accepted value = false ->
  exists e w',
    GdxSymbol.set_dims value (s, w) = (Raise e, (s, w')) /\
    file w' = file w /\ H w' = H w /\
    ((exists msg, e = Error msg) \/ e = AttributeError) /\
    (_loaded s = false -> w' = w /\ exists msg, e = Error msg).
Proof.
  intro N. unfold GdxSymbol.set_dims. unfold bind at 1.
  destruct (GdxSymbol.has_records (s, w)) as [[populated | e] st1] eqn:HR.
  2: { pose proof (has_records_state _ _ _ HR) as Q. subst st1.
       pose proof (has_records_raises _ _ _ HR) as Q. subst e.
       exists AttributeError, w.
       split; [reflexivity |]. split; [reflexivity |]. split; [reflexivity |].
       split; [right; reflexivity |].
       intro L. rewrite (has_records_unloaded s w L) in HR. discriminate HR. }
  assert (Pop : _loaded s = false -> populated = false).
  { intro L. rewrite (has_records_unloaded s w L) in HR.
    inversion HR. reflexivity. }
  apply has_records_state in HR. subst st1.
  unfold bind at 1.
  match goal with
  | |- context [when populated ?blk (s, w)] =>
      destruct (when populated blk (s, w)) as [[u | e] [s1 w1]] eqn:Warn
  end.
  2: { pose proof (dims_warning_symbol _ _ _ _ _ _ _ Warn) as Q. subst s1.
       destruct (dims_warning_world _ _ _ _ _ _ _ Warn) as [F [Hd [Un At]]].
       exists e, w1. split; [reflexivity |]. split; [exact F |].
       split; [exact Hd |]. split; [right; apply At; reflexivity |].
       intro L. destruct (Un (Pop L)) as [Q _]. discriminate Q. }
  pose proof (dims_warning_symbol _ _ _ _ _ _ _ Warn) as Q. subst s1.
  destruct (dims_warning_world _ _ _ _ _ _ _ Warn) as [F [Hd [Un _]]].
  unfold dims_accepted in N. destruct (as_int value) as [n |] eqn:I;
    [discriminate N |].
  destruct value; try discriminate I;
    try (exists (Error "dims must be an int or a list."), w1;
         split; [reflexivity |]; split; [exact F |]; split; [exact Hd |];
         split; [left; eexists; reflexivity |];
         intro L; split; [exact (proj2 (Un (Pop L))) | eexists; reflexivity]).
  rewrite (check_dims_refuses _ N). unfold bind at 1. unfold liftR.
  exists (Error "Individual dimensions must be denoted by strings."), w1.
  split; [reflexivity |]. split; [exact F |]. split; [exact Hd |].
  split; [left; eexists; reflexivity |].
  intro L. split; [exact (proj2 (Un (Pop L))) | eexists; reflexivity].
Qed.

(** X15: the [dims] setter refuses whatever is neither an int nor a list of
    strings (a string, [None], a pandas index, a list with a number in it):
    the call raises [Error], or [AttributeError] where the symbol lacks an
    attribute the warning reads, and the symbol is what it was, with the
    container and the state behind the handle; on a symbol that is not
    loaded the exception is [Error] and nothing is logged either. *)
Theorem dims_setter_rejects (value : PyVal) (s : GdxSymbol) (w : World) :
  dims_accepted value = false ->
  exists e w',
    GdxSymbol.set_dims value (s, w) = (Raise e, (s, w')) /\
    file w' = file w /\ H w' = H w /\
    ((exists msg, e = Error msg) \/ e = AttributeError) /\
    (_loaded s = false -> w' = w /\ exists msg, e = Error msg).
Proof.
  exact (set_dims_refused value s w).
Qed.

Lemma dims_setter_rejects_witness :
  exists e w',
    GdxSymbol.set_dims (PList [PStr "i"; PInt 2]) (Sample.par, Sample.world0) =
      (Raise e, (Sample.par, w')) /\
    file w' = file Sample.world0 /\ H w' = H Sample.world0 /\
    ((exists msg, e = Error msg) \/ e = AttributeError) /\
    (_loaded Sample.par = false ->
     w' = Sample.world0 /\ exists msg, e = Error msg).
Proof.
  apply (dims_setter_rejects (PList [PStr "i"; PInt 2]) Sample.par Sample.world0).
  reflexivity.
Defined.

Lemma bind_never_ok {S A B} (m : M S A) (k : A -> M S B) :
  (forall a st, is_ok (fst (k a st)) = false) ->
  forall st, is_ok (fst (bind m k st)) = false.
Proof.
  intros K st. unfold bind. destruct (m st) as [[a | e] st'].
  - apply K.
  - reflexivity.
Qed.

(** X16: the [dataframe] setter never completes for a [DataFrame]
    argument.  When the leading labels of the table (all but the channel
    columns) are strings, the setter hands them to the [dims] setter as a
    pandas index, which that setter refuses: the symbol is what it was and
    the exception is not the [NameError] of the missing [copy] module, which
    is where the call ends otherwise at the latest. *)
Theorem dataframe_setter_refuses_tables (df : pds.DataFrame) (s : GdxSymbol)
    (w : World) :
  is_ok (fst (GdxSymbol.set_dataframe (GdxSymbol.ADataFrame df) (s, w))) = false /\
  (forallb is_string_label
     (Py.list_upto (pds.columns df)
        (Z.of_nat (List.length (pds.columns df))
         - Z.of_nat (List.length (GdxSymbol.value_cols s)))) = true ->
   fst (snd (GdxSymbol.set_dataframe (GdxSymbol.ADataFrame df) (s, w))) = s /\
   fst (GdxSymbol.set_dataframe (GdxSymbol.ADataFrame df) (s, w)) <>
     Raise (NameError "copy")).
Proof.
  split.
  - unfold GdxSymbol.set_dataframe.
    apply bind_never_ok. intros s0 st0.
    apply bind_never_ok. intros u1 st1.
    apply bind_never_ok. intros s2 st2.
    apply bind_never_ok. intros nd st3.
    apply bind_never_ok. intros u4 st4. reflexivity.
  - intro Str.
    assert (Out : exists e w',
               GdxSymbol.set_dataframe (GdxSymbol.ADataFrame df) (s, w) =
                 (Raise e, (s, w')) /\
               ((exists msg, e = Error msg) \/ e = AttributeError)).
    { unfold GdxSymbol.set_dataframe.
      unfold bind at 1. unfold GdxSymbol.self at 1. cbn [fst snd]. cbv zeta.
      rewrite Str. unfold bind at 1. unfold when.
      match goal with
      | |- context [GdxSymbol.set_dims ?v (s, w)] =>
          destruct (set_dims_refused v s w eq_refl)
            as [e [w' [E [_ [_ [K _]]]]]];
          rewrite E
      end.
      exists e, w'. split; [reflexivity | exact K]. }
    destruct Out as [e [w' [E K]]]. rewrite E. cbn [fst snd].
    split; [reflexivity |].
    intro Q. injection Q as Q'. rewrite Q' in K.
    destruct K as [[msg K] | K]; discriminate K.
Qed.

Lemma dataframe_setter_refuses_tables_witness :
  is_ok (fst (GdxSymbol.set_dataframe
                (GdxSymbol.ADataFrame
                   (pds.mkDataFrame [LStr "i"; LStr "Value"] []))
                (Sample.empty_par, Sample.world0))) = false /\
  fst (snd (GdxSymbol.set_dataframe
              (GdxSymbol.ADataFrame
                 (pds.mkDataFrame [LStr "i"; LStr "Value"] []))
              (Sample.empty_par, Sample.world0))) = Sample.empty_par /\
  fst (GdxSymbol.set_dataframe
         (GdxSymbol.ADataFrame (pds.mkDataFrame [LStr "i"; LStr "Value"] []))
         (Sample.empty_par, Sample.world0)) <> Raise (NameError "copy").
Proof.
  destruct (dataframe_setter_refuses_tables
              (pds.mkDataFrame [LStr "i"; LStr "Value"] [])
              Sample.empty_par Sample.world0) as [Never Same].
  split; [exact Never |]. apply Same. reflexivity.
Defined.

(** X17: assigning a list of rows to [dataframe] on a symbol whose domain
    is set.  No rows give the empty table over the symbol's columns; rows
    whose longest has as many cells as the symbol has columns are stored in
    their order under those columns, each shorter one filled up with NaN;
    any other width is refused with [ValueError] and the symbol keeps the
    table it had.  The world is not touched in any case. *)
Theorem dataframe_setter_rows (s : GdxSymbol) (w : World) (d : list string)
    (data : list (list pds.Cell)) :
  _dims s = Some d ->
  GdxSymbol.set_dataframe (GdxSymbol.ARows data) (s, w) =
    if Nat.eqb (List.length data) 0
       || Nat.eqb (pds.width data) (own_width (List.length d) s)
    then
      (Ok tt,
       (with_dataframe
          (Some (pds.mkDataFrame (map LStr (d ++ GdxSymbol.value_col_names s))
                   (map (pds.pad (own_width (List.length d) s)) data)))
          s,
        w))
    else (Raise ValueError, (s, w)).
Proof.
  intro D. unfold GdxSymbol.set_dataframe, GdxSymbol.own_columns,
    GdxSymbol.dims, own_width.
  run. cbn [fst snd]. rewrite D. cbn [fst snd].
  assert (Len : List.length (map LStr (d ++ GdxSymbol.value_col_names s)) =
                List.length d + List.length (GdxSymbol.value_cols s)).
  { rewrite length_map, length_app. unfold GdxSymbol.value_col_names.
    rewrite length_map. reflexivity. }
  unfold pds.DataFrame_call. destruct data as [| r data].
  - reflexivity.
  - rewrite Len. cbn [List.length Nat.eqb orb].
    destruct (Nat.eqb (pds.width (r :: data))
                (List.length d + List.length (GdxSymbol.value_cols s))) eqn:Wd.
    + apply Nat.eqb_eq in Wd. rewrite Wd. reflexivity.
    + reflexivity.
Qed.

Lemma dataframe_setter_rows_witness :
  GdxSymbol.set_dataframe
    (GdxSymbol.ARows [[pds.CStr "a"; pds.CFloat Sample.one]; [pds.CStr "b"]])
    (Sample.empty_par, Sample.world0) =
    if Nat.eqb (List.length [[pds.CStr "a"; pds.CFloat Sample.one];
                             [pds.CStr "b"]]) 0
       || Nat.eqb (pds.width [[pds.CStr "a"; pds.CFloat Sample.one];
                              [pds.CStr "b"]])
            (own_width (List.length ["*"]) Sample.empty_par)
    then
      (Ok tt,
       (with_dataframe
          (Some (pds.mkDataFrame
                   (map LStr (["*"] ++ GdxSymbol.value_col_names Sample.empty_par))
                   (map (pds.pad (own_width (List.length ["*"]) Sample.empty_par))
                      [[pds.CStr "a"; pds.CFloat Sample.one]; [pds.CStr "b"]])))
          Sample.empty_par,
        Sample.world0))
    else (Raise ValueError, (Sample.empty_par, Sample.world0)).
Proof.
  apply (dataframe_setter_rows Sample.empty_par Sample.world0 ["*"]).
  reflexivity.
Defined.

(** ** [load]: the rows of every kind *)

Lemma pick_values_channels (k : GamsDataType) (v : gdxcc.Values) :
  GdxSymbol.pick_values v (GAMS_VALUE_COLS_MAP k) =
    Ok (match k with
        | DT_Set => [pds.CFloat (gdxcc.level v)]
        | _ => channel_cells k v
        end).
Proof. destruct k; reflexivity. Qed.

Lemma channel_cells_count (k : GamsDataType) (v : gdxcc.Values) :
  List.length (channel_cells k v) = List.length (GAMS_VALUE_COLS_MAP k).
Proof. destruct k; reflexivity. Qed.

  (** The loop of [load] reads one record per round, in stream order. *)
Lemma read_records_rows (env : Env) (s : GdxSymbol) (c : gdxcc.Content)
    (i : Z) (n : nat) :
  forall (w : World) (k0 : nat) (data : list (list pds.Cell)),
    gdxcc.content (backend env) (H w) = Some c ->
    gdxcc.cursor (H w) = Some (i, k0) ->
    exists h',
      GdxSymbol.read_records env n data (s, w) =
        (Ok (data ++ map (record_row (_data_type s) c i) (seq k0 n)),
         (s, mkWorld (file w) h' (log w))) /\
      gdxcc.calls h' = gdxcc.calls (H w) ++ repeat gdxcc.DataReadStr n.
Proof.
  induction n as [| n IH]; intros w k0 data C Cur.
  - exists (H w). simpl. rewrite !app_nil_r. rewrite world_eta.
    split; reflexivity.
  - simpl GdxSymbol.read_records. run.
    unfold gdxcc.gdxDataReadStr.
    assert (C' : gdxcc.content (backend env) (gdxcc.record gdxcc.DataReadStr (H w))
                 = Some c) by exact C.
    assert (Cur' : gdxcc.cursor (gdxcc.record gdxcc.DataReadStr (H w))
                   = Some (i, k0)) by exact Cur.
    cbv zeta. cbn [fst snd]. rewrite C', Cur'. cbn [fst snd].
    destruct (gdxcc.data_read_str c i k0) as [[[r0 elements] values] afdim] eqn:R.
    cbn [fst snd]. unfold GdxSymbol.value_cols.
    rewrite pick_values_channels.
    assert (Row : (if GamsDataType_eqb (_data_type s) DT_Set
                   then liftR (GdxSymbol.set_last (pds.CBool true)
                                 (map pds.CStr elements ++
                                  match _data_type s with
                                  | DT_Set => [pds.CFloat (gdxcc.level values)]
                                  | _ => channel_cells (_data_type s) values
                                  end))
                   else ret (map pds.CStr elements ++
                             match _data_type s with
                             | DT_Set => [pds.CFloat (gdxcc.level values)]
                             | _ => channel_cells (_data_type s) values
                             end)) =
                  (ret (record_row (_data_type s) c i k0) : M GdxSymbol.St _)).
    { unfold record_row. rewrite R.
      destruct (_data_type s); cbn [GamsDataType_eqb];
        try reflexivity.
      rewrite set_last_app. reflexivity. }
    cbv beta iota. unfold liftR, ret in Row. rewrite Row. cbn [fst snd].
    match goal with
    | |- context [GdxSymbol.read_records env n ?d (s, ?w2)] =>
        destruct (IH w2 (S k0) d) as [h' [E Tr]]; [exact C | reflexivity |]
    end.
    exists h'. rewrite E. cbn [file H log]. split.
    + rewrite <- app_assoc. reflexivity.
    + rewrite Tr. cbn [H gdxcc.calls gdxcc.record].
      rewrite <- app_assoc. reflexivity.
Qed.

(** X18: a bound symbol of any kind that is not loaded yet, at a position
    other than 0 and not read through [gdx2py], whose stream hands out as
    many elements per record as the symbol has dimensions, loads without an
    error.  Its table then holds one row per announced record, in stream
    order: the record's elements followed by the channel values of its
    kind (Level, Marginal, Lower, Upper, Scale for a Variable or Equation,
    the level for a Parameter, the marker [True] for a Set), under the
    domain labels and the channel names.  The session is asked to start
    the stream at the symbol's position and then for one record at a time;
    the container and the log are not touched. *)
Theorem load_rows_any_kind (env : Env) (s : GdxSymbol) (w : World)
    (i : Z) (d : list string) (c : gdxcc.Content) :
  _loaded s = false ->
  GdxSymbol.file_truthy (s, w) = true ->
  _index s = Some i ->
  i <> 0%Z ->
  GamsDataType_eqb (_data_type s) DT_Parameter && HAVE_GDX2PY env = false ->
  _dims s = Some d ->
  gdxcc.content (backend env) (H w) = Some c ->
  (forall k, k < stream_length c i ->
             List.length (stream_elements c i k) = List.length d) ->
  exists h',
    GdxSymbol.load env (s, w) =
      (Ok tt,
       (with_loaded true
          (with_dataframe
             (Some (pds.mkDataFrame
                      (map LStr (d ++ GdxSymbol.value_col_names s))
                      (map (record_row (_data_type s) c i)
                         (seq 0 (stream_length c i)))))
             s),
        mkWorld (file w) h' (log w))) /\
    gdxcc.calls h' =
      gdxcc.calls (H w) ++
      gdxcc.DataReadStrStart i :: repeat gdxcc.DataReadStr (stream_length c i).
Proof.
  intros L FT I NZ G D C Shape.
  assert (Rows : Forall (fun row => List.length row =
                           own_width (List.length d) s)
                   (map (record_row (_data_type s) c i)
                      (seq 0 (stream_length c i)))).
  { apply Forall_forall. intros row In_row.
    apply in_map_iff in In_row. destruct In_row as [k [E In_k]].
    apply in_seq in In_k. subst row.
    pose proof (Shape k ltac:(lia)) as Sh.
    unfold record_row, stream_elements in *.
    destruct (gdxcc.data_read_str c i k) as [[[r0 elements] values] afdim].
    rewrite length_app, length_map, Sh, channel_cells_count. reflexivity. }
  assert (Cols : GdxSymbol.own_columns s =
                 Ok (map LStr (d ++ GdxSymbol.value_col_names s))).
  { unfold GdxSymbol.own_columns, GdxSymbol.dims. rewrite D. reflexivity. }
  unfold GdxSymbol.load. run. cbn [fst snd]. rewrite L.
  rewrite FT. unfold GdxSymbol.index_truthy. rewrite I.
  apply Z.eqb_neq in NZ. rewrite NZ. rewrite G.
  cbn [negb]. cbn [fst snd].
  unfold gdxcc.gdxDataReadStrStart. cbv zeta.
  assert (C' : gdxcc.content (backend env)
                 (gdxcc.record (gdxcc.DataReadStrStart i) (H w))
               = Some c) by exact C.
  rewrite C'.
  destruct (gdxcc.data_read_str_start c i) as [r0 records] eqn:S.
  cbn [fst snd].
  match goal with
  | |- context [GdxSymbol.read_records env ?n ?data (s, ?w2)] =>
      destruct (read_records_rows env s c i n w2 0 data) as [h' [E Tr]];
        [exact C | reflexivity |]
  end.
  exists h'. rewrite E. cbn [file H log app].
  assert (N : Z.to_nat records = stream_length c i).
  { unfold stream_length. rewrite S. reflexivity. }
  rewrite N. split.
  - unfold GdxSymbol.set_dataframe. run. cbn [fst snd]. rewrite Cols.
    rewrite (DataFrame_call_uniform (own_width (List.length d) s)).
    + reflexivity.
    + rewrite length_map, length_app. unfold own_width, GdxSymbol.value_col_names.
      rewrite length_map. reflexivity.
    + exact Rows.
  - rewrite Tr, N. cbn [H gdxcc.calls gdxcc.record].
    rewrite <- app_assoc. reflexivity.
Qed.

Lemma load_rows_any_kind_witness :
  exists h',
    GdxSymbol.load Sample.env (Sample.var_x, Sample.world1) =
      (Ok tt,
       (with_loaded true
          (with_dataframe
             (Some (pds.mkDataFrame
                      (map LStr (["i"] ++ GdxSymbol.value_col_names Sample.var_x))
                      (map (record_row (_data_type Sample.var_x) Sample.demo 2)
                         (seq 0 (stream_length Sample.demo 2)))))
             Sample.var_x),
        mkWorld (file Sample.world1) h' (log Sample.world1))) /\
    gdxcc.calls h' =
      gdxcc.calls (H Sample.world1) ++
      gdxcc.DataReadStrStart 2 ::
      repeat gdxcc.DataReadStr (stream_length Sample.demo 2).
Proof.
  apply (load_rows_any_kind Sample.env Sample.var_x Sample.world1 2 ["i"]
           Sample.demo).
  - reflexivity.
  - vm_compute. reflexivity.
  - reflexivity.
  - lia.
  - reflexivity.
  - reflexivity.
  - exact world1_content.
  - intros k _. reflexivity.
Defined.

(** ** [load]: where [Error] comes from *)

Lemma set_dataframe_rows_raises (data : list (list pds.Cell))
    (st st' : GdxSymbol.St) (e : Exn) :
  GdxSymbol.set_dataframe (GdxSymbol.ARows data) st = (Raise e, st') ->
  not_Error e.
Proof.
  unfold GdxSymbol.set_dataframe, GdxSymbol.own_columns, GdxSymbol.dims,
    pds.DataFrame_call.
  run. destruct (_dims (fst st)) as [d |].
  - destruct data as [| r data]; [discriminate |].
    match goal with
    | |- context [Nat.eqb ?a ?b] => destruct (Nat.eqb a b); [discriminate |]
    end.
    intro E. inversion E. exact I.
  - intro E. inversion E. exact I.
Qed.

Lemma pick_values_raises (v : gdxcc.Values) (cols : list (string * Z))
    (e : Exn) :
  GdxSymbol.pick_values v cols = Raise e -> not_Error e.
Proof.
  induction cols as [| [name ind] cols IH]; [discriminate |].
  simpl. unfold gdxcc.values_index, Py.list_index. cbv zeta.
  match goal with
  | |- context [if ?b then Raise IndexError else _] => destruct b
  end.
  - intro E. inversion E. exact I.
  - match goal with
    | |- context [nth_error ?l ?n] => destruct (nth_error l n)
    end.
    + destruct (GdxSymbol.pick_values v cols); [discriminate |].
      intro E. inversion E. subst. apply IH. reflexivity.
    + intro E. inversion E. exact I.
Qed.

Lemma read_records_raises (env : Env) (n : nat) :
  forall (data : list (list pds.Cell)) (st st' : GdxSymbol.St) (e : Exn),
    GdxSymbol.read_records env n data st = (Raise e, st') -> not_Error e.
Proof.
  induction n as [| n IH]; intros data st st' e; [discriminate |].
  simpl GdxSymbol.read_records. unfold bind at 1.
  destruct (GdxSymbol.world (call (gdxcc.gdxDataReadStr (backend env))) st)
    as [[[[[r0 elements] values] afdim] | e0] st1] eqn:Rd.
  2: { unfold GdxSymbol.world, call in Rd.
       destruct (gdxcc.gdxDataReadStr (backend env) (H (snd st))).
       discriminate Rd. }
  unfold bind at 1. unfold GdxSymbol.self at 1. cbn [fst snd].
  unfold bind at 1. unfold liftR at 1.
  destruct (GdxSymbol.pick_values values (GdxSymbol.value_cols (fst st1)))
    as [vs | e1] eqn:P.
  2: { intro E. inversion E. subst. exact (pick_values_raises _ _ _ P). }
  unfold bind at 1.
  destruct (GamsDataType_eqb (_data_type (fst st1)) DT_Set).
  - unfold liftR at 1, GdxSymbol.set_last.
    destruct (map pds.CStr elements ++ vs).
    + intro E. inversion E. exact I.
    + apply IH.
  - unfold ret at 1. apply IH.
Qed.

(** X20: when [load] raises, the symbol was not loaded, and the exception
    is [Error] exactly when one of the two guards failed: the symbol has no
    container, or an empty one, or it has no position, or position 0.  In
    that case nothing was changed and no call was made.  Whatever goes
    wrong past the guards is reported by another exception. *)
Theorem load_error_is_a_guard (env : Env) (s : GdxSymbol) (w : World)
    (e : Exn) (st' : GdxSymbol.St) :
  GdxSymbol.load env (s, w) = (Raise e, st') ->
  _loaded s = false /\
  ((exists msg, e = Error msg) <->
   (GdxSymbol.file_truthy (s, w) = false \/ GdxSymbol.index_truthy s = false)) /\
  ((exists msg, e = Error msg) -> st' = (s, w)).
Proof.
  unfold GdxSymbol.load. unfold bind at 1. unfold GdxSymbol.self at 1.
  cbn [fst snd].
  destruct (_loaded s) eqn:L.
  { unfold GdxSymbol.world, logger, modify. cbn [fst snd]. discriminate. }
  destruct (GdxSymbol.file_truthy (s, w)) eqn:FT; cbn [negb].
  2: { unfold raise. intro E. inversion E. split; [reflexivity |].
       split; [| reflexivity].
       split; [intros _; left; reflexivity | intros _; eexists; reflexivity]. }
  destruct (GdxSymbol.index_truthy s) eqn:IT; cbn [negb].
  2: { unfold raise. intro E. inversion E. split; [reflexivity |].
       split; [| reflexivity].
       split; [intros _; right; reflexivity | intros _; eexists; reflexivity]. }
  intro E.
  assert (N : not_Error e).
  { destruct (GamsDataType_eqb (_data_type s) DT_Parameter && HAVE_GDX2PY env).
    - unfold bind at 1 in E.
      match type of E with
      | context [GdxSymbol.set_dataframe ?a ?st] =>
          destruct (GdxSymbol.set_dataframe a st) as [[u | e1] st1] eqn:SD
      end.
      + unfold GdxSymbol.upd, modify in E. discriminate E.
      + inversion E. subst. exact (set_dataframe_rows_raises _ _ _ _ SD).
    - unfold bind at 1 in E.
      match type of E with
      | context [GdxSymbol.world ?m ?st] =>
          destruct (GdxSymbol.world m st) as [[[r0 records] | e1] st1] eqn:St
      end.
      2: { unfold GdxSymbol.world, call in St. cbn [fst snd] in St.
           match type of St with
           | context [gdxcc.gdxDataReadStrStart ?b ?i ?h] =>
               destruct (gdxcc.gdxDataReadStrStart b i h)
           end.
           discriminate St. }
      unfold bind at 1 in E.
      destruct (GdxSymbol.read_records env (Z.to_nat records) [] st1)
        as [[data | e1] st2] eqn:RR.
      2: { inversion E. subst. exact (read_records_raises _ _ _ _ _ _ RR). }
      unfold bind at 1 in E.
      destruct (GdxSymbol.set_dataframe (GdxSymbol.ARows data) st2)
        as [[u | e1] st3] eqn:SD.
      + unfold GdxSymbol.upd, modify in E. discriminate E.
      + inversion E. subst. exact (set_dataframe_rows_raises _ _ _ _ SD). }
  split; [reflexivity |].
  split.
  - split.
    + intros [msg Q]. subst e. destruct N.
    + intros [Q | Q]; discriminate Q.
  - intros [msg Q]. subst e. destruct N.
Qed.

Lemma load_error_is_a_guard_witness :
  _loaded Sample.set_j = false /\
  ((exists msg, Error "Cannot load because there is no file pointer" = Error msg) <->
   (GdxSymbol.file_truthy (Sample.set_j, Sample.world0) = false \/
    GdxSymbol.index_truthy Sample.set_j = false)) /\
  ((exists msg, Error "Cannot load because there is no file pointer" = Error msg) ->
   (Sample.set_j, Sample.world0) = (Sample.set_j, Sample.world0)).
Proof.
  apply (load_error_is_a_guard Sample.env Sample.set_j Sample.world0).
  reflexivity.
Defined.

(** X19: where [gdx2py] could be imported, loading a Parameter asks
    nothing of the session: whatever the outcome, the state behind the
    handle, the container and the log are what they were.  When the call
    returns normally the symbol is loaded and its rows are those that
    [par2list] handed back for the container's file name and the symbol's
    name, each filled up with NaN to the length of the longest. *)
Theorem load_parameter_through_gdx2py (env : Env) (s s' : GdxSymbol)
    (w w' : World) (r : Res unit) :
  _data_type s = DT_Parameter ->
  HAVE_GDX2PY env = true ->
  _loaded s = false ->
  GdxSymbol.load env (s, w) = (r, (s', w')) ->
  w' = w /\
  (is_ok r = true ->
   _loaded s' = true /\
   table_rows s' =
     map (pds.pad (pds.width (par2list env (_filename (file w)) (_name s))))
       (par2list env (_filename (file w)) (_name s))).
Proof.
  intros K G L.
  unfold GdxSymbol.load. unfold bind at 1. unfold GdxSymbol.self at 1.
  cbn [fst snd]. rewrite L, K, G. cbn [GamsDataType_eqb andb].
  destruct (GdxSymbol.file_truthy (s, w)); cbn [negb];
    [| unfold raise; intro E; inversion E; subst;
       split; [reflexivity | intro Q; discriminate Q]].
  destruct (GdxSymbol.index_truthy s); cbn [negb];
    [| unfold raise; intro E; inversion E; subst;
       split; [reflexivity | intro Q; discriminate Q]].
  unfold GdxSymbol.set_dataframe, GdxSymbol.own_columns, GdxSymbol.dims,
    pds.DataFrame_call.
  run. cbn [fst snd].
  destruct (_dims s) as [d |]; cbn [fst snd];
    [| intro E; inversion E; subst;
       split; [reflexivity | intro Q; discriminate Q]].
  destruct (par2list env (_filename (file w)) (_name s)) as [| r0 data].
  - cbn [fst snd]. intro E. inversion E. subst.
    split; [reflexivity |]. intros _. split; reflexivity.
  - match goal with
    | |- context [Nat.eqb ?a ?b] => destruct (Nat.eqb a b)
    end; cbn [fst snd]; intro E; inversion E; subst.
    + split; [reflexivity |]. intros _. split; reflexivity.
    + split; [reflexivity | intro Q; discriminate Q].
Qed.

Lemma load_parameter_through_gdx2py_witness :
  Sample.world_a = Sample.world_a /\
  (is_ok (Ok tt) = true ->
   _loaded (with_loaded true
              (with_index (Some 1%Z)
                 (with_file (Some this_file) Sample.par))) = true /\
   table_rows (with_loaded true
                 (with_index (Some 1%Z)
                    (with_file (Some this_file) Sample.par))) =
     map (pds.pad (pds.width [[pds.CStr "a"; pds.CFloat Sample.one]]))
       [[pds.CStr "a"; pds.CFloat Sample.one]]).
Proof.
  apply (load_parameter_through_gdx2py
           (mkEnv (backend Sample.env) true
              (fun _ _ => [[pds.CStr "a"; pds.CFloat Sample.one]]))
           (with_loaded false
              (with_index (Some 1%Z) (with_file (Some this_file) Sample.par)))
           (with_loaded true
              (with_index (Some 1%Z) (with_file (Some this_file) Sample.par)))
           Sample.world_a Sample.world_a (Ok tt));
    reflexivity.
Defined.

(** ** [full_typename] *)

(** X21: [full_typename] never answers ["Scalar"]: the test compares the
    list of domain labels with the number 0, which is never equal.  A
    Parameter without dimensions is called a ["Parameter"] like any other. *)
Theorem full_typename_never_scalar (s : GdxSymbol) :
  GdxSymbol.full_typename s <> Ok "Scalar" /\
  (_data_type s = DT_Parameter ->
   _dims s = Some [] ->
   GdxSymbol.full_typename s = Ok "Parameter").
Proof.
  split.
  - unfold GdxSymbol.full_typename, GdxSymbol.list_eq_int, GdxSymbol.dims.
    destruct (_data_type s); cbn [GamsDataType_eqb GdxSymbol.GamsDataType_name];
      try discriminate.
    + destruct (_dims s); discriminate.
    + destruct (_variable_type s) as [t |]; [| discriminate].
      destruct t; discriminate.
  - intros K D.
    unfold GdxSymbol.full_typename, GdxSymbol.list_eq_int, GdxSymbol.dims.
    rewrite K, D. reflexivity.
Qed.

Lemma full_typename_never_scalar_witness :
  GdxSymbol.full_typename Sample.sym_a = Ok "Parameter".
Proof.
  apply (proj2 (full_typename_never_scalar Sample.sym_a)); reflexivity.
Defined.

(** ** The [name] setter *)

(** X22: renaming a symbol that a container holds never completes.  The
    new name is stored in the symbol, and then [_fixup_name_keys] raises
    [ValueError] or [AttributeError]: the container still has its old keys,
    and under the old key it now holds the symbol with the new name. *)
Theorem rename_contained_symbol (k v : string) (s : GdxSymbol) (w : World) :
  OrderedDict.get k (_symbols (file w)) = Some s ->
  _file s = Some this_file ->
  exists e w',
    GdxFile.on_symbol k (GdxSymbol_set_name v) w = (Raise e, w') /\
    (e = ValueError \/ e = AttributeError) /\
    OrderedDict.keys (_symbols (file w')) = OrderedDict.keys (_symbols (file w)) /\
    OrderedDict.get k (_symbols (file w')) = Some (with_name v s) /\
    H w' = H w /\ log w' = log w.
Proof.
  intros G F.
  assert (NE : exists k0 s0 rest, _symbols (file w) = (k0, s0) :: rest).
  { destruct (_symbols (file w)) as [| [k0 s0] rest]; [discriminate G |].
    exists k0, s0, rest. reflexivity. }
  destruct NE as [k0 [s0 [rest NE]]].
  assert (Out : GdxFile.on_symbol k (GdxSymbol_set_name v) w =
                  (Raise (if Nat.eqb (Py.str_len k0) 2
                          then AttributeError else ValueError),
                   mkWorld
                     (with_symbols
                        (OrderedDict.set k (with_name v s) (_symbols (file w)))
                        (file w))
                     (H w) (log w))).
  { unfold GdxFile.on_symbol, GdxSymbol_set_name. rewrite G.
    unfold bind at 1. unfold GdxSymbol.upd at 1. unfold modify.
    cbn [fst snd]. unfold GdxSymbol.file_truthy. cbn [fst snd].
    change (_file (with_name v s)) with (_file s). rewrite F.
    unfold GdxFile_len. rewrite NE. cbn [List.length Nat.eqb negb].
    unfold GdxSymbol.world, GdxFile._fixup_name_keys.
    unfold bind at 1. unfold get at 1. cbn [fst snd]. rewrite NE.
    destruct (Nat.eqb (Py.str_len k0) 2); unfold raise; cbn [fst snd];
      rewrite NE; reflexivity. }
  eexists. eexists. split; [exact Out |].
  split; [destruct (Nat.eqb (Py.str_len k0) 2); [right | left]; reflexivity |].
  cbn [file H log]. unfold with_symbols. cbn [_symbols].
  split; [apply keys_set_in; exact (get_in_keys _ _ _ G) |].
  split; [apply get_set_same |].
  split; reflexivity.
Qed.

Lemma rename_contained_symbol_witness :
  exists e w',
    GdxFile.on_symbol "a" (GdxSymbol_set_name "b") Sample.world_a = (Raise e, w') /\
    (e = ValueError \/ e = AttributeError) /\
    OrderedDict.keys (_symbols (file w')) =
      OrderedDict.keys (_symbols (file Sample.world_a)) /\
    OrderedDict.get "a" (_symbols (file w')) =
      Some (with_name "b" (with_file (Some this_file) Sample.sym_a)) /\
    H w' = H Sample.world_a /\ log w' = log Sample.world_a.
Proof.
  apply (rename_contained_symbol "a" "b"
           (with_file (Some this_file) Sample.sym_a) Sample.world_a);
    reflexivity.
Defined.

  (** A character of two bytes counts once: it is not a key of two
      characters. *)
Lemma str_len_counts_characters :
  String.length (String (Ascii.ascii_of_nat 195) (String (Ascii.ascii_of_nat 169) "")) = 2 /\
  Py.str_len (String (Ascii.ascii_of_nat 195) (String (Ascii.ascii_of_nat 169) "")) = 1.
Proof. split; reflexivity. Qed.

(** ** [GdxFile.write]: the check before the session is opened *)

(** X25: when the container stores a symbol that is not loaded, [write]
    raises [Error] before the session is asked for anything: the
    container, the state behind the handle (no call is added) and the log
    are what they were. *)
Theorem write_refuses_unloaded (env : Env) (w : World) (filename : string) :
  holds_unloaded (_symbols (file w)) ->
  GdxFile.write env filename w =
    (Raise (Error "All symbols must be loaded before this file can be written."),
     w).
Proof.
  exact (proj1 (write_all_or_nothing env w filename)).
Qed.

Lemma write_refuses_unloaded_witness :
  GdxFile.write Sample.env "out.gdx" Sample.world1 =
    (Raise (Error "All symbols must be loaded before this file can be written."),
     Sample.world1).
Proof.
  apply (write_refuses_unloaded Sample.env Sample.world1 "out.gdx").
  exists "j", Sample.set_j. split; reflexivity.
Defined.

(** ** [GdxFile.write]: the failures past the first check *)

Lemma check_loop_world (w : World) (ks : list string) :
  (forall k, In k ks -> In k (OrderedDict.keys (_symbols (file w)))) ->
  exists r,
    for_each ks (fun k => GdxFile.on_symbol k GdxFile.check_loaded) w = (r, w).
Proof.
  induction ks as [| k ks IH]; intro Sub.
  - exists (Ok tt). reflexivity.
  - simpl. unfold bind.
    destruct (in_keys_get _ _ (Sub k (or_introl eq_refl))) as [s G].
    rewrite (on_symbol_check_loaded k s w G).
    destruct (_loaded s).
    + apply IH. intros k' I. apply Sub. right. exact I.
    + eexists. reflexivity.
Qed.

(** X23: a container whose universal set was never set (one that was
    never read) cannot be written.  Once every stored symbol is loaded,
    [write] asks the session to open the path, and whatever the session
    answers (the code tests the answer as a whole, a list of two numbers,
    so it takes no answer for a failure) it binds the file name and then
    raises [AttributeError] at the call to the universal set's [write]:
    the one call made is the attempt to open, nothing is written and the
    session is not closed.  For such a container [write] returns normally
    for no path and no content. *)
Theorem write_failures (env : Env) (w : World) (filename : string) :
  (all_loaded (_symbols (file w)) ->
   universal_set (file w) = None ->
   GdxFile.write env filename w =
     (Raise AttributeError,
      mkWorld (with_filename (Some filename) (file w))
        (gdxcc.record (gdxcc.OpenWrite filename "gdxpds") (H w)) (log w))) /\
  (universal_set (file w) = None ->
   is_ok (fst (GdxFile.write env filename w)) = false).
Proof.
  split.
  - intros All U. unfold GdxFile.write. unfold bind at 1.
    rewrite (for_symbol_in_self_visits _ w check_loaded_keeps_keys).
    rewrite (check_all_loaded w _ All) by (intros k I; exact I).
    unfold bind at 1. unfold call at 1. unfold gdxcc.gdxOpenWrite.
    cbv zeta. cbn [Py.list_truthy negb].
    unfold bind at 1. unfold updf at 1. unfold modify. cbn [file H log].
    unfold bind at 1. cbn [file H log universal_set with_filename].
    rewrite U. reflexivity.
  - intro U. unfold GdxFile.write. unfold bind at 1.
    rewrite (for_symbol_in_self_visits _ w check_loaded_keeps_keys).
    destruct (check_loop_world w (OrderedDict.keys (_symbols (file w))))
      as [r E]; [intros k I; exact I |].
    rewrite E. destruct r as [u | e]; [| reflexivity].
    unfold bind at 1. unfold call at 1. unfold gdxcc.gdxOpenWrite.
    cbv zeta. cbn [Py.list_truthy negb].
    unfold bind at 1. unfold updf at 1. unfold modify. cbn [file H log].
    unfold bind at 1. cbn [file H log universal_set with_filename].
    rewrite U. reflexivity.
Qed.

Lemma write_failures_witness :
  gdxcc.open_write (backend Sample.env) "elsewhere.gdx" = (0%Z, 2%Z) /\
  GdxFile.write Sample.env "elsewhere.gdx" Sample.world_a =
    (Raise AttributeError,
     mkWorld (with_filename (Some "elsewhere.gdx") (file Sample.world_a))
       (gdxcc.record (gdxcc.OpenWrite "elsewhere.gdx" "gdxpds")
          (H Sample.world_a))
       (log Sample.world_a)) /\
  is_ok (fst (GdxFile.write Sample.env "out.gdx" Sample.world_a)) = false.
Proof.
  assert (All : all_loaded (_symbols (file Sample.world_a))).
  { intros k s G. simpl in G.
    destruct (String.eqb k "a"); [injection G as G; subst s; reflexivity |].
    discriminate G. }
  split; [reflexivity |]. split.
  - apply (proj1 (write_failures Sample.env Sample.world_a "elsewhere.gdx"));
      [exact All | reflexivity].
  - apply (proj2 (write_failures Sample.env Sample.world_a "out.gdx")).
    reflexivity.
Defined.

(** ** The enumerations *)

(** X24: calling an enumeration with the value of one of its members gives
    that member back, for the kinds and for the variable subtypes, so no two
    members share a value; an integer that is the value of no member is
    refused with [ValueError]. *)
Theorem enum_call_round_trip :
  (forall k, GamsDataType_call (PInt (GamsDataType_value k)) = Ok k) /\
  (forall t, GamsVariableType_call (PInt (GamsVariableType_value t)) = Ok t) /\
  (forall z, (forall k, GamsDataType_value k <> z) ->
             GamsDataType_call (PInt z) = Raise ValueError) /\
  (forall z, (forall t, GamsVariableType_value t <> z) ->
             GamsVariableType_call (PInt z) = Raise ValueError).
Proof.
  split; [intro k; destruct k; reflexivity |].
  split; [intro t; destruct t; reflexivity |].
  split.
  - intros z N. unfold GamsDataType_call, as_int.
    destruct (find (fun k => (GamsDataType_value k =? z)%Z) GamsDataType_members)
      as [k |] eqn:F; [| reflexivity].
    apply find_some in F. destruct F as [_ F]. apply Z.eqb_eq in F.
    destruct (N k F).
  - intros z N. unfold GamsVariableType_call, as_int.
    destruct (find (fun t => (GamsVariableType_value t =? z)%Z)
                GamsVariableType_members) as [t |] eqn:F; [| reflexivity].
    apply find_some in F. destruct F as [_ F]. apply Z.eqb_eq in F.
    destruct (N t F).
Qed.

Lemma enum_call_round_trip_witness :
  GamsDataType_call (PInt 7) = Raise ValueError /\
  GamsVariableType_call (PInt (-1)) = Raise ValueError.
Proof.
  split.
  - apply (proj1 (proj2 (proj2 enum_call_round_trip)) 7%Z).
    intro k. destruct k; discriminate.
  - apply (proj2 (proj2 (proj2 enum_call_round_trip)) (-1)%Z).
    intro t. destruct t; discriminate.
Defined.
